(** * byzved: the message ingestion pipeline

    A shallow embedding of the TypeScript sources of the Telegram ingestion
    bot: the Supabase persistence module ([src/supabase.ts]), the embeddings
    module ([src/embeddings.ts]) and the [bot.on('message')] ingestion
    handlers of [bot.ts] and [api/webhook.ts].

    Asynchronous functions are modelled in a state-and-exception monad over a
    [World]: the module-level variables of the program, the console, the
    database that sits behind the Supabase client, and the trace of requests
    sent to external services.  The behaviour of those services that the
    program cannot control (transport faults, replies of the embedding
    back ends, constructors that throw) is read from an environment of
    oracles, so every theorem quantifies over all of it. *)

From Stdlib Require Import ZArith List String Ascii Bool Lia DecimalString.
From Stdlib Require SpecFloat.
Import ListNotations.
Open Scope string_scope.
Open Scope Z_scope.

(* ================================================================== *)
(** ** JavaScript values, exceptions and dates *)

Module Js.

(** The few dynamically typed values the handlers inspect
    ([errorObj?.code], [errorObj?.status]). *)
Inductive JsVal :=
| JUndefined
| JString (s : string)
| JNumber (z : Z).

(** A thrown value, seen through the properties the code reads:
    [.code], [.status], [.message] and [String(err)]. *)
Record Exn := mkExn {
  exn_code : JsVal;
  exn_status : JsVal;
  exn_message : option string;
  exn_string : string
}.

(** [new Error(msg)] *)
Definition Error (msg : string) : Exn :=
  mkExn JUndefined JUndefined (Some msg) ("Error: " ++ msg).

Definition TypeError (msg : string) : Exn :=
  mkExn JUndefined JUndefined (Some msg) ("TypeError: " ++ msg).

Definition RangeError (msg : string) : Exn :=
  mkExn JUndefined JUndefined (Some msg) ("RangeError: " ++ msg).

(** Truthiness of a string ([!message?.text], [if (openaiKey)]). *)
Definition truthy_string (s : string) : bool :=
  match s with EmptyString => false | _ => true end.

Definition truthy_opt_string (o : option string) : bool :=
  match o with Some s => truthy_string s | None => false end.

(** Truthiness of a number ([!chatId], [count || 0]). *)
Definition truthy_number (z : Z) : bool := negb (z =? 0).

(** [hay.includes(needle)] *)
Fixpoint includes (hay needle : string) : bool :=
  if prefix needle hay then true
  else match hay with
       | EmptyString => false
       | String _ rest => includes rest needle
       end.

Definition string_of_Z (z : Z) : string :=
  NilZero.string_of_int (Z.to_int z).

Definition string_of_bool (b : bool) : string :=
  if b then "true" else "false".

(** *** Dates: a [Date] is its time value, milliseconds since the epoch. *)

Definition Date := Z.

Definition msPerDay : Z := 86400000.

(** ECMAScript's largest time value; beyond it the date is invalid. *)
Definition maxTime : Z := 8640000000000000.

Definition valid_date (t : Date) : bool :=
  (- maxTime <=? t) && (t <=? maxTime).

(** Proleptic Gregorian date of a day number (days since 1970-01-01). *)
Definition civil_from_days (day : Z) : Z * Z * Z :=
  let z := day + 719468 in
  let era := z / 146097 in
  let doe := z - era * 146097 in
  let yoe := (doe - doe / 1460 + doe / 36524 - doe / 146096) / 365 in
  let doy := doe - (365 * yoe + yoe / 4 - yoe / 100) in
  let mp := (5 * doy + 2) / 153 in
  let d := doy - (153 * mp + 2) / 5 + 1 in
  let m := if mp <? 10 then mp + 3 else mp - 9 in
  let y := yoe + era * 400 + (if m <=? 2 then 1 else 0) in
  (y, m, d).

Fixpoint zeros (n : nat) : string :=
  match n with O => EmptyString | S k => "0" ++ zeros k end.

(** Decimal rendering of a non-negative number, left-padded with zeros. *)
Definition pad (width : nat) (z : Z) : string :=
  let s := NilZero.string_of_uint (N.to_uint (Z.to_N z)) in
  zeros (width - String.length s) ++ s.

Definition iso_year (y : Z) : string :=
  if (0 <=? y) && (y <=? 9999) then pad 4 y
  else if y <? 0 then "-" ++ pad 6 (- y)
  else "+" ++ pad 6 y.

(** [Date.prototype.toISOString] on a valid time value. *)
Definition iso_string (t : Date) : string :=
  let day := t / msPerDay in
  let r := t mod msPerDay in
  let '(y, m, d) := civil_from_days day in
  iso_year y ++ "-" ++ pad 2 m ++ "-" ++ pad 2 d ++ "T"
    ++ pad 2 (r / 3600000) ++ ":" ++ pad 2 ((r / 60000) mod 60) ++ ":"
    ++ pad 2 ((r / 1000) mod 60) ++ "." ++ pad 3 (r mod 1000) ++ "Z".

(** [toISOString] throws a [RangeError] on an invalid date. *)
Definition toISOString_opt (t : Date) : option string :=
  if valid_date t then Some (iso_string t) else None.

End Js.

Import Js.

(* ================================================================== *)
(** ** Data model ([src/types.ts]) *)

(** An embedding vector: [number[]], a list of IEEE 754 doubles.  The program
    only carries the numbers, it never computes with them. *)
Definition Vector := list SpecFloat.spec_float.

(** [interface TelegramMessage] *)
Record TelegramMessage := mkTelegramMessage {
  messageId : Z;
  text : string;
  userId : Z;
  groupId : Z;
  timestamp : Date;
  userName : option string;
  userFirstName : option string;
  userLastName : option string
}.

(** [interface ConversationRecord]; [None] in [vector] is [null], [None] in
    the other optional fields is [undefined]. *)
Record ConversationRecord := mkConversationRecord {
  cr_id : option Z;
  message_id : Z;
  cr_text : string;
  user_id : Z;
  group_id : Z;
  cr_timestamp : string;
  vector : option Vector;
  user_name : option string;
  user_first_name : option string;
  user_last_name : option string;
  created_at : option string
}.

(** [interface OptOutUser], as a row of [opt_out_users]. *)
Record OptOutUser := mkOptOutUser {
  oo_id : Z;
  oo_user_id : Z;
  opted_out_at : string
}.

(** [interface EmbeddingResult] *)
Record EmbeddingResult := mkEmbeddingResult {
  er_text : string;
  embedding : option Vector
}.

(** The part of a grammY [Context] the ingestion handlers read. *)
Record TgUser := mkTgUser {
  u_id : Z;
  username : option string;
  first_name : string;
  last_name : option string
}.

Record TgMessage := mkTgMessage {
  m_message_id : Z;
  m_text : option string;
  m_date : Z
}.

Record Context := mkContext {
  ctx_message : option TgMessage;
  ctx_from : option TgUser;
  ctx_chat_id : option Z
}.

(* ================================================================== *)
(** ** External services *)

(** The error object of a PostgREST reply. *)
Record PgError := mkPgError {
  pg_code : string;
  pg_message : string
}.

(** A reply of the Supabase client: the union
    [PostgrestResponseSuccess<T> | PostgrestResponseFailure]; a failure has
    [data: null] and [count: null]. *)
Inductive PgResult (T : Type) :=
| PgOk (data : T) (count : option Z)
| PgErr (error : PgError).
Arguments PgOk {T} data count.
Arguments PgErr {T} error.

(** What happens to one request on its way: it is served by the database;
    or it is answered with an error object that is not the database's answer
    to the query as modelled below (no connection, time-out, any other
    refusal of the server); or the awaited promise rejects. *)
Inductive Fault :=
| NoFault
| FaultError (error : PgError)
| FaultThrow (e : Exn).

(** The [count] option of a query ([{ count: 'exact' }]). *)
Inductive CountAlgo := CountExact | CountPlanned | CountEstimated.

(** The requests the program sends through the Supabase client, one
    constructor per query written in [supabase.ts]. *)
Inductive Request :=
| InsertConversation (record : ConversationRecord)
    (* from('conversations').insert([record]).select() *)
| SelectOptOutSingle (userId : Z)
    (* from('opt_out_users').select('id').eq('user_id', userId).single() *)
| InsertOptOut (userId : Z) (at_ : string)
    (* from('opt_out_users').insert([{ user_id, opted_out_at }]) *)
| CountConversations (count : option CountAlgo)
    (* from('conversations').select('*', { count, head: true }) *)
| DeleteConversations (count : option CountAlgo) (userId : Z).
    (* from('conversations').delete({ count }).eq('user_id', userId) *)

Inductive OpenAIInput :=
| InputOne (text : string)
| InputMany (texts : list string).

(** Reply of [openaiClient.embeddings.create]: [response.data] may be
    missing, and so may the [embedding] of an item. *)
Record OpenAIDatum := mkOpenAIDatum { d_embedding : option Vector }.
Record OpenAIResponse := mkOpenAIResponse { r_data : option (list OpenAIDatum) }.

(** Reply of [model.embedContent]: [result.embedding] may be missing, and so
    may [result.embedding.values]. *)
Record GeminiResult := mkGeminiResult { g_embedding : option (option Vector) }.

(** Every call that leaves the process. *)
Inductive Call :=
| CallCreateClient (url key : string)
| CallDb (q : Request)
| CallConstructOpenAI (key : string)
| CallConstructGemini (key : string)
| CallOpenAIEmbeddings (input : OpenAIInput)
| CallGeminiEmbedContent (text : string).

(** How a call ends: with a value, or with a thrown value (for an [async]
    function, a rejected promise). *)
Inductive Completion (A : Type) :=
| Normal (a : A)
| Throw (e : Exn).
Arguments Normal {A} a.
Arguments Throw {A} e.

(** The oracles: what the outside world answers.  Oracles of network calls
    are indexed by the number of calls made so far, so the same request can
    be answered differently at different times. *)
Record Env := mkEnv {
  createClient_throws : string -> string -> option Exn;
  db_fault : nat -> Fault;
  openai_ctor_throws : string -> option Exn;
  gemini_ctor_throws : string -> option Exn;
  openai_embeddings_create : nat -> OpenAIInput -> Completion OpenAIResponse;
  gemini_embedContent : nat -> string -> Completion GeminiResult
}.

(* ================================================================== *)
(** ** The world *)

Inductive LogLevel := DEBUG | INFO | WARN | ERROR.

Record LogEntry := mkLogEntry {
  log_level : LogLevel;
  log_message : string
}.

(** Client handles; [client_serial] stands for object identity. *)
Record SupabaseClient := mkSupabaseClient {
  client_url : string;
  client_key : string;
  client_serial : nat
}.

Record OpenAIClient := mkOpenAIClient { openai_apiKey : string }.
Record GeminiClient := mkGeminiClient { gemini_apiKey : string }.

Inductive Provider := openai | gemini.

(** The two tables of [migrations/001_create_initial_schema.sql] with their
    [BIGSERIAL] sequences. *)
Record Database := mkDatabase {
  conversations : list ConversationRecord;
  opt_out_users : list OptOutUser;
  conversations_seq : Z;
  opt_out_users_seq : Z
}.

Record World := mkWorld {
  (* let supabaseClient: SupabaseClient | null   (supabase.ts) *)
  supabaseClient : option SupabaseClient;
  (* module variables of embeddings.ts *)
  openaiClient : option OpenAIClient;
  geminiClient : option GeminiClient;
  embeddingsAvailable : bool;
  embeddingsProvider : option Provider;
  (* the logger singleton and what it printed *)
  logLevel : LogLevel;
  console : list LogEntry;
  (* outside the process *)
  db : Database;
  clock : Date;
  calls : list Call;
  env : Env
}.

Definition set_supabaseClient (c : option SupabaseClient) (w : World) : World :=
  mkWorld c (openaiClient w) (geminiClient w) (embeddingsAvailable w)
    (embeddingsProvider w) (logLevel w) (console w) (db w) (clock w) (calls w) (env w).

Definition set_openaiClient (c : option OpenAIClient) (w : World) : World :=
  mkWorld (supabaseClient w) c (geminiClient w) (embeddingsAvailable w)
    (embeddingsProvider w) (logLevel w) (console w) (db w) (clock w) (calls w) (env w).

Definition set_geminiClient (c : option GeminiClient) (w : World) : World :=
  mkWorld (supabaseClient w) (openaiClient w) c (embeddingsAvailable w)
    (embeddingsProvider w) (logLevel w) (console w) (db w) (clock w) (calls w) (env w).

Definition set_embeddingsAvailable (b : bool) (w : World) : World :=
  mkWorld (supabaseClient w) (openaiClient w) (geminiClient w) b
    (embeddingsProvider w) (logLevel w) (console w) (db w) (clock w) (calls w) (env w).

Definition set_embeddingsProvider (p : option Provider) (w : World) : World :=
  mkWorld (supabaseClient w) (openaiClient w) (geminiClient w) (embeddingsAvailable w)
    p (logLevel w) (console w) (db w) (clock w) (calls w) (env w).

Definition set_console (l : list LogEntry) (w : World) : World :=
  mkWorld (supabaseClient w) (openaiClient w) (geminiClient w) (embeddingsAvailable w)
    (embeddingsProvider w) (logLevel w) l (db w) (clock w) (calls w) (env w).

Definition set_db (d : Database) (w : World) : World :=
  mkWorld (supabaseClient w) (openaiClient w) (geminiClient w) (embeddingsAvailable w)
    (embeddingsProvider w) (logLevel w) (console w) d (clock w) (calls w) (env w).

Definition set_calls (l : list Call) (w : World) : World :=
  mkWorld (supabaseClient w) (openaiClient w) (geminiClient w) (embeddingsAvailable w)
    (embeddingsProvider w) (logLevel w) (console w) (db w) (clock w) l (env w).

(* ================================================================== *)
(** ** The monad of asynchronous functions *)

Definition M (A : Type) : Type := World -> Completion A * World.

Definition ret {A} (a : A) : M A := fun w => (Normal a, w).

Definition bind {A B} (m : M A) (k : A -> M B) : M B :=
  fun w =>
    match m w with
    | (Normal a, w') => k a w'
    | (Throw e, w') => (Throw e, w')
    end.

Definition throw {A} (e : Exn) : M A := fun w => (Throw e, w).

(** [try { body } catch (error) { handler }] *)
Definition try_catch {A} (body : M A) (handler : Exn -> M A) : M A :=
  fun w =>
    match body w with
    | (Normal a, w') => (Normal a, w')
    | (Throw e, w') => handler e w'
    end.

Definition gets {A} (f : World -> A) : M A := fun w => (Normal (f w), w).

Definition modify (f : World -> World) : M unit := fun w => (Normal tt, f w).

Declare Scope monad_scope.
Delimit Scope monad_scope with monad.
Notation "x <- m ;; k" := (bind m (fun x => k))
  (at level 61, m at next level, right associativity) : monad_scope.
Notation "m ;; k" := (bind m (fun _ => k))
  (at level 61, right associativity) : monad_scope.
Open Scope monad_scope.

(** Record a call and return how many calls were made before it. *)
Definition emit (c : Call) : M nat :=
  fun w => (Normal (List.length (calls w)), set_calls (calls w ++ [c]) w).

(* ================================================================== *)
(** ** The logger ([src/logger.ts])

    The console keeps the level and the first argument of every line the
    logger prints; the time-stamp prefix and the data argument are left out. *)

Module Logger.

(** Position of a level in [levels = [DEBUG, INFO, WARN, ERROR]]. *)
Definition indexOf (l : LogLevel) : nat :=
  match l with DEBUG => 0 | INFO => 1 | WARN => 2 | ERROR => 3 end%nat.

(** [_shouldLog]: [messageIndex >= currentIndex] *)
Definition _shouldLog (current level : LogLevel) : bool :=
  Nat.leb (indexOf current) (indexOf level).

Definition log (level : LogLevel) (message : string) : M unit :=
  modify (fun w => set_console (console w ++ [mkLogEntry level message]) w).

Definition at_level (level : LogLevel) (message : string) : M unit :=
  current <- gets logLevel ;;
  if _shouldLog current level then log level message else ret tt.

Definition debug := at_level DEBUG.
Definition info := at_level INFO.
Definition warn := at_level WARN.
Definition error := at_level ERROR.

End Logger.

(* ================================================================== *)
(** ** The database behind the client

    What PostgREST answers to the queries of [supabase.ts] on the schema of
    [migrations/001_create_initial_schema.sql]: [message_id] and the primary
    key are unique in [conversations], [user_id] is unique in
    [opt_out_users].  Any other refusal of the server reaches the program
    through the fault oracle. *)

Module Store.

Definition pg_data {T} (r : PgResult T) : option T :=
  match r with PgOk d _ => Some d | PgErr _ => None end.

Definition pg_error {T} (r : PgResult T) : option PgError :=
  match r with PgOk _ _ => None | PgErr e => Some e end.

Definition pg_count {T} (r : PgResult T) : option Z :=
  match r with PgOk _ c => c | PgErr _ => None end.

(** A name between double quotes. *)
Definition quoted (name : string) : string :=
  let q := String (ascii_of_nat 34) EmptyString in q ++ name ++ q.

(** SQLSTATE 23505, which PostgREST reports with HTTP status 409. *)
Definition unique_violation (constraint : string) : PgError :=
  mkPgError "23505"
    ("duplicate key value violates unique constraint " ++ quoted constraint).

(** [.single()] when the result is not exactly one row. *)
Definition no_single_row : PgError :=
  mkPgError "PGRST116" "JSON object requested, multiple (or no) rows returned".

Definition has_message_id (mid : Z) (rows : list ConversationRecord) : bool :=
  existsb (fun r => message_id r =? mid) rows.

Definition has_row_id (i : Z) (rows : list ConversationRecord) : bool :=
  existsb (fun r => match cr_id r with Some j => j =? i | None => false end) rows.

Definition has_opt_out (uid : Z) (rows : list OptOutUser) : bool :=
  existsb (fun r => oo_user_id r =? uid) rows.

Definition rows_of_user (uid : Z) (rows : list ConversationRecord)
  : list ConversationRecord :=
  filter (fun r => user_id r =? uid) rows.

Definition rows_of_others (uid : Z) (rows : list ConversationRecord)
  : list ConversationRecord :=
  filter (fun r => negb (user_id r =? uid)) rows.

Definition with_count (opt : option CountAlgo) (n : Z) : option Z :=
  match opt with Some _ => Some n | None => None end.

(** [INSERT ... RETURNING *] into [conversations]. *)
Definition serve_insert_conversation (record : ConversationRecord) (w : World)
  : PgResult (list ConversationRecord) * Database :=
  let d := db w in
  let id := match cr_id record with Some i => i | None => conversations_seq d end in
  if has_row_id id (conversations d) then
    (PgErr (unique_violation "conversations_pkey"), d)
  else if has_message_id (message_id record) (conversations d) then
    (PgErr (unique_violation "conversations_message_id_key"), d)
  else
    let row :=
      mkConversationRecord (Some id) (message_id record) (cr_text record)
        (user_id record) (group_id record) (cr_timestamp record)
        (vector record) (user_name record) (user_first_name record)
        (user_last_name record)
        (match created_at record with
         | Some c => Some c
         | None => Some (iso_string (clock w))
         end) in
    (PgOk [row] None,
     mkDatabase (conversations d ++ [row]) (opt_out_users d)
       (match cr_id record with
        | Some _ => conversations_seq d
        | None => conversations_seq d + 1
        end)
       (opt_out_users_seq d)).

(** [SELECT id FROM opt_out_users WHERE user_id = $1], exactly one row
    expected. *)
Definition serve_select_opt_out_single (uid : Z) (w : World)
  : PgResult Z * Database :=
  match filter (fun r => oo_user_id r =? uid) (opt_out_users (db w)) with
  | [r] => (PgOk (oo_id r) None, db w)
  | _ => (PgErr no_single_row, db w)
  end.

(** [INSERT INTO opt_out_users (user_id, opted_out_at)], nothing returned. *)
Definition serve_insert_opt_out (uid : Z) (at_ : string) (w : World)
  : PgResult unit * Database :=
  let d := db w in
  if has_opt_out uid (opt_out_users d) then
    (PgErr (unique_violation "opt_out_users_user_id_key"), d)
  else
    (PgOk tt None,
     mkDatabase (conversations d)
       (opt_out_users d ++ [mkOptOutUser (opt_out_users_seq d) uid at_])
       (conversations_seq d) (opt_out_users_seq d + 1)).

(** [HEAD] on [conversations]: no rows, and the total only when a count
    was asked for. *)
Definition serve_count_conversations (opt : option CountAlgo) (w : World)
  : PgResult unit * Database :=
  (PgOk tt (with_count opt (Z.of_nat (List.length (conversations (db w))))), db w).

(** [DELETE FROM conversations WHERE user_id = $1]: no rows returned
    ([return=minimal]), and the number of deleted rows only when a count was
    asked for: the client reads [count] from the reply only if the query
    was given a [count] option, and it is [null] otherwise. *)
Definition serve_delete_conversations (opt : option CountAlgo) (uid : Z) (w : World)
  : PgResult unit * Database :=
  let d := db w in
  (PgOk tt (with_count opt (Z.of_nat (List.length (rows_of_user uid (conversations d))))),
   mkDatabase (rows_of_others uid (conversations d)) (opt_out_users d)
     (conversations_seq d) (opt_out_users_seq d)).

(** Awaiting a query: the request leaves the process, and the transport
    delivers it, answers with an error of its own, or rejects. *)
Definition send {T} (q : Request) (serve : World -> PgResult T * Database)
  : M (PgResult T) :=
  n <- emit (CallDb q) ;;
  fun w =>
    match db_fault (env w) n with
    | NoFault => let '(r, d) := serve w in (Normal r, set_db d w)
    | FaultError e => (Normal (PgErr e), w)
    | FaultThrow e => (Throw e, w)
    end.

(** The five queries, named after the chains of [supabase.ts]. *)
Definition conversations_insert_select (client : SupabaseClient)
    (record : ConversationRecord) : M (PgResult (list ConversationRecord)) :=
  send (InsertConversation record) (serve_insert_conversation record).

Definition opt_out_users_select_id_single (client : SupabaseClient)
    (userId : Z) : M (PgResult Z) :=
  send (SelectOptOutSingle userId) (serve_select_opt_out_single userId).

Definition opt_out_users_insert (client : SupabaseClient)
    (userId : Z) (at_ : string) : M (PgResult unit) :=
  send (InsertOptOut userId at_) (serve_insert_opt_out userId at_).

Definition conversations_select_head (client : SupabaseClient)
    (opt : option CountAlgo) : M (PgResult unit) :=
  send (CountConversations opt) (serve_count_conversations opt).

Definition conversations_delete_eq_user (client : SupabaseClient)
    (opt : option CountAlgo) (userId : Z) : M (PgResult unit) :=
  send (DeleteConversations opt userId) (serve_delete_conversations opt userId).

End Store.

(* ================================================================== *)
(** ** [src/supabase.ts] *)

Module Supabase.
Import Store.

(** [new Date()] *)
Definition new_Date : M Date := gets clock.

Definition toISOString (t : Date) : M string :=
  match toISOString_opt t with
  | Some s => ret s
  | None => throw (RangeError "Invalid time value")
  end.

(** [createClient] of supabase-js, which may throw on its arguments. *)
Definition createClient (url key : string) : M SupabaseClient :=
  n <- emit (CallCreateClient url key) ;;
  e <- gets env ;;
  match createClient_throws e url key with
  | Some ex => throw ex
  | None => ret (mkSupabaseClient url key n)
  end.

Definition initSupabase (url key : string) : M SupabaseClient :=
  current <- gets supabaseClient ;;
  match current with
  | Some client => ret client
  | None =>
      client <- createClient url key ;;
      modify (set_supabaseClient (Some client)) ;;
      Logger.info "✅ Supabase client initialized" ;;
      ret client
  end.

Definition getSupabaseClient : M SupabaseClient :=
  current <- gets supabaseClient ;;
  match current with
  | None => throw (Error "Supabase client not initialized. Call initSupabase first.")
  | Some client => ret client
  end.

Definition insertMessage (record : ConversationRecord)
  : M (option ConversationRecord) :=
  client <- getSupabaseClient ;;
  try_catch
    (resp <- conversations_insert_select client record ;;
     match pg_error resp with
     | Some _ =>
         Logger.error "Error inserting message into conversations:" ;;
         ret None
     | None =>
         Logger.debug ("✅ Message inserted (ID: " ++ string_of_Z (message_id record)
                       ++ ", Group: " ++ string_of_Z (group_id record) ++ ")") ;;
         (* data?.[0] || null *)
         ret (match pg_data resp with Some rows => hd_error rows | None => None end)
     end)
    (fun _ =>
       Logger.error "Unexpected error inserting message:" ;;
       ret None).

Definition isUserOptedOut (userId : Z) : M bool :=
  client <- getSupabaseClient ;;
  try_catch
    (resp <- opt_out_users_select_id_single client userId ;;
     if match pg_error resp with
        | Some err => negb (pg_code err =? "PGRST116")%string
        | None => false
        end
     then
       Logger.error "Error checking opt-out status:" ;;
       ret false
     else
       (* !!data *)
       ret (match pg_data resp with Some _ => true | None => false end))
    (fun _ =>
       Logger.error "Unexpected error checking opt-out:" ;;
       ret false).

Definition addUserOptOut (userId : Z) : M bool :=
  client <- getSupabaseClient ;;
  try_catch
    (now <- new_Date ;;
     at_ <- toISOString now ;;
     resp <- opt_out_users_insert client userId at_ ;;
     match pg_error resp with
     | Some _ =>
         Logger.error "Error adding user to opt-out list:" ;;
         ret false
     | None =>
         Logger.info ("✅ User " ++ string_of_Z userId ++ " opted out") ;;
         ret true
     end)
    (fun _ =>
       Logger.error "Unexpected error during opt-out:" ;;
       ret false).

(** [count || 0] *)
Definition count_or_zero (count : option Z) : Z :=
  match count with
  | Some n => if truthy_number n then n else 0
  | None => 0
  end.

Definition getMessageCount : M Z :=
  client <- getSupabaseClient ;;
  try_catch
    (resp <- conversations_select_head client (Some CountExact) ;;
     match pg_error resp with
     | Some _ =>
         Logger.error "Error getting message count:" ;;
         ret 0
     | None => ret (count_or_zero (pg_count resp))
     end)
    (fun _ =>
       Logger.error "Unexpected error getting message count:" ;;
       ret 0).

(** [`${count}`] for [count: number | null] *)
Definition string_of_count (count : option Z) : string :=
  match count with Some n => string_of_Z n | None => "null" end.

Definition clearUserMessages (userId : Z) : M Z :=
  client <- getSupabaseClient ;;
  try_catch
    (resp <- conversations_delete_eq_user client None userId ;;
     match pg_error resp with
     | Some _ =>
         Logger.error "Error clearing user messages:" ;;
         ret 0
     | None =>
         Logger.info ("✅ Cleared " ++ string_of_count (pg_count resp)
                      ++ " messages for user " ++ string_of_Z userId) ;;
         ret (count_or_zero (pg_count resp))
     end)
    (fun _ =>
       Logger.error "Unexpected error clearing messages:" ;;
       ret 0).

End Supabase.

(* ================================================================== *)
(** ** [src/embeddings.ts] *)

Module Embeddings.

(** [await import('openai')] followed by [new OpenAI({ apiKey })] *)
Definition construct_OpenAI (apiKey : string) : M OpenAIClient :=
  _ <- emit (CallConstructOpenAI apiKey) ;;
  e <- gets env ;;
  match openai_ctor_throws e apiKey with
  | Some ex => throw ex
  | None => ret (mkOpenAIClient apiKey)
  end.

(** [await import('@google/generative-ai')] followed by
    [new GoogleGenerativeAI(geminiKey)] *)
Definition construct_Gemini (apiKey : string) : M GeminiClient :=
  _ <- emit (CallConstructGemini apiKey) ;;
  e <- gets env ;;
  match gemini_ctor_throws e apiKey with
  | Some ex => throw ex
  | None => ret (mkGeminiClient apiKey)
  end.

(** [openaiClient.embeddings.create({ model, input })] *)
Definition embeddings_create (client : OpenAIClient) (input : OpenAIInput)
  : M OpenAIResponse :=
  n <- emit (CallOpenAIEmbeddings input) ;;
  e <- gets env ;;
  match openai_embeddings_create e n input with
  | Normal r => ret r
  | Throw ex => throw ex
  end.

(** [model.embedContent(text)] *)
Definition embedContent (client : GeminiClient) (text : string) : M GeminiResult :=
  n <- emit (CallGeminiEmbedContent text) ;;
  e <- gets env ;;
  match gemini_embedContent e n text with
  | Normal r => ret r
  | Throw ex => throw ex
  end.

(** The two attempts of [initEmbeddings] answer whether the function has
    returned from inside them. *)
Definition try_OpenAI (openaiKey : option string) : M bool :=
  match openaiKey with
  | Some key =>
      if truthy_string key then
        try_catch
          (client <- construct_OpenAI key ;;
           modify (set_openaiClient (Some client)) ;;
           modify (set_embeddingsAvailable true) ;;
           modify (set_embeddingsProvider (Some openai)) ;;
           Logger.info "✅ OpenAI embeddings initialized" ;;
           ret true)
          (fun _ =>
             Logger.warn "Failed to initialize OpenAI:" ;;
             ret false)
      else ret false
  | None => ret false
  end.

Definition try_Gemini (geminiKey : option string) : M bool :=
  match geminiKey with
  | Some key =>
      if truthy_string key then
        try_catch
          (client <- construct_Gemini key ;;
           modify (set_geminiClient (Some client)) ;;
           modify (set_embeddingsAvailable true) ;;
           modify (set_embeddingsProvider (Some gemini)) ;;
           Logger.info "✅ Google Gemini embeddings initialized" ;;
           ret true)
          (fun _ =>
             Logger.warn "Failed to initialize Gemini:" ;;
             ret false)
      else ret false
  | None => ret false
  end.

Definition initEmbeddings (openaiKey geminiKey : option string) : M unit :=
  try_catch
    (returned <- try_OpenAI openaiKey ;;
     if returned then ret tt
     else
       returned <- try_Gemini geminiKey ;;
       if returned then ret tt
       else
         Logger.warn "⚠️  No embedding provider configured (OpenAI or Gemini API keys missing). Messages will be ingested without vector embeddings." ;;
         modify (set_embeddingsAvailable false) ;;
         modify (set_embeddingsProvider None))
    (fun _ =>
       Logger.error "Unexpected error during embeddings initialization:" ;;
       modify (set_embeddingsAvailable false) ;;
       modify (set_embeddingsProvider None)).

(** [response.data[index]?.embedding || null]; reading an index of a
    missing [data] is a [TypeError]. *)
Definition datum_embedding (response : OpenAIResponse) (index : nat)
  : M (option Vector) :=
  match r_data response with
  | None => throw (TypeError "Cannot read properties of undefined")
  | Some data =>
      ret (match nth_error data index with
           | Some d => d_embedding d
           | None => None
           end)
  end.

(** [result.embedding.values || null] *)
Definition result_values (result : GeminiResult) : M (option Vector) :=
  match g_embedding result with
  | None => throw (TypeError "Cannot read properties of undefined (reading 'values')")
  | Some values => ret values
  end.

Definition generateOpenAIEmbedding (text : string) : M (option Vector) :=
  current <- gets openaiClient ;;
  match current with
  | None => ret None
  | Some client =>
      try_catch
        (response <- embeddings_create client (InputOne text) ;;
         datum_embedding response 0)
        (fun _ =>
           Logger.error "Error generating OpenAI embedding:" ;;
           ret None)
  end.

Definition generateGeminiEmbedding (text : string) : M (option Vector) :=
  current <- gets geminiClient ;;
  match current with
  | None => ret None
  | Some client =>
      try_catch
        (result <- embedContent client text ;;
         result_values result)
        (fun _ =>
           Logger.error "Error generating Gemini embedding:" ;;
           ret None)
  end.

Definition generateEmbedding (text : string) : M EmbeddingResult :=
  available <- gets embeddingsAvailable ;;
  if negb available then ret (mkEmbeddingResult text None)
  else
    embedding <-
      try_catch
        (provider <- gets embeddingsProvider ;;
         match provider with
         | Some openai => generateOpenAIEmbedding text
         | Some gemini => generateGeminiEmbedding text
         | None => ret None
         end)
        (fun _ =>
           Logger.error "Unexpected error during embedding generation:" ;;
           ret None) ;;
    ret (mkEmbeddingResult text embedding).

Definition areEmbeddingsAvailable : M bool := gets embeddingsAvailable.

(** [texts.map((text) => ({ text, embedding: null }))] *)
Definition all_null (texts : list string) : list EmbeddingResult :=
  map (fun text => mkEmbeddingResult text None) texts.

(** [texts.map((text, index) => f(text, index))] for a callback that may
    throw; [index] is the position of the head of [texts]. *)
Fixpoint map_indexed {A} (f : string -> nat -> M A) (index : nat)
    (texts : list string) : M (list A) :=
  match texts with
  | [] => ret []
  | text :: rest =>
      a <- f text index ;;
      l <- map_indexed f (S index) rest ;;
      ret (a :: l)
  end.

Definition generateBatchOpenAIEmbeddings (texts : list string)
  : M (list EmbeddingResult) :=
  current <- gets openaiClient ;;
  match current with
  | None => ret (all_null texts)
  | Some client =>
      try_catch
        (response <- embeddings_create client (InputMany texts) ;;
         map_indexed
           (fun text index =>
              e <- datum_embedding response index ;;
              ret (mkEmbeddingResult text e))
           0%nat texts)
        (fun _ =>
           Logger.error "Error generating batch OpenAI embeddings:" ;;
           ret (all_null texts))
  end.

(** The body of the [async (text) => ...] callback given to [texts.map]. *)
Definition embed_one (client : GeminiClient) (text : string) : M (option Vector) :=
  try_catch
    (result <- embedContent client text ;;
     result_values result)
    (fun error =>
       Logger.debug ("Error embedding text: " ++ exn_string error) ;;
       ret None).

(** [texts.map((text, index) => ({ text, embedding: results[index] }))];
    an index past the end of [results] reads [undefined]. *)
Fixpoint zip_results (texts : list string) (results : list (option Vector))
  : list EmbeddingResult :=
  match texts with
  | [] => []
  | text :: rest =>
      mkEmbeddingResult text (match results with r :: _ => r | [] => None end)
        :: zip_results rest (tl results)
  end.

(** [Promise.all] over the callbacks: the requests leave in the order of
    [texts], and each callback is run to its end before the next. *)
Definition generateBatchGeminiEmbeddings (texts : list string)
  : M (list EmbeddingResult) :=
  current <- gets geminiClient ;;
  match current with
  | None => ret (all_null texts)
  | Some client =>
      try_catch
        (results <- map_indexed (fun text _ => embed_one client text) 0%nat texts ;;
         ret (zip_results texts results))
        (fun _ =>
           Logger.error "Error generating batch Gemini embeddings:" ;;
           ret (all_null texts))
  end.

Definition generateBatchEmbeddings (texts : list string)
  : M (list EmbeddingResult) :=
  available <- gets embeddingsAvailable ;;
  if negb available then ret (all_null texts)
  else
    returned <-
      try_catch
        (provider <- gets embeddingsProvider ;;
         match provider with
         | Some openai =>
             r <- generateBatchOpenAIEmbeddings texts ;; ret (Some r)
         | Some gemini =>
             r <- generateBatchGeminiEmbeddings texts ;; ret (Some r)
         | None => ret None
         end)
        (fun _ =>
           Logger.error "Unexpected error during batch embedding generation:" ;;
           ret None) ;;
    match returned with
    | Some r => ret r
    | None => ret (all_null texts)
    end.

End Embeddings.

(* ================================================================== *)
(** ** The ingestion handlers ([bot.on('message', ...)])

    Three versions of the handler are in the sources: the first [bot.ts]
    (no [next]), the later [bot.ts] (logs, and calls [next()] on every
    path) and [api/webhook.ts] (the same with inner [try]/[catch] blocks).
    A handler that ends in [return next()] takes the downstream middleware
    as [next]; a rejection of [next()] is not caught by the handler's own
    [try], since the promise is returned without being awaited. *)

Module Bot.
Import Supabase Embeddings.

(** [!message?.text]: the text of the message when there is one and it is
    not empty. *)
Definition message_with_text (ctx : Context) : option (TgMessage * string) :=
  match ctx_message ctx with
  | Some message =>
      match m_text message with
      | Some t => if truthy_string t then Some (message, t) else None
      | None => None
      end
  | None => None
  end.

(** [ctx.chat?.id] when [!chatId] is false. *)
Definition truthy_chat_id (ctx : Context) : option Z :=
  match ctx_chat_id ctx with
  | Some chatId => if truthy_number chatId then Some chatId else None
  | None => None
  end.

(** [const telegramMessage: TelegramMessage = { ... }] *)
Definition telegramMessage_of (message : TgMessage) (text : string)
    (user : TgUser) (chatId : Z) : TelegramMessage :=
  mkTelegramMessage (m_message_id message) text (u_id user) chatId
    (m_date message * 1000) (username user) (Some (first_name user))
    (last_name user).

(** [const dbRecord: ConversationRecord = { ... }]: the Record Builder. *)
Definition dbRecord (telegramMessage : TelegramMessage) (vector : option Vector)
  : M ConversationRecord :=
  iso <- toISOString (timestamp telegramMessage) ;;
  ret (mkConversationRecord None (messageId telegramMessage)
         (text telegramMessage) (userId telegramMessage)
         (groupId telegramMessage) iso vector (userName telegramMessage)
         (userFirstName telegramMessage) (userLastName telegramMessage) None).

(** *** First [bot.ts] *)
Module V0.

Definition onMessage (ctx : Context) : M unit :=
  try_catch
    (match message_with_text ctx with
     | None => ret tt
     | Some (message, text) =>
         match ctx_from ctx with
         | None => ret tt
         | Some user =>
             optedOut <- isUserOptedOut (u_id user) ;;
             if optedOut then
               Logger.debug ("User " ++ string_of_Z (u_id user)
                             ++ " is opted out, skipping message.")
             else
               match truthy_chat_id ctx with
               | None => ret tt
               | Some chatId =>
                   let telegramMessage :=
                     telegramMessage_of message text user chatId in
                   available <- areEmbeddingsAvailable ;;
                   vector <-
                     (if available then
                        embeddingResult <- generateEmbedding text ;;
                        ret (embedding embeddingResult)
                      else ret None) ;;
                   record <- dbRecord telegramMessage vector ;;
                   _ <- insertMessage record ;;
                   ret tt
               end
         end
     end)
    (fun _ => Logger.error "Error processing message:").

End V0.

(** *** Later [bot.ts] *)
Module V1.

Definition ingest (ctx : Context) : M unit :=
  Logger.debug "[ASYNC] Received message:" ;;
  match message_with_text ctx with
  | None => Logger.debug "[ASYNC] No text in message, skipping."
  | Some (message, text) =>
      match ctx_from ctx with
      | None => Logger.debug "[ASYNC] No user in message, skipping."
      | Some user =>
          optedOut <- isUserOptedOut (u_id user) ;;
          Logger.debug ("[ASYNC] User " ++ string_of_Z (u_id user)
                        ++ " optedOut: " ++ string_of_bool optedOut) ;;
          if optedOut then
            Logger.debug ("[ASYNC] User " ++ string_of_Z (u_id user)
                          ++ " is opted out, skipping message.")
          else
            match truthy_chat_id ctx with
            | None => Logger.debug "[ASYNC] No chatId, skipping."
            | Some chatId =>
                let telegramMessage :=
                  telegramMessage_of message text user chatId in
                Logger.debug "[ASYNC] Parsed TelegramMessage:" ;;
                available <- areEmbeddingsAvailable ;;
                vector <-
                  (if available then
                     embeddingResult <- generateEmbedding text ;;
                     Logger.debug "[ASYNC] Generated embedding:" ;;
                     ret (embedding embeddingResult)
                   else ret None) ;;
                record <- dbRecord telegramMessage vector ;;
                Logger.debug "[ASYNC] Prepared dbRecord:" ;;
                Logger.debug "[ASYNC] Attempting insertMessage with:" ;;
                result <- insertMessage record ;;
                Logger.debug "[ASYNC] insertMessage result:" ;;
                match result with
                | None => Logger.error "[ASYNC] insertMessage failed for dbRecord:"
                | Some _ => ret tt
                end
            end
      end
  end.

Definition onMessage (ctx : Context) (next : M unit) : M unit :=
  try_catch (ingest ctx)
    (fun _ => Logger.error "Error processing message:") ;;
  next.

End V1.

(** *** [api/webhook.ts] *)
Module Webhook.

(** [errorObj?.code ?? errorObj?.status ?? undefined] *)
Definition error_code (err : Exn) : JsVal :=
  match exn_code err with
  | JUndefined => exn_status err
  | v => v
  end.

(** [errorObj?.message ?? String(errorObj)] *)
Definition error_message (err : Exn) : string :=
  match exn_message err with
  | Some m => m
  | None => exn_string err
  end.

(** [code === '409' || code === 409 ||
     (message && message.includes('duplicate'))] *)
Definition is_duplicate (err : Exn) : bool :=
  match error_code err with
  | JString c => (c =? "409")%string
  | JNumber n => n =? 409
  | JUndefined => false
  end
  || (truthy_string (error_message err)
      && includes (error_message err) "duplicate").

Definition ingest (ctx : Context) : M unit :=
  Logger.debug "[ASYNC] Ingestion handler triggered for message:" ;;
  Logger.debug "[ASYNC] Received message:" ;;
  match message_with_text ctx with
  | None => Logger.debug "[ASYNC] No text in message, skipping."
  | Some (message, text) =>
      match ctx_from ctx with
      | None => Logger.debug "[ASYNC] No user in message, skipping."
      | Some user =>
          optedOut <-
            try_catch
              (optedOut <- isUserOptedOut (u_id user) ;;
               Logger.debug ("[ASYNC] User " ++ string_of_Z (u_id user)
                             ++ " optedOut: " ++ string_of_bool optedOut) ;;
               ret optedOut)
              (fun _ =>
                 Logger.warn ("[ASYNC] Opt-out check failed for user "
                              ++ string_of_Z (u_id user) ++ ":") ;;
                 ret false) ;;
          if optedOut then
            Logger.debug ("[ASYNC] User " ++ string_of_Z (u_id user)
                          ++ " is opted out, skipping message.")
          else
            match truthy_chat_id ctx with
            | None => Logger.debug "[ASYNC] No chatId, skipping."
            | Some chatId =>
                let telegramMessage :=
                  telegramMessage_of message text user chatId in
                Logger.debug "[ASYNC] Parsed TelegramMessage:" ;;
                available <- areEmbeddingsAvailable ;;
                vector <-
                  (if available then
                     try_catch
                       (embeddingResult <- generateEmbedding text ;;
                        Logger.debug "[ASYNC] Generated embedding:" ;;
                        ret (embedding embeddingResult))
                       (fun _ =>
                          Logger.warn "[ASYNC] Embedding generation failed:" ;;
                          ret None)
                   else ret None) ;;
                record <- dbRecord telegramMessage vector ;;
                Logger.debug "[ASYNC] Prepared dbRecord:" ;;
                Logger.info "[ASYNC] Insert attempt:" ;;
                Logger.debug "[ASYNC] Attempting insertMessage with:" ;;
                try_catch
                  (result <- insertMessage record ;;
                   Logger.debug "[ASYNC] insertMessage result:" ;;
                   match result with
                   | None =>
                       Logger.error "[ASYNC] insertMessage failed for dbRecord:"
                   | Some _ => ret tt
                   end)
                  (fun err =>
                     if is_duplicate err then
                       Logger.warn "[ASYNC] Duplicate message detected, skipping insert:"
                     else
                       Logger.error "[ASYNC] Unexpected error inserting message:")
            end
      end
  end.

Definition onMessage (ctx : Context) (next : M unit) : M unit :=
  try_catch (ingest ctx)
    (fun _ => Logger.error "Error processing message:") ;;
  next.

End Webhook.

End Bot.

(* ================================================================== *)
(** ** Observations used in the statements *)

Module Obs.

(** The records that were sent to [conversations] for insertion. *)
Fixpoint insert_calls (l : list Call) : list ConversationRecord :=
  match l with
  | [] => []
  | CallDb (InsertConversation record) :: rest => record :: insert_calls rest
  | _ :: rest => insert_calls rest
  end.

(** What one logger call appends to the console. *)
Definition printed (current level : LogLevel) (message : string) : list LogEntry :=
  if Logger._shouldLog current level then [mkLogEntry level message] else [].

(** The lines of a console at a given level. *)
Definition lines_at (level : LogLevel) (c : list LogEntry) : list string :=
  map log_message
    (filter (fun e => Nat.eqb (Logger.indexOf (log_level e)) (Logger.indexOf level)) c).

(** The opt-out table satisfies its [UNIQUE] constraint. *)
Definition unique_opt_outs (d : Database) : Prop :=
  NoDup (map oo_user_id (opt_out_users d)).

(** A credential is given, and the constructor of its client succeeds. *)
Definition usable (key : option string) (ctor_throws : string -> option Exn) : bool :=
  match key with
  | Some k =>
      truthy_string k &&
      match ctor_throws k with Some _ => false | None => true end
  | None => false
  end.

(** A credential is given (and not empty). *)
Definition given (key : option string) : list string :=
  match key with
  | Some k => if truthy_string k then [k] else []
  | None => []
  end.

(** The constructions [initEmbeddings] is to attempt, in order: OpenAI
    when its key is given; Gemini when its key is given and OpenAI was not
    constructed. *)
Definition expected_attempts (openaiKey geminiKey : option string) (e : Env)
  : list Call :=
  (map CallConstructOpenAI (given openaiKey)
   ++ (if usable openaiKey (openai_ctor_throws e) then []
       else map CallConstructGemini (given geminiKey)))%list.

(** A request to OpenAI failed: it was rejected (network, quota), or the
    reply has no [data]. *)
Definition openai_failed (reply : Completion OpenAIResponse) : bool :=
  match reply with
  | Throw _ => true
  | Normal r => match r_data r with None => true | Some _ => false end
  end.

(** A request to Gemini failed: it was rejected, or the reply has no
    [embedding]. *)
Definition gemini_failed (reply : Completion GeminiResult) : bool :=
  match reply with
  | Throw _ => true
  | Normal r => match g_embedding r with None => true | Some _ => false end
  end.

(** The value one Gemini request stands for: the vector it carries, and
    nothing when the request failed or the reply has no vector. *)
Definition gemini_value (reply : Completion GeminiResult) : option Vector :=
  match reply with
  | Normal (mkGeminiResult (Some values)) => values
  | _ => None
  end.

(** The value of item [index] of an OpenAI reply. *)
Definition openai_value (response : OpenAIResponse) (index : nat) : option Vector :=
  match r_data response with
  | Some data =>
      match nth_error data index with
      | Some d => d_embedding d
      | None => None
      end
  | None => None
  end.

(** What a batch is to return from an OpenAI reply: item [index] of the
    reply for the text at position [index]. *)
Fixpoint openai_results (response : OpenAIResponse) (index : nat)
    (texts : list string) : list EmbeddingResult :=
  match texts with
  | [] => []
  | t :: rest =>
      mkEmbeddingResult t (openai_value response index)
        :: openai_results response (S index) rest
  end.

(** What a batch is to return from Gemini: for each text, in place, the
    value of its own request; [n] is the number of the first request. *)
Fixpoint gemini_results (e : Env) (n : nat) (texts : list string)
  : list EmbeddingResult :=
  match texts with
  | [] => []
  | t :: rest =>
      mkEmbeddingResult t (gemini_value (gemini_embedContent e n t))
        :: gemini_results e (S n) rest
  end.

(** The world once the opt-out lookup for [userId] has left the process. *)
Definition asked (userId : Z) (w : World) : World :=
  set_calls (calls w ++ [CallDb (SelectOptOutSingle userId)]) w.

(** Calling [initSupabase] once per pair of arguments, in order. *)
Fixpoint initSupabase_each (args : list (string * string))
  : M (list SupabaseClient) :=
  match args with
  | [] => ret []
  | (url, key) :: rest =>
      c <- Supabase.initSupabase url key ;;
      l <- initSupabase_each rest ;;
      ret (c :: l)
  end.

End Obs.

(* ================================================================== *)
(** ** Concrete scenarios *)

Module Scenario.
Import Supabase Embeddings Bot.

(** An environment without faults and without embedding service. *)
Definition quiet : Env :=
  mkEnv (fun _ _ => None) (fun _ => NoFault) (fun _ => None) (fun _ => None)
    (fun _ _ => Throw (Error "fetch failed"))
    (fun _ _ => Throw (Error "fetch failed")).

(** The process as its modules are loaded: the initial values of the
    module variables, empty tables, logger at [DEBUG]. *)
Definition fresh : World :=
  mkWorld None None None false None DEBUG [] (mkDatabase [] [] 1 1)
    (1700000000 * 1000) [] quiet.

(** After [initSupabase(config.supabaseUrl, config.supabaseKey)]. *)
Definition ready : World :=
  snd (initSupabase "https://byzved.supabase.co" "anon-key" fresh).

Definition text_message (mid : Z) (body : string) (sender chat : Z) : Context :=
  mkContext (Some (mkTgMessage mid (Some body) 1700000000))
    (Some (mkTgUser sender (Some "alice") "Alice" None)) (Some chat).

(** Message 555 of sender 42 in conversation 100. *)
Definition delivery_555 : Context := text_message 555 "hello" 42 100.

(** The world after message 555 was delivered once to the handler of
    [api/webhook.ts]. *)
Definition delivered_once : World :=
  snd (Webhook.onMessage delivery_555 (ret tt) ready).

(** Sender 3 wrote messages 1 and 2, sender 4 wrote message 3. *)
Definition three_rows : World :=
  let w1 := snd (V0.onMessage (text_message 1 "one" 3 100) ready) in
  let w2 := snd (V0.onMessage (text_message 2 "two" 3 100) w1) in
  snd (V0.onMessage (text_message 3 "three" 4 100) w2).

(** Sender 7 has opted out. *)
Definition opted_out_7 : World := snd (addUserOptOut 7 ready).

(** Sender 7 writes "hi" in conversation 100. *)
Definition hi_from_7 : Context := text_message 9 "hi" 7 100.

(** The same world during an outage of the database: every query
    rejects. *)
Definition failing : Env :=
  mkEnv (fun _ _ => None) (fun _ => FaultThrow (Error "fetch failed"))
    (fun _ => None) (fun _ => None)
    (fun _ _ => Throw (Error "fetch failed"))
    (fun _ _ => Throw (Error "fetch failed")).

Definition outage_7 : World :=
  mkWorld (supabaseClient opted_out_7) None None false None DEBUG
    (console opted_out_7) (db opted_out_7) (clock opted_out_7)
    (calls opted_out_7) failing.

(** An embedding service that answers every request. *)
Definition vec : Vector :=
  [SpecFloat.S754_finite false 4503599627370496 (-52); SpecFloat.S754_zero false].

Definition serving : Env :=
  mkEnv (fun _ _ => None) (fun _ => NoFault) (fun _ => None) (fun _ => None)
    (fun _ input =>
       Normal (mkOpenAIResponse
                 (Some (match input with
                        | InputOne _ => [mkOpenAIDatum (Some vec)]
                        | InputMany l => map (fun _ => mkOpenAIDatum (Some vec)) l
                        end))))
    (fun _ t =>
       if (t =? "bad")%string then Throw (Error "quota exceeded")
       else Normal (mkGeminiResult (Some (Some vec)))).

Definition fresh_serving : World :=
  mkWorld None None None false None DEBUG [] (mkDatabase [] [] 1 1)
    (1700000000 * 1000) [] serving.

Definition with_openai : World :=
  snd (initEmbeddings (Some "sk-test") (Some "g-test") fresh_serving).

(** OpenAI is constructed, but its service does not answer. *)
Definition openai_down : World :=
  snd (initEmbeddings (Some "sk-test") None fresh).

Definition with_gemini : World :=
  snd (initEmbeddings None (Some "g-test") fresh_serving).

End Scenario.

(* ================================================================== *)
(** ** Further observations *)

Module Extra.
Import Store Obs.

(** The sequence of [conversations] has not been used for a row yet. *)
Definition fresh_serial (d : Database) : Prop :=
  has_row_id (conversations_seq d) (conversations d) = false.

(** Two records carry the same message: they agree on every field the
    program sends. *)
Definition same_message (a b : ConversationRecord) : Prop :=
  message_id a = message_id b /\ cr_text a = cr_text b /\
  user_id a = user_id b /\ group_id a = group_id b /\
  cr_timestamp a = cr_timestamp b /\ vector a = vector b /\
  user_name a = user_name b /\ user_first_name a = user_first_name b /\
  user_last_name a = user_last_name b.

(** The world once the insert of [record] has left the process. *)
Definition insert_sent (record : ConversationRecord) (w : World) : World :=
  set_calls (calls w ++ [CallDb (InsertConversation record)]) w.

(** The requests that are sent to an embedding back end. *)
Definition is_embedding_call (c : Call) : bool :=
  match c with
  | CallOpenAIEmbeddings _ | CallGeminiEmbedContent _ => true
  | _ => false
  end.

Definition embedding_calls (l : list Call) : list Call :=
  filter is_embedding_call l.

(** The world after some lines were printed and some calls were made, and
    nothing else happened. *)
Definition after (lines : list LogEntry) (cs : list Call) (w : World) : World :=
  set_console (console w ++ lines) (set_calls (calls w ++ cs) w).

(** What the single-text request of OpenAI stands for. *)
Definition openai_single (reply : Completion OpenAIResponse) : option Vector :=
  match reply with
  | Normal r => openai_value r 0
  | Throw _ => None
  end.

(** The record the handlers build from a message, its text, its sender,
    the chat and a vector. *)
Definition built (message : TgMessage) (text : string) (user : TgUser)
    (chatId : Z) (v : option Vector) : ConversationRecord :=
  mkConversationRecord None (m_message_id message) text (u_id user) chatId
    (iso_string (m_date message * 1000)) v (username user)
    (Some (first_name user)) (last_name user) None.

(** A message the handlers take up: it has a text that is not empty, a
    sender, a chat whose id is not 0, and a date in the range of [Date]. *)
Definition well_formed (ctx : Context) (message : TgMessage) (text : string)
    (user : TgUser) (chatId : Z) : Prop :=
  Bot.message_with_text ctx = Some (message, text) /\
  ctx_from ctx = Some user /\
  Bot.truthy_chat_id ctx = Some chatId /\
  valid_date (m_date message * 1000) = true.

(** The privacy lookup sent as call number [n] will not answer "opted out":
    the request fails, or the sender has no row. *)
Definition lookup_open (userId : Z) (n : nat) (w : World) : Prop :=
  db_fault (env w) n <> NoFault \/
  has_opt_out userId (opt_out_users (db w)) = false.

(** What the handlers do with a message they take up, from world [w] to
    world [w']: one insert is sent, of the record built with the vector [e];
    and [e] is null when no provider is available (no request to a back end
    is made then) or when the request to the back end, call number
    [S (length (calls w))], fails. *)
Definition taken_up (message : TgMessage) (text : string) (user : TgUser)
    (chatId : Z) (w : World) (e : option Vector) (w' : World) : Prop :=
  insert_calls (calls w')
  = (insert_calls (calls w) ++ [built message text user chatId e])%list /\
  (embeddingsAvailable w = false ->
   e = None /\ embedding_calls (calls w') = embedding_calls (calls w)) /\
  (embeddingsProvider w = Some openai ->
   openai_failed
     (openai_embeddings_create (env w) (S (List.length (calls w))) (InputOne text))
   = true ->
   e = None) /\
  (embeddingsProvider w = Some gemini ->
   gemini_failed (gemini_embedContent (env w) (S (List.length (calls w))) text)
   = true ->
   e = None).

(** From world [w] to world [w'], the message was stored, without a vector
    and without any request to a back end. *)
Definition stored_plain (message : TgMessage) (text : string) (user : TgUser)
    (chatId : Z) (w w' : World) : Prop :=
  exists row,
    conversations (db w') = (conversations (db w) ++ [row])%list /\
    same_message row (built message text user chatId None) /\
    opt_out_users (db w') = opt_out_users (db w) /\
    embedding_calls (calls w') = embedding_calls (calls w).

End Extra.

(* ================================================================== *)
(** ** [src/config.ts]

    [process.env] is passed as an argument.  [parseInt(s, 10)] is a
    parameter of the section ([None] is [NaN]); nothing that is proved
    depends on what it computes. *)

Module Config.

Definition ProcessEnv := string -> option string.

(** [interface BotConfig] *)
Record BotConfig := mkBotConfig {
  telegramBotToken : string;
  supabaseUrl : string;
  supabaseKey : string;
  openaiApiKey : option string;
  geminiApiKey : option string;
  webhookUrl : option string;
  port : option Z;
  mode : string
}.

(** [value || fallback] for [value: string | undefined] *)
Definition or_default (value : option string) (fallback : string) : string :=
  match value with
  | Some s => if truthy_string s then s else fallback
  | None => fallback
  end.

(** [const required: (keyof BotConfig)[]] *)
Definition required : list string :=
  ["telegramBotToken"; "supabaseUrl"; "supabaseKey"].

(** [config[key]] for the keys of [required]. *)
Definition field (config : BotConfig) (key : string) : option string :=
  if (key =? "telegramBotToken")%string then Some (telegramBotToken config)
  else if (key =? "supabaseUrl")%string then Some (supabaseUrl config)
  else if (key =? "supabaseKey")%string then Some (supabaseKey config)
  else None.

(** [toUpperCase] on ASCII letters (the keys of [required] have no others). *)
Definition upper (c : ascii) : ascii :=
  let n := nat_of_ascii c in
  if (Nat.leb 97 n && Nat.leb n 122)%bool then ascii_of_nat (n - 32) else c.

Fixpoint toUpperCase (s : string) : string :=
  match s with
  | EmptyString => EmptyString
  | String c rest => String (upper c) (toUpperCase rest)
  end.

(** [list.join(sep)] *)
Fixpoint join (sep : string) (l : list string) : string :=
  match l with
  | [] => EmptyString
  | [s] => s
  | s :: rest => s ++ sep ++ join sep rest
  end.

(** [required.filter((key) => !config[key])] *)
Definition missing (config : BotConfig) : list string :=
  filter (fun key => negb (truthy_opt_string (field config key))) required.

Definition validateConfig (config : BotConfig) : M unit :=
  if Nat.ltb 0 (List.length (missing config)) then
    throw (Error ("Missing required environment variables: "
                  ++ join ", " (map toUpperCase (missing config))))
  else
    (if negb (truthy_opt_string (openaiApiKey config))
        && negb (truthy_opt_string (geminiApiKey config))
     then
       Logger.warn "No embedding provider configured. Messages will be ingested without vector embeddings."
     else ret tt) ;;
    if (mode config =? "webhook")%string
       && negb (truthy_opt_string (webhookUrl config))
    then throw (Error "Webhook mode requires WEBHOOK_URL environment variable")
    else Logger.info "✅ Configuration validated successfully".

Section WithParseInt.

Variable parseInt10 : string -> option Z.

Definition loadConfig (penv : ProcessEnv) : M BotConfig :=
  let config :=
    mkBotConfig
      (or_default (penv "TELEGRAM_BOT_TOKEN") EmptyString)
      (or_default (penv "SUPABASE_URL") EmptyString)
      (or_default (penv "SUPABASE_KEY") EmptyString)
      (penv "OPENAI_API_KEY")
      (penv "GEMINI_API_KEY")
      (penv "WEBHOOK_URL")
      (parseInt10 (or_default (penv "PORT") "3000"))
      (or_default (penv "BOT_MODE") "polling") in
  validateConfig config ;;
  ret config.

End WithParseInt.

(** The object [getMaskedConfig] returns; [masked_webhook] is
    [string | undefined]. *)
Record MaskedConfig := mkMaskedConfig {
  masked_mode : string;
  masked_port : option Z;
  masked_supabaseUrl : string;
  masked_openai : bool;
  masked_gemini : bool;
  masked_webhook : option string
}.

Definition getMaskedConfig (config : BotConfig) : MaskedConfig :=
  mkMaskedConfig (mode config) (port config) (supabaseUrl config)
    (truthy_opt_string (openaiApiKey config))
    (truthy_opt_string (geminiApiKey config))
    (if (mode config =? "webhook")%string then webhookUrl config else Some "N/A").

(** A variable of the environment is set, and not to the empty string. *)
Definition set_in (penv : ProcessEnv) (name : string) : bool :=
  truthy_opt_string (penv name).

(** The environment has the three mandatory variables, and a webhook URL if
    it asks for webhook mode. *)
Definition sufficient (penv : ProcessEnv) : bool :=
  set_in penv "TELEGRAM_BOT_TOKEN" && set_in penv "SUPABASE_URL"
  && set_in penv "SUPABASE_KEY"
  && (negb (or_default (penv "BOT_MODE") "polling" =? "webhook")%string
      || set_in penv "WEBHOOK_URL").

(** The configuration has the three mandatory values, and a webhook URL if
    its mode is webhook. *)
Definition acceptable (config : BotConfig) : bool :=
  truthy_string (telegramBotToken config) && truthy_string (supabaseUrl config)
  && truthy_string (supabaseKey config)
  && (negb (mode config =? "webhook")%string
      || truthy_opt_string (webhookUrl config)).

End Config.

(* ================================================================== *)
(** ** Further scenarios *)

Module Cases.
Import Supabase Embeddings Bot.

(** The record of message 555 as the handlers build it. *)
Definition hello_555 : ConversationRecord :=
  mkConversationRecord None 555 "hello" 42 100 "2023-11-14T22:13:20.000Z"
    None (Some "alice") (Some "Alice") None None.

(** Sender 7 has opted out, and the lookup that comes next (call number 2)
    fails, while every other request is served. *)
Definition lookup_down : Env :=
  mkEnv (fun _ _ => None)
    (fun n => if Nat.eqb n 2 then FaultThrow (Error "fetch failed") else NoFault)
    (fun _ => None) (fun _ => None)
    (fun _ _ => Throw (Error "fetch failed"))
    (fun _ _ => Throw (Error "fetch failed")).

Definition lookup_down_7 : World :=
  mkWorld (supabaseClient Scenario.opted_out_7) None None false None DEBUG
    (console Scenario.opted_out_7) (db Scenario.opted_out_7)
    (clock Scenario.opted_out_7) (calls Scenario.opted_out_7) lookup_down.

(** The database is reachable, OpenAI is selected, and its service does not
    answer. *)
Definition ready_openai_down : World :=
  snd (initEmbeddings (Some "sk-test") None Scenario.ready).

(** The parts of the two sample messages. *)
Definition message_555 : TgMessage := mkTgMessage 555 (Some "hello") 1700000000.
Definition message_9 : TgMessage := mkTgMessage 9 (Some "hi") 1700000000.
Definition alice (id : Z) : TgUser := mkTgUser id (Some "alice") "Alice" None.

(** An environment for polling mode, without embedding keys. *)
Definition polling_env : Config.ProcessEnv :=
  fun name =>
    if (name =? "TELEGRAM_BOT_TOKEN")%string then Some "123456:ABC-DEF"
    else if (name =? "SUPABASE_URL")%string then Some "https://byzved.supabase.co"
    else if (name =? "SUPABASE_KEY")%string then Some "anon-key"
    else None.

(** The same environment asking for webhook mode without a webhook URL. *)
Definition webhook_env_without_url : Config.ProcessEnv :=
  fun name =>
    if (name =? "BOT_MODE")%string then Some "webhook" else polling_env name.

(** A stand-in for [parseInt]: it reads "3000" and nothing else. *)
Definition parse_3000 (s : string) : option Z :=
  if (s =? "3000")%string then Some 3000 else None.

(** The polling environment with another bot token, another Supabase key
    and an OpenAI key. *)
Definition polling_env_other_secrets : Config.ProcessEnv :=
  fun name =>
    if (name =? "TELEGRAM_BOT_TOKEN")%string then Some "654321:XYZ"
    else if (name =? "SUPABASE_KEY")%string then Some "service-key"
    else polling_env name.

End Cases.

(* ================================================================== *)
(** * Theorems *)

(** ** Sanity checks of the model on concrete inputs *)

Example iso_epoch : iso_string 0 = "1970-01-01T00:00:00.000Z".
Proof. reflexivity. Qed.

Example iso_leap_day : iso_string (951782400 * 1000 + 7) = "2000-02-29T00:00:00.007Z".
Proof. vm_compute. reflexivity. Qed.

Example iso_2023 : iso_string (1700000000 * 1000) = "2023-11-14T22:13:20.000Z".
Proof. vm_compute. reflexivity. Qed.

Example iso_before_epoch : iso_string (-1) = "1969-12-31T23:59:59.999Z".
Proof. vm_compute. reflexivity. Qed.

Example includes_duplicate :
  includes "duplicate key value violates unique constraint" "duplicate" = true.
Proof. reflexivity. Qed.

Example iso_end_of_2020 : iso_string (1609459199 * 1000) = "2020-12-31T23:59:59.000Z".
Proof. vm_compute. reflexivity. Qed.

Example scenario_one_row :
  map message_id (conversations (db Scenario.delivered_once)) = [555] /\
  map vector (conversations (db Scenario.delivered_once)) = [None] /\
  map cr_timestamp (conversations (db Scenario.delivered_once))
    = ["2023-11-14T22:13:20.000Z"].
Proof. vm_compute. repeat split. Qed.

Example scenario_three_rows :
  map (fun r => (message_id r, user_id r)) (conversations (db Scenario.three_rows))
    = [(1, 3); (2, 3); (3, 4)].
Proof. vm_compute. reflexivity. Qed.

Example scenario_providers :
  embeddingsProvider Scenario.with_openai = Some openai /\
  embeddingsProvider Scenario.with_gemini = Some gemini /\
  embeddingsProvider Scenario.fresh = None.
Proof. vm_compute. repeat split. Qed.

(* ================================================================== *)
(** ** Stepping through monadic code *)

Import Store Supabase Embeddings Bot Obs.

Lemma set_console_same (w : World) : set_console (console w) w = w.
Proof. destruct w; reflexivity. Qed.

(** A logger call never throws and only appends to the console. *)
Lemma at_level_eq (level : LogLevel) (message : string) (w : World) :
  Logger.at_level level message w
  = (Normal tt, set_console (console w ++ printed (logLevel w) level message) w).
Proof.
  unfold Logger.at_level, Logger.log, printed, bind, gets, modify, ret.
  destruct (Logger._shouldLog (logLevel w) level); [reflexivity|].
  now rewrite app_nil_r, set_console_same.
Qed.

(** [logger.error] prints at every level of the logger. *)
Lemma error_always_printed (current : LogLevel) (message : string) :
  printed current ERROR message = [mkLogEntry ERROR message].
Proof. destruct current; reflexivity. Qed.

#[local] Arguments Logger.at_level : simpl never.
#[local] Arguments printed : simpl never.

Ltac unfold_logger :=
  unfold Logger.debug, Logger.info, Logger.warn, Logger.error in *.

(** Unfold the monad, rewrite logger calls, and compute. *)
Ltac mstep :=
  unfold_logger;
  repeat first
    [ rewrite at_level_eq
    | progress (unfold bind, ret, gets, modify, throw, try_catch, emit; cbn) ].

(** From [(Normal a, w) = (Normal a', w')] to [a = a'] and [w = w']. *)
Ltac same_outcome :=
  let H := fresh "H" in
  intros H; injection H as ? ?; subst.

(* ================================================================== *)
(** ** [initSupabase] *)

Lemma initSupabase_initialized (url key : string) (w : World) (client : SupabaseClient) :
  supabaseClient w = Some client ->
  initSupabase url key w = (Normal client, w).
Proof.
  intros H. unfold initSupabase, bind, gets. now rewrite H.
Qed.

Lemma initSupabase_sets (url key : string) (w w1 : World) (client : SupabaseClient) :
  initSupabase url key w = (Normal client, w1) ->
  supabaseClient w1 = Some client.
Proof.
  unfold initSupabase, createClient. mstep.
  destruct (supabaseClient w) eqn:E; cbn.
  - same_outcome. exact E.
  - destruct (createClient_throws (env w) url key); mstep.
    + discriminate.
    + same_outcome. reflexivity.
Qed.

Lemma initSupabase_each_initialized (args : list (string * string)) (w : World)
    (client : SupabaseClient) :
  supabaseClient w = Some client ->
  initSupabase_each args w = (Normal (map (fun _ => client) args), w).
Proof.
  intros H. induction args as [|[url key] rest IH]; cbn; [reflexivity|].
  unfold bind. rewrite (initSupabase_initialized url key w client H), IH.
  reflexivity.
Qed.

(** C10. [initSupabase] is first-call-wins: once a call has returned a client,
    every later call, whatever its url and key, returns that same client and
    leaves the whole world as it was, so no second client is constructed and
    the module variable [supabaseClient] is not written again; the same holds
    for any sequence of later calls. *)
Theorem initSupabase_first_call_wins :
  forall (url key : string) (w w1 : World) (client : SupabaseClient),
    initSupabase url key w = (Normal client, w1) ->
    supabaseClient w1 = Some client /\
    (forall url' key', initSupabase url' key' w1 = (Normal client, w1)) /\
    (forall args,
        initSupabase_each args w1 = (Normal (map (fun _ => client) args), w1)).
Proof.
  intros url key w w1 client H.
  pose proof (initSupabase_sets _ _ _ _ _ H) as Hset.
  repeat split.
  - exact Hset.
  - intros. now apply initSupabase_initialized.
  - intros. now apply initSupabase_each_initialized.
Qed.

(** C10, on an instance: the first call at process start constructs the
    client, and a call with other arguments returns it unchanged. *)
Lemma initSupabase_first_call_wins_witness :
  exists client,
    initSupabase "https://byzved.supabase.co" "anon-key" Scenario.fresh
      = (Normal client, Scenario.ready) /\
    initSupabase "https://other.supabase.co" "other-key" Scenario.ready
      = (Normal client, Scenario.ready).
Proof.
  eexists. split; [reflexivity|].
  apply (initSupabase_first_call_wins "https://byzved.supabase.co" "anon-key"
           Scenario.fresh Scenario.ready _ eq_refl).
Defined.

(* ================================================================== *)
(** ** [isUserOptedOut] *)

Lemma getSupabaseClient_initialized (w : World) (client : SupabaseClient) :
  supabaseClient w = Some client ->
  getSupabaseClient w = (Normal client, w).
Proof.
  intros H. unfold getSupabaseClient, bind, gets. now rewrite H.
Qed.

Lemma filter_none {A} (f : A -> bool) (l : list A) :
  existsb f l = false -> filter f l = [].
Proof.
  induction l as [|a l IH]; cbn; [reflexivity|].
  destruct (f a); cbn; [discriminate|exact IH].
Qed.

Lemma set_db_calls (l : list Call) (w : World) :
  set_db (db w) (set_calls l w) = set_calls l w.
Proof. destruct w; reflexivity. Qed.

Ltac open_isUserOptedOut H :=
  unfold isUserOptedOut, opt_out_users_select_id_single, send, asked;
  unfold bind at 1; rewrite (getSupabaseClient_initialized _ _ H);
  mstep.

Lemma isUserOptedOut_present (userId : Z) (w : World) (client : SupabaseClient)
    (row : OptOutUser) :
  supabaseClient w = Some client ->
  db_fault (env w) (List.length (calls w)) = NoFault ->
  filter (fun r => oo_user_id r =? userId) (opt_out_users (db w)) = [row] ->
  isUserOptedOut userId w = (Normal true, asked userId w).
Proof.
  intros H F R. open_isUserOptedOut H. rewrite F.
  unfold serve_select_opt_out_single. cbn. rewrite R. cbn.
  now rewrite set_db_calls.
Qed.

Lemma isUserOptedOut_absent (userId : Z) (w : World) (client : SupabaseClient) :
  supabaseClient w = Some client ->
  db_fault (env w) (List.length (calls w)) = NoFault ->
  has_opt_out userId (opt_out_users (db w)) = false ->
  isUserOptedOut userId w = (Normal false, asked userId w).
Proof.
  intros H F R. open_isUserOptedOut H. rewrite F.
  unfold serve_select_opt_out_single. cbn.
  rewrite (filter_none _ _ R). cbn.
  now rewrite set_db_calls.
Qed.

Lemma isUserOptedOut_fault (userId : Z) (w : World) (client : SupabaseClient) :
  supabaseClient w = Some client ->
  db_fault (env w) (List.length (calls w)) <> NoFault ->
  exists lines,
    isUserOptedOut userId w
    = (Normal false, set_console (console w ++ lines) (asked userId w)).
Proof.
  intros H F. open_isUserOptedOut H.
  destruct (db_fault (env w) (List.length (calls w))) as [|err|ex];
    [congruence| |].
  - cbn. destruct (negb (pg_code err =? "PGRST116")%string); mstep.
    + eexists. reflexivity.
    + exists []. rewrite app_nil_r. destruct w; reflexivity.
  - mstep. eexists. reflexivity.
Qed.

Lemma isUserOptedOut_returns (userId : Z) (w : World) (client : SupabaseClient) :
  supabaseClient w = Some client ->
  exists b w', isUserOptedOut userId w = (Normal b, w').
Proof.
  intros H.
  destruct (db_fault (env w) (List.length (calls w))) as [|err|ex] eqn:F.
  - open_isUserOptedOut H. rewrite F.
    unfold serve_select_opt_out_single. cbn.
    destruct (filter _ _) as [|r [|r' rest]]; cbn; eauto.
  - destruct (isUserOptedOut_fault userId w client H) as [lines E];
      [congruence|]. rewrite E. eauto.
  - destruct (isUserOptedOut_fault userId w client H) as [lines E];
      [congruence|]. rewrite E. eauto.
Qed.

(** C4. On an initialised client, [isUserOptedOut] never raises; whenever the
    lookup fails (the transport answers with an error object of any code, or
    the awaited query rejects with any exception) it returns [false]; and
    when the sender has no row it returns [false] without logging anything. *)
Theorem isUserOptedOut_fails_open :
  forall (userId : Z) (w : World) (client : SupabaseClient),
    supabaseClient w = Some client ->
    (exists b w', isUserOptedOut userId w = (Normal b, w')) /\
    (db_fault (env w) (List.length (calls w)) <> NoFault ->
     fst (isUserOptedOut userId w) = Normal false) /\
    (db_fault (env w) (List.length (calls w)) = NoFault ->
     has_opt_out userId (opt_out_users (db w)) = false ->
     fst (isUserOptedOut userId w) = Normal false /\
     console (snd (isUserOptedOut userId w)) = console w).
Proof.
  intros userId w client H. split; [|split].
  - now apply isUserOptedOut_returns with client.
  - intros F. destruct (isUserOptedOut_fault userId w client H F) as [lines E].
    now rewrite E.
  - intros F R. rewrite (isUserOptedOut_absent userId w client H F R).
    split; reflexivity.
Qed.

(** C4, on instances: sender 8 has no row; sender 7 has one, but the
    database is unreachable. *)
Lemma isUserOptedOut_fails_open_witness :
  fst (isUserOptedOut 8 Scenario.opted_out_7) = Normal false /\
  has_opt_out 7 (opt_out_users (db Scenario.outage_7)) = true /\
  fst (isUserOptedOut 7 Scenario.outage_7) = Normal false.
Proof.
  destruct (isUserOptedOut_fails_open 8 Scenario.opted_out_7 _ eq_refl)
    as (_ & _ & Habsent).
  destruct (isUserOptedOut_fails_open 7 Scenario.outage_7 _ eq_refl)
    as (_ & Hfault & _).
  split; [|split].
  - apply Habsent; reflexivity.
  - reflexivity.
  - apply Hfault. discriminate.
Defined.

Lemma isUserOptedOut_uninitialised (userId : Z) (w : World) :
  supabaseClient w = None ->
  exists e, isUserOptedOut userId w = (Throw e, w).
Proof.
  intros H. unfold isUserOptedOut, getSupabaseClient. mstep. rewrite H.
  eexists. reflexivity.
Qed.

(* ================================================================== *)
(** ** [addUserOptOut] *)

(** C2, as stated, fails: sender 7 opts out (the first call returns [true]),
    and the second call for the same sender returns [false]. *)
Lemma addUserOptOut_second_call_reports_failure :
  fst (addUserOptOut 7 Scenario.ready) = Normal true /\
  snd (addUserOptOut 7 Scenario.ready) = Scenario.opted_out_7 /\
  has_opt_out 7 (opt_out_users (db Scenario.opted_out_7)) = true /\
  fst (addUserOptOut 7 Scenario.opted_out_7) = Normal false /\
  fst (addUserOptOut 7 Scenario.opted_out_7) <> Normal true.
Proof.
  repeat split; try reflexivity. vm_compute. discriminate.
Qed.

(** C2, amended. On an initialised client [addUserOptOut] raises nothing,
    for every sender, with or without an entry, and whatever the store
    answers.  But it is a plain insert: when the sender already has an
    opt-out entry it reports failure, returning [false], prints one line at
    [ERROR], and leaves the database as it was. *)
Theorem addUserOptOut_never_raises_not_idempotent :
  forall (userId : Z) (w : World) (client : SupabaseClient),
    supabaseClient w = Some client ->
    (exists b w', addUserOptOut userId w = (Normal b, w')) /\
    (has_opt_out userId (opt_out_users (db w)) = true ->
     exists w' line,
       addUserOptOut userId w = (Normal false, w') /\
       db w' = db w /\
       console w' = (console w ++ [mkLogEntry ERROR line])%list).
Proof.
  intros userId w client H. split.
  - unfold addUserOptOut, opt_out_users_insert, send, new_Date, toISOString.
    unfold bind at 1. rewrite (getSupabaseClient_initialized _ _ H).
    mstep.
    destruct (toISOString_opt (clock w)) as [at_|]; mstep.
    + destruct (db_fault (env w) (List.length (calls w))) as [|err|ex]; mstep.
      * unfold serve_insert_opt_out. cbn.
        destruct (has_opt_out userId (opt_out_users (db w))); mstep;
          do 2 eexists; reflexivity.
      * do 2 eexists; reflexivity.
      * do 2 eexists; reflexivity.
    + do 2 eexists; reflexivity.
  - intros R.
    unfold addUserOptOut, opt_out_users_insert, send, new_Date, toISOString.
    unfold bind at 1. rewrite (getSupabaseClient_initialized _ _ H).
    mstep.
    destruct (toISOString_opt (clock w)) as [at_|]; mstep.
    + destruct (db_fault (env w) (List.length (calls w))) as [|err|ex]; mstep.
      * unfold serve_insert_opt_out. cbn. rewrite R. mstep.
        rewrite error_always_printed. do 2 eexists. repeat split.
      * rewrite error_always_printed. do 2 eexists. repeat split.
      * rewrite error_always_printed. do 2 eexists. repeat split.
    + rewrite error_always_printed. do 2 eexists. repeat split.
Qed.

(** C2 amended, on sender 7: the first opt-out and the second one both end
    normally, and the second one reports failure. *)
Lemma addUserOptOut_never_raises_not_idempotent_witness :
  (exists b w', addUserOptOut 7 Scenario.ready = (Normal b, w')) /\
  (exists w' line,
     addUserOptOut 7 Scenario.opted_out_7 = (Normal false, w') /\
     db w' = db Scenario.opted_out_7 /\
     console w' = (console Scenario.opted_out_7 ++ [mkLogEntry ERROR line])%list).
Proof.
  split.
  - exact (proj1 (addUserOptOut_never_raises_not_idempotent 7 Scenario.ready _
                    eq_refl)).
  - exact (proj2 (addUserOptOut_never_raises_not_idempotent 7
                    Scenario.opted_out_7 _ eq_refl) eq_refl).
Defined.

(* ================================================================== *)
(** ** [clearUserMessages] *)

(** Asked for a count, the store reports the number of deleted rows (as
    [getMessageCount] asks for the total). *)
Lemma serve_delete_counts (algo : CountAlgo) (userId : Z) (w : World) :
  pg_count (fst (serve_delete_conversations (Some algo) userId w))
  = Some (Z.of_nat (List.length (rows_of_user userId (conversations (db w))))).
Proof. reflexivity. Qed.

(** [clearUserMessages] does not ask, so whatever happens it returns 0. *)
Lemma clearUserMessages_zero (userId : Z) (w : World) (client : SupabaseClient) :
  supabaseClient w = Some client ->
  fst (clearUserMessages userId w) = Normal 0.
Proof.
  intros H.
  unfold clearUserMessages, conversations_delete_eq_user, send.
  unfold bind at 1. rewrite (getSupabaseClient_initialized _ _ H).
  mstep.
  destruct (db_fault (env w) (List.length (calls w))); mstep; reflexivity.
Qed.

(** When the request is served, every row of the sender is deleted. *)
Lemma clearUserMessages_deletes (userId : Z) (w : World) (client : SupabaseClient) :
  supabaseClient w = Some client ->
  db_fault (env w) (List.length (calls w)) = NoFault ->
  conversations (db (snd (clearUserMessages userId w)))
  = rows_of_others userId (conversations (db w)).
Proof.
  intros H F.
  unfold clearUserMessages, conversations_delete_eq_user, send.
  unfold bind at 1. rewrite (getSupabaseClient_initialized _ _ H).
  mstep. rewrite F. mstep. reflexivity.
Qed.

(** C3, at the failing input.  Sender 3 has two of the three rows.  The purge
    deletes both, and the total goes from 3 to 1, but the call returns 0 and
    not 2: the query is sent without a [count] option, so the reply carries
    [count: null], and [count || 0] is 0. *)
Theorem clearUserMessages_two_rows_returns_zero :
  let purge := clearUserMessages 3 Scenario.three_rows in
  map (fun r => (message_id r, user_id r)) (conversations (db Scenario.three_rows))
    = [(1, 3); (2, 3); (3, 4)] /\
  fst (getMessageCount Scenario.three_rows) = Normal 3 /\
  fst purge = Normal 0 /\
  map (fun r => (message_id r, user_id r)) (conversations (db (snd purge)))
    = [(3, 4)] /\
  fst (getMessageCount (snd purge)) = Normal 1 /\
  lines_at INFO (skipn (List.length (console Scenario.three_rows)) (console (snd purge)))
    = ["✅ Cleared null messages for user 3"].
Proof. vm_compute. repeat split. Qed.

(* ================================================================== *)
(** ** [insertMessage] on a duplicate *)

(** A second insert of a [message_id] that is in the table: the store
    refuses it, [insertMessage] returns [null] and logs at [ERROR], the same
    as for any other refusal; nothing is thrown. *)
Lemma insertMessage_duplicate (record : ConversationRecord) (w : World)
    (client : SupabaseClient) :
  supabaseClient w = Some client ->
  db_fault (env w) (List.length (calls w)) = NoFault ->
  has_message_id (message_id record) (conversations (db w)) = true ->
  exists w',
    insertMessage record w = (Normal None, w') /\
    db w' = db w /\
    console w'
    = (console w ++ [mkLogEntry ERROR "Error inserting message into conversations:"])%list.
Proof.
  intros H F R.
  unfold insertMessage, conversations_insert_select, send.
  unfold bind at 1. rewrite (getSupabaseClient_initialized _ _ H).
  mstep. rewrite F. unfold serve_insert_conversation. cbn. rewrite R.
  destruct (has_row_id _ _); mstep; rewrite error_always_printed;
    eexists; repeat split; destruct w as [? ? ? ? ? ? ? []]; reflexivity.
Qed.

(** The store's conflict error, had it been thrown, is what the [catch] of
    [api/webhook.ts] looks for. *)
Lemma is_duplicate_of_conflict (constraint : string) :
  Webhook.is_duplicate
    (mkExn (JString (pg_code (unique_violation constraint))) JUndefined
       (Some (pg_message (unique_violation constraint))) "[object Object]")
  = true.
Proof. reflexivity. Qed.

(** C1, at the failing input.  Message 555 is in the table and is delivered a
    second time to the handler of [api/webhook.ts].  The table keeps its one
    row and the handler ends normally, but the conflict is not recognised as
    a duplicate: it is logged twice at [ERROR], and the [WARN] line of the
    duplicate branch is never printed. *)
Theorem duplicate_delivery_logged_at_error :
  let before := Scenario.delivered_once in
  let second := Webhook.onMessage Scenario.delivery_555 (ret tt) before in
  map message_id (conversations (db before)) = [555] /\
  fst second = Normal tt /\
  conversations (db (snd second)) = conversations (db before) /\
  insert_calls (skipn (List.length (calls before)) (calls (snd second)))
    = [mkConversationRecord None 555 "hello" 42 100 "2023-11-14T22:13:20.000Z"
         None (Some "alice") (Some "Alice") None None] /\
  lines_at ERROR (skipn (List.length (console before)) (console (snd second)))
    = ["Error inserting message into conversations:";
       "[ASYNC] insertMessage failed for dbRecord:"] /\
  lines_at WARN (console (snd second)) = [].
Proof. vm_compute. repeat split. Qed.

(* ================================================================== *)
(** ** The privacy gate in the handlers *)

#[local] Arguments isUserOptedOut : simpl never.
#[local] Arguments insertMessage : simpl never.
#[local] Arguments generateEmbedding : simpl never.

Lemma insert_calls_app (l l' : list Call) :
  insert_calls (l ++ l') = (insert_calls l ++ insert_calls l')%list.
Proof.
  induction l as [|c l IH]; cbn; [reflexivity|].
  destruct c as [| [] | | | |]; cbn; now rewrite IH.
Qed.

Lemma not_in_no_opt_out (uid : Z) (rows : list OptOutUser) :
  ~ In uid (map oo_user_id rows) -> has_opt_out uid rows = false.
Proof.
  induction rows as [|a l IH]; cbn; [reflexivity|].
  intros N. destruct (Z.eqb_spec (oo_user_id a) uid) as [E|E]; cbn.
  - exfalso. apply N. now left.
  - apply IH. intros I. apply N. now right.
Qed.

(** Under the [UNIQUE] constraint, a sender who is in the table has exactly
    one row. *)
Lemma unique_opt_out_row (uid : Z) (rows : list OptOutUser) :
  NoDup (map oo_user_id rows) ->
  has_opt_out uid rows = true ->
  exists row, filter (fun r => oo_user_id r =? uid) rows = [row].
Proof.
  induction rows as [|a l IH]; cbn; [discriminate|].
  intros D. inversion D as [|x xs N D']; subst.
  destruct (Z.eqb_spec (oo_user_id a) uid) as [E|E]; cbn.
  - intros _. exists a. f_equal. apply filter_none.
    apply not_in_no_opt_out. now rewrite <- E.
  - intros R. now apply IH.
Qed.

#[local] Arguments String.append : simpl never.

Section OptedOutSender.

Variables (ctx : Context) (user : TgUser) (w : World) (client : SupabaseClient).
Hypothesis sender : ctx_from ctx = Some user.
Hypothesis initialised : supabaseClient w = Some client.
Hypothesis unique : unique_opt_outs (db w).
Hypothesis opted_out : has_opt_out (u_id user) (opt_out_users (db w)) = true.
Hypothesis delivered : db_fault (env w) (List.length (calls w)) = NoFault.

(** The lookup answers [true] in every world that differs from [w] in
    what was logged only. *)
Lemma lookup_says_opted_out (w0 : World) :
  supabaseClient w0 = supabaseClient w -> db w0 = db w ->
  calls w0 = calls w -> env w0 = env w ->
  isUserOptedOut (u_id user) w0 = (Normal true, asked (u_id user) w0).
Proof.
  intros Hc Hd Hl He.
  destruct (unique_opt_out_row _ _ unique opted_out) as [row R].
  apply isUserOptedOut_present with client row; congruence.
Qed.

Ltac lookup := rewrite lookup_says_opted_out by reflexivity.

Ltac dropped :=
  eexists; repeat split; cbn;
  rewrite ?insert_calls_app; cbn; rewrite ?app_nil_r; reflexivity.

Lemma V0_drops :
  exists w', V0.onMessage ctx w = (Normal tt, w') /\
             db w' = db w /\
             insert_calls (calls w') = insert_calls (calls w).
Proof.
  unfold V0.onMessage. mstep.
  destruct (message_with_text ctx) as [[message text]|]; mstep.
  - rewrite sender. mstep. lookup. mstep. dropped.
  - dropped.
Qed.

Lemma V1_drops (next : M unit) :
  exists w', V1.onMessage ctx next w = next w' /\
             db w' = db w /\
             insert_calls (calls w') = insert_calls (calls w).
Proof.
  unfold V1.onMessage, V1.ingest. mstep.
  destruct (message_with_text ctx) as [[message text]|]; mstep.
  - rewrite sender. mstep. lookup. mstep. dropped.
  - dropped.
Qed.

Lemma Webhook_drops (next : M unit) :
  exists w', Webhook.onMessage ctx next w = next w' /\
             db w' = db w /\
             insert_calls (calls w') = insert_calls (calls w).
Proof.
  unfold Webhook.onMessage, Webhook.ingest. mstep.
  destruct (message_with_text ctx) as [[message text]|]; mstep.
  - rewrite sender. mstep. lookup. mstep. dropped.
  - dropped.
Qed.

End OptedOutSender.

(** C5. For a message whose sender is in the opt-out table (the table
    satisfying its [UNIQUE] constraint, the client initialised and the lookup
    delivered, so that the privacy lookup answers opted-out), each version of
    the ingestion handler ends without sending any insert to the store: the
    database is unchanged and no insert call is added to the trace.  The
    versions that take [next] then hand over to it. *)
Theorem opted_out_sender_never_inserted :
  forall (ctx : Context) (user : TgUser) (w : World) (client : SupabaseClient)
         (next : M unit),
    ctx_from ctx = Some user ->
    supabaseClient w = Some client ->
    unique_opt_outs (db w) ->
    has_opt_out (u_id user) (opt_out_users (db w)) = true ->
    db_fault (env w) (List.length (calls w)) = NoFault ->
    (exists w', V0.onMessage ctx w = (Normal tt, w') /\
                db w' = db w /\
                insert_calls (calls w') = insert_calls (calls w)) /\
    (exists w', V1.onMessage ctx next w = next w' /\
                db w' = db w /\
                insert_calls (calls w') = insert_calls (calls w)) /\
    (exists w', Webhook.onMessage ctx next w = next w' /\
                db w' = db w /\
                insert_calls (calls w') = insert_calls (calls w)).
Proof.
  intros ctx user w client next Hs Hi Hu Ho Hd. split; [|split].
  - now apply V0_drops with user client.
  - now apply V1_drops with user client.
  - now apply Webhook_drops with user client.
Qed.

(** C5, on scenario 2 of the specification: sender 7 has opted out and
    writes "hi"; no row is added. *)
Lemma opted_out_sender_never_inserted_witness :
  exists w',
    V0.onMessage Scenario.hi_from_7 Scenario.opted_out_7 = (Normal tt, w') /\
    db w' = db Scenario.opted_out_7 /\
    insert_calls (calls w') = insert_calls (calls Scenario.opted_out_7).
Proof.
  assert (U : unique_opt_outs (db Scenario.opted_out_7)).
  { unfold unique_opt_outs. vm_compute. repeat constructor. intros []. }
  exact (proj1 (opted_out_sender_never_inserted Scenario.hi_from_7 _
                  Scenario.opted_out_7 _ (ret tt) eq_refl eq_refl U eq_refl eq_refl)).
Defined.

(* ================================================================== *)
(** ** [initEmbeddings] *)

#[local] Arguments try_OpenAI : simpl never.
#[local] Arguments try_Gemini : simpl never.

Lemma try_OpenAI_outcome (key : option string) (w : World) :
  exists w',
    try_OpenAI key w = (Normal (usable key (openai_ctor_throws (env w))), w') /\
    calls w' = (calls w ++ map CallConstructOpenAI (given key))%list /\
    env w' = env w /\
    (embeddingsAvailable w', embeddingsProvider w')
    = if usable key (openai_ctor_throws (env w)) then (true, Some openai)
      else (embeddingsAvailable w, embeddingsProvider w).
Proof.
  unfold try_OpenAI, construct_OpenAI, usable, given.
  destruct key as [k|]; [destruct (truthy_string k)|]; mstep.
  - destruct (openai_ctor_throws (env w) k); mstep;
      eexists; repeat split.
  - exists w. now rewrite app_nil_r.
  - exists w. now rewrite app_nil_r.
Qed.

Lemma try_Gemini_outcome (key : option string) (w : World) :
  exists w',
    try_Gemini key w = (Normal (usable key (gemini_ctor_throws (env w))), w') /\
    calls w' = (calls w ++ map CallConstructGemini (given key))%list /\
    env w' = env w /\
    (embeddingsAvailable w', embeddingsProvider w')
    = if usable key (gemini_ctor_throws (env w)) then (true, Some gemini)
      else (embeddingsAvailable w, embeddingsProvider w).
Proof.
  unfold try_Gemini, construct_Gemini, usable, given.
  destruct key as [k|]; [destruct (truthy_string k)|]; mstep.
  - destruct (gemini_ctor_throws (env w) k); mstep;
      eexists; repeat split.
  - exists w. now rewrite app_nil_r.
  - exists w. now rewrite app_nil_r.
Qed.

(** C6. [initEmbeddings] never raises.  It attempts OpenAI first, when that
    key is given, and Gemini only when OpenAI was not constructed.  If the
    OpenAI client is constructed the module state is available with provider
    [openai] and Gemini's constructor is not called; otherwise, if the
    Gemini client is constructed, the state is available with provider
    [gemini]; if neither is, embeddings are not available and there is no
    provider. *)
Theorem initEmbeddings_priority :
  forall (openaiKey geminiKey : option string) (w : World),
    exists w',
      initEmbeddings openaiKey geminiKey w = (Normal tt, w') /\
      calls w' = (calls w ++ expected_attempts openaiKey geminiKey (env w))%list /\
      (embeddingsAvailable w', embeddingsProvider w')
      = if usable openaiKey (openai_ctor_throws (env w)) then (true, Some openai)
        else if usable geminiKey (gemini_ctor_throws (env w)) then (true, Some gemini)
        else (false, None).
Proof.
  intros openaiKey geminiKey w.
  unfold initEmbeddings, expected_attempts.
  destruct (try_OpenAI_outcome openaiKey w) as (w1 & E1 & C1 & V1 & S1).
  unfold try_catch, bind at 1. rewrite E1.
  destruct (usable openaiKey (openai_ctor_throws (env w))).
  - exists w1. cbn. rewrite app_nil_r. auto.
  - destruct (try_Gemini_outcome geminiKey w1) as (w2 & E2 & C2 & V2 & S2).
    unfold bind at 1. rewrite E2, V1 in *.
    destruct (usable geminiKey (gemini_ctor_throws (env w))).
    + exists w2. cbn. rewrite C2, C1, app_assoc. auto.
    + mstep. eexists. repeat split. cbn. now rewrite C2, C1, app_assoc.
Qed.

(** Once OpenAI is constructed, no call to Gemini's constructor is made. *)
Lemma openai_first_excludes_gemini (openaiKey geminiKey : option string) (e : Env) :
  usable openaiKey (openai_ctor_throws e) = true ->
  forall key, ~ In (CallConstructGemini key) (expected_attempts openaiKey geminiKey e).
Proof.
  intros U key. unfold expected_attempts. rewrite U, app_nil_r.
  intros I. apply in_map_iff in I. destruct I as (k & E & _). discriminate.
Qed.

(* ================================================================== *)
(** ** [generateEmbedding] *)

(** C7. [generateEmbedding] never raises, for any text and in any world.
    When no provider is active it returns a null embedding and does nothing
    else: the world, and with it the trace of calls, is unchanged.  When the
    request to the active back end fails, by rejection or by a reply of the
    wrong shape, the embedding is null. *)
Theorem generateEmbedding_never_throws :
  forall (text : string) (w : World),
    exists e w',
      generateEmbedding text w = (Normal (mkEmbeddingResult text e), w') /\
      (embeddingsAvailable w = false -> e = None /\ w' = w) /\
      (embeddingsProvider w = Some openai ->
       openai_failed
         (openai_embeddings_create (env w) (List.length (calls w)) (InputOne text))
       = true ->
       e = None) /\
      (embeddingsProvider w = Some gemini ->
       gemini_failed (gemini_embedContent (env w) (List.length (calls w)) text)
       = true ->
       e = None).
Proof.
  intros text w.
  unfold generateEmbedding, generateOpenAIEmbedding, generateGeminiEmbedding,
    embeddings_create, embedContent, datum_embedding, result_values,
    openai_failed, gemini_failed.
  mstep.
  destruct (embeddingsAvailable w); mstep.
  2:{ do 2 eexists. repeat split; intros; try reflexivity; congruence. }
  destruct (embeddingsProvider w) as [[]|]; mstep.
  - destruct (openaiClient w); mstep.
    + destruct (openai_embeddings_create _ _ _) as [r|ex]; mstep.
      * destruct (r_data r) as [data|]; mstep;
          do 2 eexists; repeat split; intros; congruence.
      * do 2 eexists. repeat split; intros; congruence.
    + do 2 eexists. repeat split; intros; congruence.
  - destruct (geminiClient w); mstep.
    + destruct (gemini_embedContent _ _ _) as [r|ex]; mstep.
      * destruct (g_embedding r) as [values|]; mstep;
          do 2 eexists; repeat split; intros; congruence.
      * do 2 eexists. repeat split; intros; congruence.
    + do 2 eexists. repeat split; intros; congruence.
  - do 2 eexists. repeat split; intros; congruence.
Qed.

(** C7, on instances: at process start no provider is active; and with
    OpenAI active while its service is unreachable, the embedding is null. *)
Lemma generateEmbedding_never_throws_witness :
  fst (generateEmbedding "hello" Scenario.fresh)
    = Normal (mkEmbeddingResult "hello" None) /\
  snd (generateEmbedding "hello" Scenario.fresh) = Scenario.fresh /\
  fst (generateEmbedding "hello" Scenario.openai_down)
    = Normal (mkEmbeddingResult "hello" None).
Proof.
  destruct (generateEmbedding_never_throws "hello" Scenario.fresh)
    as (e & w' & E & Hn & _ & _).
  destruct (generateEmbedding_never_throws "hello" Scenario.openai_down)
    as (e2 & w2 & E2 & _ & Hf & _).
  rewrite E, E2. cbn.
  destruct (Hn eq_refl) as [-> ->].
  rewrite (Hf eq_refl eq_refl).
  repeat split.
Defined.

(* ================================================================== *)
(** ** [generateBatchEmbeddings] *)

#[local] Arguments embed_one : simpl never.
#[local] Arguments map_indexed : simpl nomatch.

Lemma all_null_texts (texts : list string) : map er_text (all_null texts) = texts.
Proof.
  unfold all_null. rewrite map_map. cbn. apply map_id.
Qed.

Lemma openai_results_texts (response : OpenAIResponse) (texts : list string) :
  forall index, map er_text (openai_results response index texts) = texts.
Proof.
  induction texts as [|t rest IH]; intros index; cbn; [reflexivity|].
  now rewrite IH.
Qed.

Lemma gemini_results_texts (e : Env) (texts : list string) :
  forall n, map er_text (gemini_results e n texts) = texts.
Proof.
  induction texts as [|t rest IH]; intros n; cbn; [reflexivity|].
  now rewrite IH.
Qed.

(** Position [i] of the Gemini results is text [i] with the value of
    request [n + i]. *)
Lemma gemini_results_nth (e : Env) (texts : list string) :
  forall (n i : nat),
    nth_error (gemini_results e n texts) i
    = option_map
        (fun t => mkEmbeddingResult t (gemini_value (gemini_embedContent e (n + i) t)))
        (nth_error texts i).
Proof.
  induction texts as [|t rest IH]; intros n [|i]; cbn; try reflexivity.
  - now rewrite Nat.add_0_r.
  - rewrite IH. now rewrite Nat.add_succ_r.
Qed.

(** Position [i] of the OpenAI results is text [i] with item [index + i] of
    the reply. *)
Lemma openai_results_nth (response : OpenAIResponse) (texts : list string) :
  forall (index i : nat),
    nth_error (openai_results response index texts) i
    = option_map
        (fun t => mkEmbeddingResult t (openai_value response (index + i)))
        (nth_error texts i).
Proof.
  induction texts as [|t rest IH]; intros n [|i]; cbn; try reflexivity.
  - now rewrite Nat.add_0_r.
  - rewrite IH. now rewrite Nat.add_succ_r.
Qed.

(** The [map] callback of the OpenAI batch on a reply that has [data]. *)
Lemma openai_each (response : OpenAIResponse) (data : list OpenAIDatum)
    (texts : list string) :
  r_data response = Some data ->
  forall (index : nat) (w : World),
    map_indexed
      (fun text index =>
         e <- datum_embedding response index ;; ret (mkEmbeddingResult text e))
      index texts w
    = (Normal (openai_results response index texts), w).
Proof.
  intros D. induction texts as [|t rest IH]; intros index w; cbn; [reflexivity|].
  unfold bind at 1. unfold bind at 1. unfold datum_embedding at 1.
  rewrite D. unfold ret at 1. unfold ret at 1. unfold bind at 1.
  rewrite IH. cbn. unfold openai_value. now rewrite D.
Qed.

(** One Gemini callback: it never throws, and its value is that of its own
    request. *)
Lemma embed_one_outcome (client : GeminiClient) (text : string) (w : World) :
  exists w',
    embed_one client text w
    = (Normal (gemini_value (gemini_embedContent (env w) (List.length (calls w)) text)),
       w') /\
    env w' = env w /\
    calls w' = (calls w ++ [CallGeminiEmbedContent text])%list.
Proof.
  unfold embed_one, embedContent, result_values. mstep.
  destruct (gemini_embedContent _ _ _) as [[[values|]]|ex]; mstep;
    eexists; repeat split.
Qed.

Lemma embed_each (client : GeminiClient) (texts : list string) :
  forall (index : nat) (w : World),
    exists w',
      map_indexed (fun text _ => embed_one client text) index texts w
      = (Normal (map embedding (gemini_results (env w) (List.length (calls w)) texts)),
         w') /\
      env w' = env w.
Proof.
  induction texts as [|t rest IH]; intros index w; cbn.
  - exists w. split; reflexivity.
  - destruct (embed_one_outcome client t w) as (w1 & E1 & V1 & C1).
    destruct (IH (S index) w1) as (w2 & E2 & V2).
    unfold bind at 1. rewrite E1. unfold bind at 1. rewrite E2.
    exists w2. split; [|congruence].
    cbn. rewrite V1, C1, length_app. cbn.
    now rewrite Nat.add_1_r.
Qed.

Lemma zip_results_own (e : Env) (texts : list string) :
  forall n,
    zip_results texts (map embedding (gemini_results e n texts))
    = gemini_results e n texts.
Proof.
  induction texts as [|t rest IH]; intros n; cbn; [reflexivity|].
  now rewrite IH.
Qed.

#[local] Arguments generateBatchOpenAIEmbeddings : simpl never.
#[local] Arguments generateBatchGeminiEmbeddings : simpl never.

(** On a reply without [data], the callback throws at the first text. *)
Lemma openai_each_missing (response : OpenAIResponse) (t : string)
    (rest : list string) (index : nat) (w : World) :
  r_data response = None ->
  exists ex,
    map_indexed
      (fun text index =>
         e <- datum_embedding response index ;; ret (mkEmbeddingResult text e))
      index (t :: rest) w
    = (Throw ex, w).
Proof.
  intros D. cbn. unfold bind at 1. unfold bind at 1.
  unfold datum_embedding at 1. rewrite D. eexists. reflexivity.
Qed.

Lemma batch_openai_outcome (texts : list string) (w : World) :
  exists rs w',
    generateBatchOpenAIEmbeddings texts w = (Normal rs, w') /\
    map er_text rs = texts /\
    (openai_failed
       (openai_embeddings_create (env w) (List.length (calls w)) (InputMany texts))
     = true ->
     rs = all_null texts) /\
    (openaiClient w <> None ->
     forall r,
       openai_embeddings_create (env w) (List.length (calls w)) (InputMany texts)
       = Normal r ->
       r_data r <> None ->
       rs = openai_results r 0 texts).
Proof.
  unfold generateBatchOpenAIEmbeddings, embeddings_create, openai_failed.
  mstep.
  destruct (openaiClient w) as [client|]; mstep.
  2:{ do 2 eexists. split; [reflexivity|]. split; [apply all_null_texts|].
      split; intros; congruence. }
  destruct (openai_embeddings_create _ _ _) as [r|ex]; mstep.
  2:{ do 2 eexists. split; [reflexivity|]. split; [apply all_null_texts|].
      split; intros; congruence. }
  destruct (r_data r) as [data|] eqn:D.
  - rewrite (openai_each r data texts D). mstep.
    do 2 eexists. split; [reflexivity|].
    split; [apply openai_results_texts|].
    split; [discriminate|]. intros _ r' [= <-] _. reflexivity.
  - destruct texts as [|t rest]; cbn.
    + do 2 eexists. split; [reflexivity|]. repeat split; intros; congruence.
    + destruct (openai_each_missing r t rest 0
                  (set_calls
                     (calls w ++ [CallOpenAIEmbeddings (InputMany (t :: rest))]) w) D)
        as [ex E].
      unfold bind, ret in E. rewrite E. mstep.
      do 2 eexists. split; [reflexivity|].
      split; [cbn; f_equal; apply all_null_texts|].
      split; intros; congruence.
Qed.

Lemma batch_gemini_outcome (texts : list string) (w : World) :
  exists rs w',
    generateBatchGeminiEmbeddings texts w = (Normal rs, w') /\
    map er_text rs = texts /\
    (geminiClient w <> None ->
     rs = gemini_results (env w) (List.length (calls w)) texts).
Proof.
  unfold generateBatchGeminiEmbeddings. mstep.
  destruct (geminiClient w) as [client|]; mstep.
  2:{ do 2 eexists. split; [reflexivity|]. split; [apply all_null_texts|].
      congruence. }
  destruct (embed_each client texts 0 w) as (w1 & E & _).
  rewrite E. rewrite zip_results_own.
  do 2 eexists. split; [reflexivity|].
  split; [apply gemini_results_texts|reflexivity].
Qed.

(** C8. [generateBatchEmbeddings] never raises and returns one result per
    input text, in the order of the inputs: the texts of the results are the
    input texts.  When the OpenAI request fails as a whole, every embedding
    is null; from an OpenAI reply, result [i] carries item [i] of the reply;
    with Gemini, result [i] carries the value of the request made for text
    [i], and null exactly where that request failed or carried no vector. *)
Theorem generateBatchEmbeddings_positional :
  forall (texts : list string) (w : World),
    exists rs w',
      generateBatchEmbeddings texts w = (Normal rs, w') /\
      map er_text rs = texts /\
      List.length rs = List.length texts /\
      (embeddingsProvider w = Some openai ->
       openai_failed
         (openai_embeddings_create (env w) (List.length (calls w)) (InputMany texts))
       = true ->
       rs = all_null texts) /\
      (embeddingsAvailable w = true ->
       embeddingsProvider w = Some openai ->
       openaiClient w <> None ->
       forall r,
         openai_embeddings_create (env w) (List.length (calls w)) (InputMany texts)
         = Normal r ->
         r_data r <> None ->
         rs = openai_results r 0 texts) /\
      (embeddingsAvailable w = true ->
       embeddingsProvider w = Some gemini ->
       geminiClient w <> None ->
       rs = gemini_results (env w) (List.length (calls w)) texts).
Proof.
  intros texts w.
  assert (L : forall rs : list EmbeddingResult,
             map er_text rs = texts -> List.length rs = List.length texts).
  { intros rs <-. now rewrite length_map. }
  unfold generateBatchEmbeddings. mstep.
  destruct (embeddingsAvailable w); mstep.
  2:{ do 2 eexists. split; [reflexivity|].
      pose proof (all_null_texts texts) as T.
      repeat split; auto; intros; congruence. }
  destruct (embeddingsProvider w) as [[]|]; mstep.
  - destruct (batch_openai_outcome texts w) as (rs & w' & E & T & F & S).
    rewrite E. cbn.
    do 2 eexists. split; [reflexivity|].
    repeat split; auto; intros; try congruence.
  - destruct (batch_gemini_outcome texts w) as (rs & w' & E & T & S).
    rewrite E. cbn.
    do 2 eexists. split; [reflexivity|].
    repeat split; auto; intros; congruence.
  - do 2 eexists. split; [reflexivity|].
    pose proof (all_null_texts texts) as T.
    repeat split; auto; intros; congruence.
Qed.

(** C8, on the example of the specification: three texts sent to Gemini,
    the request for the second one fails. *)
Lemma generateBatchEmbeddings_positional_witness :
  fst (generateBatchEmbeddings ["a"; "bad"; "c"] Scenario.with_gemini)
  = Normal [mkEmbeddingResult "a" (Some Scenario.vec);
            mkEmbeddingResult "bad" None;
            mkEmbeddingResult "c" (Some Scenario.vec)].
Proof.
  destruct (generateBatchEmbeddings_positional ["a"; "bad"; "c"] Scenario.with_gemini)
    as (rs & w' & E & _ & _ & _ & _ & G).
  rewrite E. cbn. f_equal.
  apply G; [reflexivity | reflexivity | discriminate].
Defined.

(* ================================================================== *)
(** ** The Record Builder *)

(** On a valid date the record is the message's fields, the ISO rendering of
    its time and the vector, whatever the world. *)
Lemma dbRecord_fields (telegramMessage : TelegramMessage) (vector : option Vector)
    (w : World) :
  valid_date (timestamp telegramMessage) = true ->
  dbRecord telegramMessage vector w
  = (Normal
       (mkConversationRecord None (messageId telegramMessage)
          (text telegramMessage) (userId telegramMessage)
          (groupId telegramMessage) (iso_string (timestamp telegramMessage))
          vector (userName telegramMessage) (userFirstName telegramMessage)
          (userLastName telegramMessage) None),
     w).
Proof.
  intros V. unfold dbRecord, Supabase.toISOString, toISOString_opt.
  rewrite V. reflexivity.
Qed.

(** C9. The Record Builder is pure and deterministic: for every message and
    every optional vector, its outcome (the record, or the [RangeError] of an
    invalid date) is the same in any two worlds, so two applications to the
    same inputs give the same record; and it leaves the world exactly as it
    found it: nothing is logged, no request is sent, no variable is written. *)
Theorem dbRecord_pure :
  forall (telegramMessage : TelegramMessage) (vector : option Vector)
         (w1 w2 : World),
    fst (dbRecord telegramMessage vector w1)
    = fst (dbRecord telegramMessage vector w2) /\
    snd (dbRecord telegramMessage vector w1) = w1 /\
    snd (dbRecord telegramMessage vector w2) = w2.
Proof.
  intros telegramMessage vector w1 w2.
  unfold dbRecord, Supabase.toISOString.
  destruct (toISOString_opt (timestamp telegramMessage)); repeat split.
Qed.

(* ================================================================== *)
(** * Further properties of the code *)

Import Extra.

#[local] Arguments getMessageCount : simpl never.
#[local] Arguments addUserOptOut : simpl never.
#[local] Arguments clearUserMessages : simpl never.

(** ** What the operations of [supabase.ts] do to the database *)

Lemma not_has_opt_out (uid : Z) (rows : list OptOutUser) :
  has_opt_out uid rows = false -> ~ In uid (map oo_user_id rows).
Proof.
  induction rows as [|a l IH]; cbn; [tauto|].
  destruct (Z.eqb_spec (oo_user_id a) uid) as [E|E]; cbn; [discriminate|].
  intros H [I|I]; [contradiction|now apply IH].
Qed.

Lemma NoDup_snoc {A} (l : list A) (x : A) :
  NoDup l -> ~ In x l -> NoDup (l ++ [x]).
Proof.
  intros D N. apply NoDup_app; [exact D|repeat constructor; intros []|].
  intros a Ia [<-|[]]. contradiction.
Qed.

(** What each operation can do to the database, in any world. *)
Lemma insertMessage_db (record : ConversationRecord) (w : World) :
  db (snd (insertMessage record w)) = db w \/
  db (snd (insertMessage record w)) = snd (serve_insert_conversation record w).
Proof.
  unfold insertMessage, getSupabaseClient, conversations_insert_select, send.
  mstep. destruct (supabaseClient w); mstep; [|now left].
  destruct (db_fault (env w) (List.length (calls w))); mstep; try now left.
  unfold serve_insert_conversation. cbn.
  destruct (has_row_id _ _); mstep; [now left|].
  destruct (has_message_id _ _); mstep; [now left|].
  right. reflexivity.
Qed.

Lemma addUserOptOut_db (userId : Z) (w : World) :
  db (snd (addUserOptOut userId w)) = db w \/
  exists at_,
    db (snd (addUserOptOut userId w)) = snd (serve_insert_opt_out userId at_ w).
Proof.
  unfold addUserOptOut, getSupabaseClient, opt_out_users_insert, send,
    new_Date, Supabase.toISOString.
  mstep. destruct (supabaseClient w); mstep; [|now left].
  destruct (toISOString_opt (clock w)) as [at_|]; mstep; [|now left].
  destruct (db_fault (env w) (List.length (calls w))); mstep; try now left.
  unfold serve_insert_opt_out. cbn.
  destruct (has_opt_out _ _); mstep; [now left|].
  right. exists at_. reflexivity.
Qed.

Lemma clearUserMessages_db (userId : Z) (w : World) :
  db (snd (clearUserMessages userId w)) = db w \/
  db (snd (clearUserMessages userId w))
  = snd (serve_delete_conversations None userId w).
Proof.
  unfold clearUserMessages, getSupabaseClient, conversations_delete_eq_user, send.
  mstep. destruct (supabaseClient w); mstep; [|now left].
  destruct (db_fault (env w) (List.length (calls w))); mstep; try now left.
  right. reflexivity.
Qed.

Lemma isUserOptedOut_db (userId : Z) (w : World) :
  db (snd (isUserOptedOut userId w)) = db w.
Proof.
  unfold isUserOptedOut, getSupabaseClient, opt_out_users_select_id_single, send.
  mstep. destruct (supabaseClient w); mstep; [|reflexivity].
  destruct (db_fault (env w) (List.length (calls w))) as [|err|ex]; mstep;
    try reflexivity.
  - unfold serve_select_opt_out_single. cbn.
    destruct (filter _ _) as [|r [|r' rest]]; mstep; reflexivity.
  - destruct (negb _); mstep; reflexivity.
Qed.

Lemma getMessageCount_db (w : World) :
  db (snd (getMessageCount w)) = db w.
Proof.
  unfold getMessageCount, getSupabaseClient, conversations_select_head, send.
  mstep. destruct (supabaseClient w); mstep; [|reflexivity].
  destruct (db_fault (env w) (List.length (calls w))); mstep; reflexivity.
Qed.

(** X1. No operation of [supabase.ts] touches rows that are not its own, in
    any world and whatever the transport does.  [insertMessage] leaves
    [opt_out_users] alone and changes [conversations] at most by appending
    one row, which carries the fields of the record it was given;
    [addUserOptOut] leaves [conversations] alone and at most appends one
    entry, for the user it was given; [clearUserMessages] leaves
    [opt_out_users] alone and removes at most the rows of the user it was
    given, the others staying in their order; [isUserOptedOut] and
    [getMessageCount] do not change the database at all. *)
Theorem supabase_changes_only_its_own_rows :
  forall (w : World),
    (forall record,
        let d := db (snd (insertMessage record w)) in
        opt_out_users d = opt_out_users (db w) /\
        (conversations d = conversations (db w) \/
         exists row,
           conversations d = (conversations (db w) ++ [row])%list /\
           same_message row record)) /\
    (forall userId,
        let d := db (snd (addUserOptOut userId w)) in
        conversations d = conversations (db w) /\
        (opt_out_users d = opt_out_users (db w) \/
         exists entry,
           opt_out_users d = (opt_out_users (db w) ++ [entry])%list /\
           oo_user_id entry = userId)) /\
    (forall userId,
        let d := db (snd (clearUserMessages userId w)) in
        opt_out_users d = opt_out_users (db w) /\
        (conversations d = conversations (db w) \/
         conversations d = rows_of_others userId (conversations (db w)))) /\
    (forall userId, db (snd (isUserOptedOut userId w)) = db w) /\
    db (snd (getMessageCount w)) = db w.
Proof.
  intros w. split; [|split; [|split; [|split]]].
  - intros record d. subst d.
    destruct (insertMessage_db record w) as [E|E]; rewrite E; [now split; [|left]|].
    unfold serve_insert_conversation.
    destruct (has_row_id _ _); [now split; [|left]|].
    destruct (has_message_id _ _); [now split; [|left]|].
    cbn. split; [reflexivity|]. right. eexists. split; [reflexivity|].
    repeat split.
  - intros userId d. subst d.
    destruct (addUserOptOut_db userId w) as [E|[at_ E]]; rewrite E;
      [now split; [|left]|].
    unfold serve_insert_opt_out.
    destruct (has_opt_out _ _); [now split; [|left]|].
    cbn. split; [reflexivity|]. right. eexists. split; reflexivity.
  - intros userId d. subst d.
    destruct (clearUserMessages_db userId w) as [E|E]; rewrite E;
      [now split; [|left]|].
    cbn. split; [reflexivity|]. now right.
  - intros userId. apply isUserOptedOut_db.
  - apply getMessageCount_db.
Qed.

(* ================================================================== *)
(** ** Insert, count and purge *)

Lemma has_message_id_snoc (mid : Z) (rows : list ConversationRecord)
    (row : ConversationRecord) :
  has_message_id mid (rows ++ [row])
  = has_message_id mid rows || (message_id row =? mid).
Proof.
  unfold has_message_id. rewrite existsb_app. cbn. now rewrite orb_false_r.
Qed.

(** A first insert of a message that is served: the frame it leaves. *)
Lemma insertMessage_fresh (record : ConversationRecord) (w : World)
    (client : SupabaseClient) :
  supabaseClient w = Some client ->
  db_fault (env w) (List.length (calls w)) = NoFault ->
  cr_id record = None ->
  fresh_serial (db w) ->
  has_message_id (message_id record) (conversations (db w)) = false ->
  exists row w1,
    insertMessage record w = (Normal (Some row), w1) /\
    conversations (db w1) = (conversations (db w) ++ [row])%list /\
    opt_out_users (db w1) = opt_out_users (db w) /\
    same_message row record /\
    cr_id row = Some (conversations_seq (db w)) /\
    supabaseClient w1 = supabaseClient w /\
    env w1 = env w /\
    calls w1 = (calls w ++ [CallDb (InsertConversation record)])%list.
Proof.
  intros H F I S R.
  unfold insertMessage, conversations_insert_select, send.
  unfold bind at 1. rewrite (getSupabaseClient_initialized _ _ H).
  mstep. rewrite F. unfold serve_insert_conversation. cbn.
  rewrite I. unfold fresh_serial in S. rewrite S, R. mstep.
  do 2 eexists. split; [reflexivity|]. cbn.
  repeat split.
Qed.

(** X2. A first insert that is served stores the message: [insertMessage]
    returns the stored row, which carries every field of the record and the
    next serial number as its id; [conversations] is the old table followed
    by that row, and [opt_out_users] is untouched. *)
Theorem insertMessage_stores :
  forall (record : ConversationRecord) (w : World) (client : SupabaseClient),
    supabaseClient w = Some client ->
    db_fault (env w) (List.length (calls w)) = NoFault ->
    cr_id record = None ->
    fresh_serial (db w) ->
    has_message_id (message_id record) (conversations (db w)) = false ->
    exists row w1,
      insertMessage record w = (Normal (Some row), w1) /\
      conversations (db w1) = (conversations (db w) ++ [row])%list /\
      opt_out_users (db w1) = opt_out_users (db w) /\
      same_message row record /\
      cr_id row = Some (conversations_seq (db w)).
Proof.
  intros record w client H F I S R.
  destruct (insertMessage_fresh record w client H F I S R)
    as (row & w1 & E & C & O & M & D & _).
  exists row, w1. auto.
Qed.

(** X3. Inserting the same message twice leaves one row: after a first insert
    that stored the message, a second insert of a record with that
    [message_id] returns [null] without raising, changes nothing in the
    database, and the table holds exactly one row with that [message_id],
    the one stored first. *)
Theorem insertMessage_twice_one_row :
  forall (record again : ConversationRecord) (w : World) (client : SupabaseClient),
    supabaseClient w = Some client ->
    db_fault (env w) (List.length (calls w)) = NoFault ->
    db_fault (env w) (S (List.length (calls w))) = NoFault ->
    cr_id record = None ->
    fresh_serial (db w) ->
    has_message_id (message_id record) (conversations (db w)) = false ->
    message_id again = message_id record ->
    exists row w1 w2,
      insertMessage record w = (Normal (Some row), w1) /\
      insertMessage again w1 = (Normal None, w2) /\
      db w2 = db w1 /\
      filter (fun r => message_id r =? message_id record) (conversations (db w2))
      = [row].
Proof.
  intros record again w client H F F' I S R A.
  destruct (insertMessage_fresh record w client H F I S R)
    as (row & w1 & E & C & O & M & D & H1 & V1 & L1).
  assert (Hm : message_id row = message_id record) by apply M.
  destruct (insertMessage_duplicate again w1 client) as (w2 & E2 & D2 & _).
  - congruence.
  - rewrite V1, L1, length_app. cbn. now rewrite Nat.add_1_r.
  - rewrite C, has_message_id_snoc, A, Hm, Z.eqb_refl. apply orb_true_r.
  - exists row, w1, w2. repeat split; try assumption.
    rewrite D2, C, filter_app. cbn. rewrite Hm, Z.eqb_refl.
    fold (has_message_id (message_id record)) in R.
    unfold has_message_id in R. now rewrite (filter_none _ _ R).
Qed.

(** X2, on the first insert of message 555 into the empty table. *)
Lemma insertMessage_stores_witness :
  exists row w1,
    insertMessage Cases.hello_555 Scenario.ready = (Normal (Some row), w1) /\
    conversations (db w1) = (conversations (db Scenario.ready) ++ [row])%list /\
    opt_out_users (db w1) = opt_out_users (db Scenario.ready) /\
    same_message row Cases.hello_555 /\
    cr_id row = Some (conversations_seq (db Scenario.ready)).
Proof.
  apply (insertMessage_stores Cases.hello_555 Scenario.ready _
           eq_refl eq_refl eq_refl eq_refl eq_refl).
Defined.

(** X3, on message 555 inserted twice. *)
Lemma insertMessage_twice_one_row_witness :
  exists row w1 w2,
    insertMessage Cases.hello_555 Scenario.ready = (Normal (Some row), w1) /\
    insertMessage Cases.hello_555 w1 = (Normal None, w2) /\
    db w2 = db w1 /\
    filter (fun r => message_id r =? 555) (conversations (db w2)) = [row].
Proof.
  apply (insertMessage_twice_one_row Cases.hello_555 Cases.hello_555
           Scenario.ready _ eq_refl eq_refl eq_refl eq_refl eq_refl eq_refl eq_refl).
Defined.

Lemma length_filter_split {A} (p : A -> bool) (l : list A) :
  List.length l
  = (List.length (filter p l) + List.length (filter (fun a => negb (p a)) l))%nat.
Proof.
  induction l as [|a l IH]; cbn; [reflexivity|].
  destruct (p a); cbn; lia.
Qed.

Lemma filter_filter_neg {A} (p : A -> bool) (l : list A) :
  filter p (filter (fun a => negb (p a)) l) = [].
Proof.
  induction l as [|a l IH]; cbn; [reflexivity|].
  destruct (p a) eqn:E; cbn; [exact IH|]. now rewrite E.
Qed.

Lemma filter_idem {A} (p : A -> bool) (l : list A) :
  filter p (filter p l) = filter p l.
Proof.
  induction l as [|a l IH]; cbn; [reflexivity|].
  destruct (p a) eqn:E; cbn; [|exact IH]. now rewrite E, IH.
Qed.

#[local] Arguments count_or_zero : simpl never.

Lemma count_or_zero_length (n : nat) : count_or_zero (Some (Z.of_nat n)) = Z.of_nat n.
Proof.
  unfold count_or_zero, truthy_number.
  destruct (Z.eqb_spec (Z.of_nat n) 0) as [e|e]; cbn; [now rewrite e|reflexivity].
Qed.

Lemma getMessageCount_served (w : World) (client : SupabaseClient) :
  supabaseClient w = Some client ->
  db_fault (env w) (List.length (calls w)) = NoFault ->
  getMessageCount w
  = (Normal (Z.of_nat (List.length (conversations (db w)))),
     set_calls (calls w ++ [CallDb (CountConversations (Some CountExact))]) w).
Proof.
  intros H F.
  unfold getMessageCount, conversations_select_head, send.
  unfold bind at 1. rewrite (getSupabaseClient_initialized _ _ H).
  mstep. rewrite F. mstep.
  now rewrite count_or_zero_length, set_db_calls.
Qed.

Lemma getMessageCount_failed (w : World) (client : SupabaseClient) :
  supabaseClient w = Some client ->
  db_fault (env w) (List.length (calls w)) <> NoFault ->
  exists lines,
    getMessageCount w
    = (Normal 0,
       set_console (console w ++ lines)
         (set_calls (calls w ++ [CallDb (CountConversations (Some CountExact))]) w)).
Proof.
  intros H F.
  unfold getMessageCount, conversations_select_head, send.
  unfold bind at 1. rewrite (getSupabaseClient_initialized _ _ H).
  mstep.
  destruct (db_fault (env w) (List.length (calls w))) as [|err|ex];
    [congruence| |]; mstep; eexists; reflexivity.
Qed.

(** X4. [getMessageCount] on an initialised client never raises and never
    changes the database; when the request is served it returns the exact
    number of rows of [conversations], and whenever the request fails it
    returns 0. *)
Theorem getMessageCount_exact_or_zero :
  forall (w : World) (client : SupabaseClient),
    supabaseClient w = Some client ->
    (exists n w', getMessageCount w = (Normal n, w') /\ db w' = db w) /\
    (db_fault (env w) (List.length (calls w)) = NoFault ->
     fst (getMessageCount w)
     = Normal (Z.of_nat (List.length (conversations (db w))))) /\
    (db_fault (env w) (List.length (calls w)) <> NoFault ->
     fst (getMessageCount w) = Normal 0).
Proof.
  intros w client H. split; [|split].
  - destruct (db_fault (env w) (List.length (calls w))) as [|err|ex] eqn:F.
    + rewrite (getMessageCount_served w client H F). do 2 eexists. split; reflexivity.
    + destruct (getMessageCount_failed w client H) as [lines E]; [congruence|].
      rewrite E. do 2 eexists. split; reflexivity.
    + destruct (getMessageCount_failed w client H) as [lines E]; [congruence|].
      rewrite E. do 2 eexists. split; reflexivity.
  - intros F. now rewrite (getMessageCount_served w client H F).
  - intros F. destruct (getMessageCount_failed w client H F) as [lines E].
    now rewrite E.
Qed.

(** X4, on the table of three rows, reachable and during an outage. *)
Lemma getMessageCount_exact_or_zero_witness :
  fst (getMessageCount Scenario.three_rows) = Normal 3 /\
  fst (getMessageCount Scenario.outage_7) = Normal 0.
Proof.
  destruct (getMessageCount_exact_or_zero Scenario.three_rows _ eq_refl)
    as (_ & Hs & _).
  destruct (getMessageCount_exact_or_zero Scenario.outage_7 _ eq_refl)
    as (_ & _ & Hf).
  split; [apply Hs; reflexivity|apply Hf; discriminate].
Defined.

Lemma clearUserMessages_served (userId : Z) (w : World) (client : SupabaseClient) :
  supabaseClient w = Some client ->
  db_fault (env w) (List.length (calls w)) = NoFault ->
  exists lines,
    clearUserMessages userId w
    = (Normal 0,
       set_console (console w ++ lines)
         (set_db (snd (serve_delete_conversations None userId w))
            (set_calls (calls w ++ [CallDb (DeleteConversations None userId)]) w))).
Proof.
  intros H F.
  unfold clearUserMessages, conversations_delete_eq_user, send.
  unfold bind at 1. rewrite (getSupabaseClient_initialized _ _ H).
  mstep. rewrite F. mstep. eexists. reflexivity.
Qed.

(** X5. A purge that is served removes the sender's rows and nothing else:
    afterwards [conversations] is the old table without the rows of the
    sender, the other rows in their order; no row of the sender is left, the
    table is shorter by exactly the number of the sender's rows, and
    [opt_out_users] is untouched. *)
Theorem clearUserMessages_purges :
  forall (userId : Z) (w : World) (client : SupabaseClient),
    supabaseClient w = Some client ->
    db_fault (env w) (List.length (calls w)) = NoFault ->
    let w' := snd (clearUserMessages userId w) in
    conversations (db w') = rows_of_others userId (conversations (db w)) /\
    rows_of_user userId (conversations (db w')) = [] /\
    List.length (conversations (db w))
    = (List.length (conversations (db w'))
       + List.length (rows_of_user userId (conversations (db w))))%nat /\
    opt_out_users (db w') = opt_out_users (db w).
Proof.
  intros userId w client H F w'. subst w'.
  destruct (clearUserMessages_served userId w client H F) as [lines E].
  rewrite E. cbn. unfold rows_of_user, rows_of_others.
  split; [reflexivity|]. split; [apply filter_filter_neg|]. split; [|reflexivity].
  rewrite (length_filter_split (fun r => user_id r =? userId) (conversations (db w))).
  lia.
Qed.

(** X5, on the table of three rows, two of them of sender 3. *)
Lemma clearUserMessages_purges_witness :
  let w' := snd (clearUserMessages 3 Scenario.three_rows) in
  conversations (db w') = rows_of_others 3 (conversations (db Scenario.three_rows)) /\
  rows_of_user 3 (conversations (db w')) = [] /\
  List.length (conversations (db Scenario.three_rows))
  = (List.length (conversations (db w'))
     + List.length (rows_of_user 3 (conversations (db Scenario.three_rows))))%nat /\
  opt_out_users (db w') = opt_out_users (db Scenario.three_rows).
Proof.
  apply (clearUserMessages_purges 3 Scenario.three_rows _ eq_refl eq_refl).
Defined.

(** X6. Purge and count compose: when both requests are served, the count
    taken after the purge is the number of rows before it minus the number
    of rows the sender had; and a second purge of the same sender changes
    nothing in the database. *)
Theorem purge_then_count :
  forall (userId : Z) (w : World) (client : SupabaseClient),
    supabaseClient w = Some client ->
    db_fault (env w) (List.length (calls w)) = NoFault ->
    db_fault (env w) (S (List.length (calls w))) = NoFault ->
    let w' := snd (clearUserMessages userId w) in
    fst (getMessageCount w')
    = Normal (Z.of_nat (List.length (conversations (db w)))
              - Z.of_nat (List.length (rows_of_user userId (conversations (db w))))) /\
    db (snd (clearUserMessages userId w')) = db w'.
Proof.
  intros userId w client H F F' w'. subst w'.
  destruct (clearUserMessages_served userId w client H F) as [lines E].
  rewrite E. cbn [snd].
  set (w1 := set_console _ _).
  assert (H1 : supabaseClient w1 = Some client) by exact H.
  assert (F1 : db_fault (env w1) (List.length (calls w1)) = NoFault).
  { subst w1. cbn. rewrite length_app. cbn. now rewrite Nat.add_1_r. }
  split.
  - rewrite (getMessageCount_served w1 client H1 F1). cbn. f_equal.
    unfold rows_of_user, rows_of_others.
    rewrite (length_filter_split (fun r => user_id r =? userId) (conversations (db w))).
    lia.
  - destruct (clearUserMessages_served userId w1 client H1 F1) as [lines' E'].
    rewrite E'. subst w1. cbn. unfold rows_of_others.
    now rewrite filter_idem.
Qed.

(** X6, on the table of three rows: 3 - 2 = 1. *)
Lemma purge_then_count_witness :
  fst (getMessageCount (snd (clearUserMessages 3 Scenario.three_rows))) = Normal 1.
Proof.
  exact (proj1 (purge_then_count 3 Scenario.three_rows _ eq_refl eq_refl eq_refl)).
Defined.

(* ================================================================== *)
(** ** Opting out *)

Lemma has_opt_out_snoc (uid : Z) (rows : list OptOutUser) (row : OptOutUser) :
  has_opt_out uid (rows ++ [row]) = has_opt_out uid rows || (oo_user_id row =? uid).
Proof.
  unfold has_opt_out. rewrite existsb_app. cbn. now rewrite orb_false_r.
Qed.

(** A first opt-out that is served: the frame it leaves. *)
Lemma addUserOptOut_fresh (userId : Z) (w : World) (client : SupabaseClient) :
  supabaseClient w = Some client ->
  valid_date (clock w) = true ->
  db_fault (env w) (List.length (calls w)) = NoFault ->
  has_opt_out userId (opt_out_users (db w)) = false ->
  exists row w1,
    addUserOptOut userId w = (Normal true, w1) /\
    opt_out_users (db w1) = (opt_out_users (db w) ++ [row])%list /\
    oo_user_id row = userId /\
    opted_out_at row = iso_string (clock w) /\
    conversations (db w1) = conversations (db w) /\
    supabaseClient w1 = supabaseClient w /\
    env w1 = env w /\
    calls w1 = (calls w ++ [CallDb (InsertOptOut userId (iso_string (clock w)))])%list.
Proof.
  intros H V F R.
  unfold addUserOptOut, opt_out_users_insert, send, new_Date,
    Supabase.toISOString, toISOString_opt.
  unfold bind at 1. rewrite (getSupabaseClient_initialized _ _ H).
  mstep. rewrite V. mstep. rewrite F. unfold serve_insert_opt_out. cbn.
  rewrite R. mstep.
  do 2 eexists. split; [reflexivity|]. cbn. repeat split.
Qed.

(** X7. Opt-out and lookup round trip: for a sender without an entry, an
    opt-out that is served returns [true], records the time of the call,
    leaves the stored messages as they are, and a following lookup that is
    served answers [true]. *)
Theorem optOut_then_lookup :
  forall (userId : Z) (w : World) (client : SupabaseClient),
    supabaseClient w = Some client ->
    valid_date (clock w) = true ->
    db_fault (env w) (List.length (calls w)) = NoFault ->
    db_fault (env w) (S (List.length (calls w))) = NoFault ->
    has_opt_out userId (opt_out_users (db w)) = false ->
    exists w1,
      addUserOptOut userId w = (Normal true, w1) /\
      conversations (db w1) = conversations (db w) /\
      (exists row, In row (opt_out_users (db w1)) /\
                   oo_user_id row = userId /\
                   opted_out_at row = iso_string (clock w)) /\
      fst (isUserOptedOut userId w1) = Normal true.
Proof.
  intros userId w client H V F F' R.
  destruct (addUserOptOut_fresh userId w client H V F R)
    as (row & w1 & E & O & U & A & C & H1 & V1 & L1).
  exists w1. split; [exact E|]. split; [exact C|]. split.
  - exists row. rewrite O. split; [apply in_or_app; right; now left|auto].
  - rewrite (isUserOptedOut_present userId w1 client row); [reflexivity| | |].
    + congruence.
    + rewrite V1, L1, length_app. cbn. now rewrite Nat.add_1_r.
    + rewrite O, filter_app. cbn. rewrite U, Z.eqb_refl.
      unfold has_opt_out in R. now rewrite (filter_none _ _ R).
Qed.

(** X7, on sender 7 at process start. *)
Lemma optOut_then_lookup_witness :
  exists w1,
    addUserOptOut 7 Scenario.ready = (Normal true, w1) /\
    conversations (db w1) = conversations (db Scenario.ready) /\
    (exists row, In row (opt_out_users (db w1)) /\
                 oo_user_id row = 7 /\
                 opted_out_at row = iso_string (clock Scenario.ready)) /\
    fst (isUserOptedOut 7 w1) = Normal true.
Proof.
  apply (optOut_then_lookup 7 Scenario.ready _ eq_refl eq_refl eq_refl eq_refl eq_refl).
Defined.

(** X8. Opting out takes effect on the next message: after an opt-out that
    was served, on a table with unique keys, a message of that sender given
    to the handler of [bot.ts] is dropped when its lookup is served: the
    handler ends normally, the database is as the opt-out left it and no
    insert is sent. *)
Theorem optOut_then_message_dropped :
  forall (ctx : Context) (user : TgUser) (w : World) (client : SupabaseClient),
    ctx_from ctx = Some user ->
    supabaseClient w = Some client ->
    valid_date (clock w) = true ->
    unique_opt_outs (db w) ->
    db_fault (env w) (List.length (calls w)) = NoFault ->
    db_fault (env w) (S (List.length (calls w))) = NoFault ->
    has_opt_out (u_id user) (opt_out_users (db w)) = false ->
    exists w1 w2,
      addUserOptOut (u_id user) w = (Normal true, w1) /\
      V0.onMessage ctx w1 = (Normal tt, w2) /\
      db w2 = db w1 /\
      insert_calls (calls w2) = insert_calls (calls w1).
Proof.
  intros ctx user w client Hs H V U F F' R.
  destruct (addUserOptOut_fresh (u_id user) w client H V F R)
    as (row & w1 & E & O & Ur & A & C & H1 & V1 & L1).
  destruct (V0_drops ctx user w1 client) as (w2 & E2 & D2 & I2).
  - exact Hs.
  - congruence.
  - unfold unique_opt_outs. rewrite O, map_app. cbn.
    apply NoDup_snoc; [exact U|]. rewrite Ur. now apply not_has_opt_out.
  - rewrite O, has_opt_out_snoc, Ur, Z.eqb_refl. apply orb_true_r.
  - rewrite V1, L1, length_app. cbn. now rewrite Nat.add_1_r.
  - exists w1, w2. auto.
Qed.

(** X8, on sender 7, who opts out and then writes "hi". *)
Lemma optOut_then_message_dropped_witness :
  exists w1 w2,
    addUserOptOut 7 Scenario.ready = (Normal true, w1) /\
    V0.onMessage Scenario.hi_from_7 w1 = (Normal tt, w2) /\
    db w2 = db w1 /\
    insert_calls (calls w2) = insert_calls (calls w1).
Proof.
  assert (U : unique_opt_outs (db Scenario.ready)) by constructor.
  apply (optOut_then_message_dropped Scenario.hi_from_7 _ Scenario.ready _
           eq_refl eq_refl eq_refl U eq_refl eq_refl eq_refl).
Defined.

(* ================================================================== *)
(** ** Embeddings: what is sent, and what is left alone *)

Lemma after_nothing (w : World) : after [] [] w = w.
Proof. unfold after. rewrite !app_nil_r. destruct w; reflexivity. Qed.

Lemma after_after (l1 l2 : list LogEntry) (c1 c2 : list Call) (w : World) :
  after l2 c2 (after l1 c1 w) = after (l1 ++ l2) (c1 ++ c2) w.
Proof. unfold after. cbn. now rewrite !app_assoc. Qed.

Lemma set_console_after (l1 l2 : list LogEntry) (cs : list Call) (w : World) :
  set_console (console (after l1 cs w) ++ l2) (after l1 cs w) = after (l1 ++ l2) cs w.
Proof. unfold after. cbn. now rewrite !app_assoc. Qed.

(** [generateEmbedding] with OpenAI selected and constructed. *)
Lemma generateEmbedding_openai (text : string) (w : World) (client : OpenAIClient) :
  embeddingsAvailable w = true ->
  embeddingsProvider w = Some openai ->
  openaiClient w = Some client ->
  exists lines,
    generateEmbedding text w
    = (Normal (mkEmbeddingResult text
                 (openai_single
                    (openai_embeddings_create (env w) (List.length (calls w))
                       (InputOne text)))),
       after lines [CallOpenAIEmbeddings (InputOne text)] w).
Proof.
  intros A P C.
  unfold generateEmbedding, generateOpenAIEmbedding, embeddings_create,
    datum_embedding, openai_single, openai_value, after.
  mstep. rewrite A. mstep. rewrite P. mstep. rewrite C. mstep.
  destruct (openai_embeddings_create _ _ _) as [r|ex]; mstep.
  - destruct (r_data r) as [data|]; mstep.
    + exists []. rewrite app_nil_r. reflexivity.
    + eexists. reflexivity.
  - eexists. reflexivity.
Qed.

(** [generateEmbedding] with Gemini selected and constructed. *)
Lemma generateEmbedding_gemini (text : string) (w : World) (client : GeminiClient) :
  embeddingsAvailable w = true ->
  embeddingsProvider w = Some gemini ->
  geminiClient w = Some client ->
  exists lines,
    generateEmbedding text w
    = (Normal (mkEmbeddingResult text
                 (gemini_value
                    (gemini_embedContent (env w) (List.length (calls w)) text))),
       after lines [CallGeminiEmbedContent text] w).
Proof.
  intros A P C.
  unfold generateEmbedding, generateGeminiEmbedding, embedContent,
    result_values, gemini_value, after.
  mstep. rewrite A. mstep. rewrite P. mstep. rewrite C. mstep.
  destruct (gemini_embedContent _ _ _) as [[[values|]]|ex]; mstep.
  - exists []. rewrite app_nil_r. reflexivity.
  - eexists. reflexivity.
  - eexists. reflexivity.
Qed.

(** In any world, [generateEmbedding] returns normally, prints some lines,
    sends at most one request, to a back end, and does nothing else. *)
Lemma generateEmbedding_frame (text : string) (w : World) :
  exists e lines cs,
    generateEmbedding text w = (Normal (mkEmbeddingResult text e), after lines cs w) /\
    (cs = [] \/ cs = [CallOpenAIEmbeddings (InputOne text)]
     \/ cs = [CallGeminiEmbedContent text]) /\
    (embeddingsAvailable w = false -> e = None /\ cs = [] /\ lines = []).
Proof.
  destruct (embeddingsAvailable w) eqn:A.
  2:{ exists None, [], []. rewrite after_nothing.
      unfold generateEmbedding. mstep. rewrite A. cbn. auto. }
  destruct (embeddingsProvider w) as [[]|] eqn:P.
  - destruct (openaiClient w) as [client|] eqn:C.
    + destruct (generateEmbedding_openai text w client A P C) as [lines E].
      do 3 eexists. split; [exact E|]. split; [auto|discriminate].
    + exists None, [], []. rewrite after_nothing.
      unfold generateEmbedding, generateOpenAIEmbedding. mstep.
      rewrite A. mstep. rewrite P. mstep. rewrite C. cbn.
      split; [reflexivity|]. split; [auto|discriminate].
  - destruct (geminiClient w) as [client|] eqn:C.
    + destruct (generateEmbedding_gemini text w client A P C) as [lines E].
      do 3 eexists. split; [exact E|]. split; [auto|discriminate].
    + exists None, [], []. rewrite after_nothing.
      unfold generateEmbedding, generateGeminiEmbedding. mstep.
      rewrite A. mstep. rewrite P. mstep. rewrite C. cbn.
      split; [reflexivity|]. split; [auto|discriminate].
  - exists None, [], []. rewrite after_nothing.
    unfold generateEmbedding. mstep. rewrite A. mstep. rewrite P. cbn.
    split; [reflexivity|]. split; [auto|discriminate].
Qed.

(** The world [try_OpenAI] leaves: the selected state when the client was
    constructed, and otherwise only lines and calls. *)
Lemma try_OpenAI_world (key : option string) (w : World) :
  exists w',
    try_OpenAI key w = (Normal (usable key (openai_ctor_throws (env w))), w') /\
    if usable key (openai_ctor_throws (env w)) then
      exists k lines,
        key = Some k /\
        w' = set_console (console w ++ lines)
               (set_embeddingsProvider (Some openai)
                  (set_embeddingsAvailable true
                     (set_openaiClient (Some (mkOpenAIClient k))
                        (set_calls (calls w ++ [CallConstructOpenAI k]) w))))
    else exists lines cs, w' = after lines cs w.
Proof.
  unfold try_OpenAI, construct_OpenAI, usable, after.
  destruct key as [k|]; [destruct (truthy_string k)|]; mstep.
  - destruct (openai_ctor_throws (env w) k); mstep; eexists; split;
      try reflexivity; eauto.
  - exists w. split; [reflexivity|]. exists [], []. symmetry. apply after_nothing.
  - exists w. split; [reflexivity|]. exists [], []. symmetry. apply after_nothing.
Qed.

Lemma try_Gemini_world (key : option string) (w : World) :
  exists w',
    try_Gemini key w = (Normal (usable key (gemini_ctor_throws (env w))), w') /\
    if usable key (gemini_ctor_throws (env w)) then
      exists k lines,
        key = Some k /\
        w' = set_console (console w ++ lines)
               (set_embeddingsProvider (Some gemini)
                  (set_embeddingsAvailable true
                     (set_geminiClient (Some (mkGeminiClient k))
                        (set_calls (calls w ++ [CallConstructGemini k]) w))))
    else exists lines cs, w' = after lines cs w.
Proof.
  unfold try_Gemini, construct_Gemini, usable, after.
  destruct key as [k|]; [destruct (truthy_string k)|]; mstep.
  - destruct (gemini_ctor_throws (env w) k); mstep; eexists; split;
      try reflexivity; eauto.
  - exists w. split; [reflexivity|]. exists [], []. symmetry. apply after_nothing.
  - exists w. split; [reflexivity|]. exists [], []. symmetry. apply after_nothing.
Qed.

(** What [initEmbeddings] leaves, by cases on which client was constructed. *)
Lemma initEmbeddings_world (openaiKey geminiKey : option string) (w : World) :
  exists w',
    initEmbeddings openaiKey geminiKey w = (Normal tt, w') /\
    db w' = db w /\ supabaseClient w' = supabaseClient w /\ env w' = env w /\
    if usable openaiKey (openai_ctor_throws (env w)) then
      embeddingsAvailable w' = true /\ embeddingsProvider w' = Some openai /\
      exists k, openaiKey = Some k /\ openaiClient w' = Some (mkOpenAIClient k)
    else if usable geminiKey (gemini_ctor_throws (env w)) then
      embeddingsAvailable w' = true /\ embeddingsProvider w' = Some gemini /\
      exists k, geminiKey = Some k /\ geminiClient w' = Some (mkGeminiClient k)
    else
      embeddingsAvailable w' = false /\ embeddingsProvider w' = None.
Proof.
  unfold initEmbeddings.
  destruct (try_OpenAI_world openaiKey w) as (w1 & E1 & S1).
  unfold try_catch, bind at 1. rewrite E1.
  destruct (usable openaiKey (openai_ctor_throws (env w))).
  - destruct S1 as (k & lines & -> & ->). eexists. split; [reflexivity|].
    cbn. repeat split. eauto.
  - destruct S1 as (lines & cs & ->).
    destruct (try_Gemini_world geminiKey (after lines cs w)) as (w2 & E2 & S2).
    unfold bind at 1. rewrite E2.
    change (env (after lines cs w)) with (env w) in *.
    destruct (usable geminiKey (gemini_ctor_throws (env w))).
    + destruct S2 as (k & lines' & -> & ->). eexists. split; [reflexivity|].
      cbn. repeat split. eauto.
    + destruct S2 as (lines' & cs' & ->). mstep.
      eexists. split; [reflexivity|]. cbn. repeat split.
Qed.

(** X9. Whatever the keys, the constructors and the state before,
    [initEmbeddings] leaves a consistent selection: embeddings are available
    exactly when a provider is selected, and the client of the selected
    provider is constructed, with the key that was given for it.  It does not
    touch the database nor the Supabase client. *)
Theorem initEmbeddings_consistent_selection :
  forall (openaiKey geminiKey : option string) (w : World),
    let w' := snd (initEmbeddings openaiKey geminiKey w) in
    (embeddingsAvailable w' = true <-> embeddingsProvider w' <> None) /\
    (embeddingsProvider w' = Some openai ->
     exists k, openaiKey = Some k /\ openaiClient w' = Some (mkOpenAIClient k)) /\
    (embeddingsProvider w' = Some gemini ->
     exists k, geminiKey = Some k /\ geminiClient w' = Some (mkGeminiClient k)) /\
    db w' = db w /\
    supabaseClient w' = supabaseClient w.
Proof.
  intros openaiKey geminiKey w w'. subst w'.
  destruct (initEmbeddings_world openaiKey geminiKey w) as (w' & E & D & C & V & S).
  rewrite E. cbn [snd].
  destruct (usable openaiKey _); [|destruct (usable geminiKey _)].
  - destruct S as (A & P & K). rewrite A, P.
    repeat split; auto; try discriminate.
  - destruct S as (A & P & K). rewrite A, P.
    repeat split; auto; try discriminate.
  - destruct S as (A & P). rewrite A, P.
    repeat split; auto; try discriminate; congruence.
Qed.

(** X9, on both keys given and both services up: OpenAI is selected and its
    client carries the OpenAI key. *)
Lemma initEmbeddings_consistent_selection_witness :
  exists k,
    Some "sk-test" = Some k /\
    openaiClient Scenario.with_openai = Some (mkOpenAIClient k).
Proof.
  destruct (initEmbeddings_consistent_selection (Some "sk-test") (Some "g-test")
              Scenario.fresh_serving) as (_ & Ho & _).
  apply Ho. reflexivity.
Defined.

(** X10. Initialisation and embedding compose.  After [initEmbeddings], in
    the world it leaves: if the OpenAI client was constructed,
    [generateEmbedding] sends exactly one request, to OpenAI, with the text
    alone, and returns item 0 of the reply (null if the request fails);
    otherwise, if the Gemini client was constructed, it sends exactly one
    request to Gemini and returns its values; if neither was, it sends
    nothing and returns null. *)
Theorem initEmbeddings_then_generateEmbedding :
  forall (openaiKey geminiKey : option string) (text : string) (w : World),
    let w' := snd (initEmbeddings openaiKey geminiKey w) in
    let n := List.length (calls w') in
    exists e w'',
      generateEmbedding text w' = (Normal (mkEmbeddingResult text e), w'') /\
      if usable openaiKey (openai_ctor_throws (env w)) then
        e = openai_single (openai_embeddings_create (env w) n (InputOne text)) /\
        calls w'' = (calls w' ++ [CallOpenAIEmbeddings (InputOne text)])%list
      else if usable geminiKey (gemini_ctor_throws (env w)) then
        e = gemini_value (gemini_embedContent (env w) n text) /\
        calls w'' = (calls w' ++ [CallGeminiEmbedContent text])%list
      else
        e = None /\ w'' = w'.
Proof.
  intros openaiKey geminiKey text w w' n. subst w' n.
  destruct (initEmbeddings_world openaiKey geminiKey w) as (w' & E & D & C & V & S).
  rewrite E. cbn [snd].
  destruct (usable openaiKey _); [|destruct (usable geminiKey _)].
  - destruct S as (A & P & k & _ & K).
    destruct (generateEmbedding_openai text w' _ A P K) as [lines G].
    rewrite G, V. do 2 eexists. split; [reflexivity|]. split; reflexivity.
  - destruct S as (A & P & k & _ & K).
    destruct (generateEmbedding_gemini text w' _ A P K) as [lines G].
    rewrite G, V. do 2 eexists. split; [reflexivity|]. split; reflexivity.
  - destruct S as (A & P).
    destruct (generateEmbedding_frame text w') as (e & lines & cs & G & _ & N).
    destruct (N A) as (-> & -> & ->).
    rewrite G, after_nothing. do 2 eexists. split; [reflexivity|]. split; reflexivity.
Qed.

(** X11. [generateEmbedding] leaves everything else alone: in any world it
    returns normally, sends no request to the database and at most one
    request at all, which is the request for this text to an embedding back
    end, and changes neither the database, nor the Supabase client, nor the
    selected provider and its clients. *)
Theorem generateEmbedding_leaves_rest_alone :
  forall (text : string) (w : World),
    let w' := snd (generateEmbedding text w) in
    (exists e, fst (generateEmbedding text w) = Normal (mkEmbeddingResult text e)) /\
    db w' = db w /\
    supabaseClient w' = supabaseClient w /\
    (embeddingsAvailable w', embeddingsProvider w', openaiClient w', geminiClient w')
    = (embeddingsAvailable w, embeddingsProvider w, openaiClient w, geminiClient w) /\
    (calls w' = calls w \/
     calls w' = (calls w ++ [CallOpenAIEmbeddings (InputOne text)])%list \/
     calls w' = (calls w ++ [CallGeminiEmbedContent text])%list).
Proof.
  intros text w w'. subst w'.
  destruct (generateEmbedding_frame text w) as (e & lines & cs & G & K & _).
  rewrite G. cbn. repeat split.
  - now exists e.
  - destruct K as [->|[->| ->]]; [left; apply app_nil_r|right; now left|now do 2 right].
Qed.

Lemma embed_one_world (client : GeminiClient) (text : string) (w : World) :
  exists lines,
    embed_one client text w
    = (Normal (gemini_value (gemini_embedContent (env w) (List.length (calls w)) text)),
       after lines [CallGeminiEmbedContent text] w).
Proof.
  unfold embed_one, embedContent, result_values, after. mstep.
  destruct (gemini_embedContent _ _ _) as [[[values|]]|ex]; mstep.
  - exists []. now rewrite app_nil_r.
  - eexists. reflexivity.
  - eexists. reflexivity.
Qed.

Lemma embed_each_world (client : GeminiClient) (texts : list string) :
  forall (index : nat) (w : World),
    exists lines,
      map_indexed (fun text _ => embed_one client text) index texts w
      = (Normal (map embedding (gemini_results (env w) (List.length (calls w)) texts)),
         after lines (map CallGeminiEmbedContent texts) w).
Proof.
  induction texts as [|t rest IH]; intros index w; cbn.
  - exists []. now rewrite after_nothing.
  - destruct (embed_one_world client t w) as [l1 E1].
    destruct (IH (S index) (after l1 [CallGeminiEmbedContent t] w)) as [l2 E2].
    unfold bind at 1. rewrite E1. unfold bind at 1. rewrite E2.
    exists (l1 ++ l2)%list. cbn. rewrite after_after.
    rewrite length_app. cbn. now rewrite Nat.add_1_r.
Qed.

(** X12. The requests of a batch.  With no provider available
    [generateBatchEmbeddings] does nothing at all.  With OpenAI it sends
    exactly one request, carrying all the texts, also for the empty list.
    With Gemini it sends exactly one request per text, in the order of the
    texts, and none for the empty list. *)
Theorem generateBatchEmbeddings_requests :
  forall (texts : list string) (w : World),
    let w' := snd (generateBatchEmbeddings texts w) in
    (embeddingsAvailable w = false -> w' = w) /\
    (embeddingsAvailable w = true ->
     embeddingsProvider w = Some openai ->
     openaiClient w <> None ->
     calls w' = (calls w ++ [CallOpenAIEmbeddings (InputMany texts)])%list) /\
    (embeddingsAvailable w = true ->
     embeddingsProvider w = Some gemini ->
     geminiClient w <> None ->
     calls w' = (calls w ++ map CallGeminiEmbedContent texts)%list).
Proof.
  intros texts w w'. subst w'. split; [|split].
  - intros A. unfold generateBatchEmbeddings. mstep. now rewrite A.
  - intros A P C. unfold generateBatchEmbeddings. mstep. rewrite A. mstep.
    rewrite P. mstep.
    unfold generateBatchOpenAIEmbeddings, embeddings_create. mstep.
    destruct (openaiClient w) as [client|]; [|congruence]. mstep.
    destruct (openai_embeddings_create _ _ _) as [r|ex]; mstep; [|reflexivity].
    destruct (r_data r) as [data|] eqn:D.
    + rewrite (openai_each r data texts D). reflexivity.
    + destruct texts as [|t rest]; [reflexivity|].
      destruct (openai_each_missing r t rest 0
                  (set_calls
                     (calls w ++ [CallOpenAIEmbeddings (InputMany (t :: rest))]) w) D)
        as [ex E].
      unfold bind, ret in E. rewrite E. mstep. reflexivity.
  - intros A P C. unfold generateBatchEmbeddings. mstep. rewrite A. mstep.
    rewrite P. mstep.
    unfold generateBatchGeminiEmbeddings. mstep.
    destruct (geminiClient w) as [client|]; [|congruence]. mstep.
    destruct (embed_each_world client texts 0 w) as [lines E].
    rewrite E. reflexivity.
Qed.

(** X12, on three texts sent to Gemini, and on the empty list sent to
    OpenAI. *)
Lemma generateBatchEmbeddings_requests_witness :
  calls (snd (generateBatchEmbeddings ["a"; "bad"; "c"] Scenario.with_gemini))
  = (calls Scenario.with_gemini
     ++ [CallGeminiEmbedContent "a"; CallGeminiEmbedContent "bad";
         CallGeminiEmbedContent "c"])%list /\
  calls (snd (generateBatchEmbeddings [] Scenario.with_openai))
  = (calls Scenario.with_openai ++ [CallOpenAIEmbeddings (InputMany [])])%list.
Proof.
  destruct (generateBatchEmbeddings_requests ["a"; "bad"; "c"] Scenario.with_gemini)
    as (_ & _ & Hg).
  destruct (generateBatchEmbeddings_requests [] Scenario.with_openai)
    as (_ & Ho & _).
  split.
  - apply Hg; [reflexivity | reflexivity | discriminate].
  - apply Ho; [reflexivity | reflexivity | discriminate].
Defined.

(* ================================================================== *)
(** ** The ingestion handlers on a message they take up *)

Lemma openai_failed_single (reply : Completion OpenAIResponse) :
  openai_failed reply = true -> openai_single reply = None.
Proof.
  destruct reply as [r|ex]; cbn; [|reflexivity].
  unfold openai_value. destruct (r_data r); [discriminate|reflexivity].
Qed.

Lemma gemini_failed_value (reply : Completion GeminiResult) :
  gemini_failed reply = true -> gemini_value reply = None.
Proof.
  destruct reply as [[[values|]]|ex]; cbn; congruence.
Qed.

(** [generateEmbedding] in any world: its frame and when its result is
    null. *)
Lemma generateEmbedding_full (text : string) (w : World) :
  exists e lines cs,
    generateEmbedding text w = (Normal (mkEmbeddingResult text e), after lines cs w) /\
    insert_calls cs = [] /\
    (embeddingsAvailable w = false -> e = None /\ cs = [] /\ lines = []) /\
    (embeddingsProvider w = Some openai ->
     openai_failed
       (openai_embeddings_create (env w) (List.length (calls w)) (InputOne text))
     = true ->
     e = None) /\
    (embeddingsProvider w = Some gemini ->
     gemini_failed (gemini_embedContent (env w) (List.length (calls w)) text) = true ->
     e = None).
Proof.
  destruct (generateEmbedding_frame text w) as (e & lines & cs & G & K & N).
  assert (I : insert_calls cs = []) by (destruct K as [->|[->| ->]]; reflexivity).
  destruct (embeddingsAvailable w) eqn:A.
  2:{ exists e, lines, cs. destruct (N eq_refl) as (-> & -> & ->).
      repeat split; auto. }
  destruct (embeddingsProvider w) as [[]|] eqn:P.
  - destruct (openaiClient w) as [client|] eqn:C.
    + destruct (generateEmbedding_openai text w client A P C) as [lines' G'].
      do 3 eexists. split; [exact G'|]. repeat split; try discriminate.
      intros _. apply openai_failed_single.
    + exists None, [], []. rewrite after_nothing.
      unfold generateEmbedding, generateOpenAIEmbedding. mstep.
      rewrite A. mstep. rewrite P. mstep. rewrite C. cbn.
      repeat split; discriminate.
  - destruct (geminiClient w) as [client|] eqn:C.
    + destruct (generateEmbedding_gemini text w client A P C) as [lines' G'].
      do 3 eexists. split; [exact G'|]. repeat split; try discriminate.
      intros _. apply gemini_failed_value.
    + exists None, [], []. rewrite after_nothing.
      unfold generateEmbedding, generateGeminiEmbedding. mstep.
      rewrite A. mstep. rewrite P. mstep. rewrite C. cbn.
      repeat split; discriminate.
  - exists e, lines, cs. split; [exact G|]. split; [exact I|].
    repeat split; discriminate.
Qed.

(** A lookup that will not answer "opted out" answers [false], in every
    world that differs from [w] in what was logged only. *)
Lemma lookup_open_false (userId : Z) (w w0 : World) (client : SupabaseClient) :
  supabaseClient w = Some client ->
  lookup_open userId (List.length (calls w)) w ->
  supabaseClient w0 = supabaseClient w -> db w0 = db w ->
  calls w0 = calls w -> env w0 = env w ->
  exists lines,
    isUserOptedOut userId w0
    = (Normal false, after lines [CallDb (SelectOptOutSingle userId)] w0).
Proof.
  intros H L Hc Hd Hl He.
  assert (H0 : supabaseClient w0 = Some client) by congruence.
  destruct (db_fault (env w) (List.length (calls w))) as [|err|ex] eqn:F.
  - destruct L as [L|L]; [congruence|].
    exists []. rewrite (isUserOptedOut_absent userId w0 client H0);
      [|congruence|congruence].
    unfold after, asked. rewrite app_nil_r. reflexivity.
  - destruct (isUserOptedOut_fault userId w0 client H0) as [lines E];
      [congruence|]. exists lines. exact E.
  - destruct (isUserOptedOut_fault userId w0 client H0) as [lines E];
      [congruence|]. exists lines. exact E.
Qed.

(** With an initialised client, [insertMessage] returns normally and sends
    exactly the insert of its record. *)
Lemma insertMessage_sends (record : ConversationRecord) (w : World)
    (client : SupabaseClient) :
  supabaseClient w = Some client ->
  exists r w',
    insertMessage record w = (Normal r, w') /\
    calls w' = (calls w ++ [CallDb (InsertConversation record)])%list /\
    logLevel w' = logLevel w /\
    exists lines, console w' = (console w ++ lines)%list /\
                  lines_at WARN lines = [].
Proof.
  intros H.
  unfold insertMessage, conversations_insert_select, send.
  unfold bind at 1. rewrite (getSupabaseClient_initialized _ _ H).
  mstep.
  destruct (db_fault (env w) (List.length (calls w))) as [|err|ex]; mstep.
  - unfold serve_insert_conversation. cbn.
    destruct (has_row_id _ _); mstep;
      [|destruct (has_message_id _ _); mstep];
      do 2 eexists; (split; [reflexivity|]); cbn; repeat split;
      eexists; (split; [reflexivity|]);
      unfold printed; destruct (Logger._shouldLog _ _); reflexivity.
  - do 2 eexists. split; [reflexivity|]. cbn. repeat split.
    eexists. split; [reflexivity|].
    unfold printed; destruct (Logger._shouldLog _ _); reflexivity.
  - do 2 eexists. split; [reflexivity|]. cbn. repeat split.
    eexists. split; [reflexivity|].
    unfold printed; destruct (Logger._shouldLog _ _); reflexivity.
Qed.

#[local] Arguments dbRecord : simpl never.
#[local] Arguments after : simpl never.

Lemma embedding_calls_app (l l' : list Call) :
  embedding_calls (l ++ l') = (embedding_calls l ++ embedding_calls l')%list.
Proof. apply filter_app. Qed.

(** The record of a message the handlers take up is built whatever the
    world. *)
Lemma dbRecord_built (message : TgMessage) (text : string) (user : TgUser)
    (chatId : Z) (v : option Vector) (w : World) :
  valid_date (m_date message * 1000) = true ->
  dbRecord (telegramMessage_of message text user chatId) v w
  = (Normal (built message text user chatId v), w).
Proof.
  intros V. now rewrite dbRecord_fields.
Qed.

Lemma set_console_is_after (lines : list LogEntry) (w : World) :
  set_console (console w ++ lines) w = after lines [] w.
Proof. unfold after. rewrite app_nil_r. destruct w; reflexivity. Qed.

Lemma calls_after (lines : list LogEntry) (cs : list Call) (w : World) :
  calls (after lines cs w) = (calls w ++ cs)%list.
Proof. reflexivity. Qed.

Lemma console_after (lines : list LogEntry) (cs : list Call) (w : World) :
  console (after lines cs w) = (console w ++ lines)%list.
Proof. reflexivity. Qed.

Lemma rest_after (lines : list LogEntry) (cs : list Call) (w : World) :
  supabaseClient (after lines cs w) = supabaseClient w /\
  db (after lines cs w) = db w /\
  env (after lines cs w) = env w /\
  logLevel (after lines cs w) = logLevel w /\
  embeddingsAvailable (after lines cs w) = embeddingsAvailable w /\
  embeddingsProvider (after lines cs w) = embeddingsProvider w.
Proof. repeat split. Qed.

Lemma supabaseClient_after (lines : list LogEntry) (cs : list Call) (w : World) :
  supabaseClient (after lines cs w) = supabaseClient w.
Proof. reflexivity. Qed.

Lemma db_after (lines : list LogEntry) (cs : list Call) (w : World) :
  db (after lines cs w) = db w.
Proof. reflexivity. Qed.

Lemma env_after (lines : list LogEntry) (cs : list Call) (w : World) :
  env (after lines cs w) = env w.
Proof. reflexivity. Qed.

Lemma available_after (lines : list LogEntry) (cs : list Call) (w : World) :
  embeddingsAvailable (after lines cs w) = embeddingsAvailable w.
Proof. reflexivity. Qed.

Lemma provider_after (lines : list LogEntry) (cs : list Call) (w : World) :
  embeddingsProvider (after lines cs w) = embeddingsProvider w.
Proof. reflexivity. Qed.

Lemma logLevel_after (lines : list LogEntry) (cs : list Call) (w : World) :
  logLevel (after lines cs w) = logLevel w.
Proof. reflexivity. Qed.

Create Rewrite HintDb frame.
#[local] Hint Rewrite calls_after console_after supabaseClient_after db_after
  env_after available_after provider_after logLevel_after
  insert_calls_app embedding_calls_app length_app app_nil_r : frame.

(** Logger calls, in the form of [after]. *)
Ltac lstep := mstep; rewrite ?set_console_is_after.

Section TakenUp.

Variables (ctx : Context) (message : TgMessage) (text : string) (user : TgUser)
  (chatId : Z) (w : World) (client : SupabaseClient).
Hypothesis wf : well_formed ctx message text user chatId.
Hypothesis initialised : supabaseClient w = Some client.
Hypothesis open : lookup_open (u_id user) (List.length (calls w)) w.

(** The handlers from the lookup on, started in a world [w0] that differs
    from [w] in what was logged only: the embedding stage gives a vector
    [e], and the world before the insert. *)
Lemma embedding_stage (w1 : World) :
  embeddingsAvailable w1 = embeddingsAvailable w ->
  embeddingsProvider w1 = embeddingsProvider w ->
  env w1 = env w ->
  List.length (calls w1) = S (List.length (calls w)) ->
  exists e lines cs,
    generateEmbedding text w1 = (Normal (mkEmbeddingResult text e), after lines cs w1) /\
    insert_calls cs = [] /\
    (embeddingsAvailable w = false -> e = None /\ cs = [] /\ lines = []) /\
    (embeddingsProvider w = Some openai ->
     openai_failed
       (openai_embeddings_create (env w) (S (List.length (calls w))) (InputOne text))
     = true ->
     e = None) /\
    (embeddingsProvider w = Some gemini ->
     gemini_failed (gemini_embedContent (env w) (S (List.length (calls w))) text)
     = true ->
     e = None).
Proof.
  intros A P V L.
  destruct (generateEmbedding_full text w1) as (e & lines & cs & G & I & N & Fo & Fg).
  rewrite A, P, V, L in *. exists e, lines, cs. auto.
Qed.

(** The last stage, from the embedding stage's outcome to the insert. *)
Lemma insert_stage (w1 : World) (e : option Vector) (lines : list LogEntry)
    (cs : list Call) :
  supabaseClient w1 = Some client ->
  exists r w3,
    insertMessage (built message text user chatId e) (after lines cs w1)
    = (Normal r, w3) /\
    calls w3
    = ((calls w1 ++ cs) ++ [CallDb (InsertConversation (built message text user chatId e))])%list.
Proof.
  intros H.
  destruct (insertMessage_sends (built message text user chatId e)
              (after lines cs w1) client H) as (r & w3 & E & C & _).
  exists r, w3. split; [exact E|exact C].
Qed.

Lemma V0_takes_up :
  exists e w',
    V0.onMessage ctx w = (Normal tt, w') /\
    taken_up message text user chatId w e w'.
Proof.
  destruct wf as (Wm & Wf & Wc & Wd).
  unfold V0.onMessage. lstep. rewrite Wm. lstep. rewrite Wf. lstep.
  destruct (lookup_open_false (u_id user) w w client initialised open)
    as [l1 E1]; try reflexivity.
  rewrite E1. lstep. rewrite Wc. lstep.
  set (w1 := after l1 _ w).
  destruct (embedding_stage w1) as (e & l2 & cs & G & I & N & Fo & Fg);
    try reflexivity.
  { subst w1. autorewrite with frame. cbn. lia. }
  change (embeddingsAvailable w1) with (embeddingsAvailable w).
  destruct (embeddingsAvailable w) eqn:A.
  - rewrite G. lstep. rewrite (dbRecord_built _ _ _ _ _ _ Wd).
    destruct (insert_stage w1 e l2 cs initialised) as (r & w3 & E3 & C3).
    rewrite E3. exists e, w3. split; [reflexivity|].
    unfold taken_up. rewrite C3. subst w1. autorewrite with frame.
    rewrite I. cbn. autorewrite with frame.
    repeat split; auto; intros; congruence.
  - destruct (N eq_refl) as (-> & -> & ->).
    rewrite (dbRecord_built _ _ _ _ _ _ Wd).
    destruct (insert_stage w1 None [] [] initialised) as (r & w3 & E3 & C3).
    rewrite after_nothing in E3. rewrite E3.
    exists None, w3. split; [reflexivity|].
    unfold taken_up. rewrite C3. subst w1. autorewrite with frame. cbn.
    autorewrite with frame. repeat split; auto.
Qed.

(** The steps the later handlers share, once the lookup has answered. *)
Ltac after_lookup A e l2 cs G Hins Hnone Fo Fg :=
  match goal with |- context [(if embeddingsAvailable _ then _ else _) ?w1] =>
    destruct (embedding_stage w1) as (e & l2 & cs & G & Hins & Hnone & Fo & Fg);
      [reflexivity|reflexivity|reflexivity
      |cbn; autorewrite with frame; cbn; lia|] end;
  change (embeddingsAvailable (after _ _ _)) with (embeddingsAvailable w);
  destruct (embeddingsAvailable w) eqn:A.

Ltac insert_now res w3 E3 C3 :=
  match goal with |- context [insertMessage ?r ?w2] =>
    destruct (insertMessage_sends r w2 client initialised)
      as (res & w3 & E3 & C3 & _); rewrite E3 end.

Ltac is_taken_up C3 Hins :=
  unfold taken_up; cbn; rewrite C3; cbn; autorewrite with frame;
  rewrite ?Hins; cbn; autorewrite with frame;
  repeat split; auto; intros; congruence.

Lemma V1_takes_up (next : M unit) :
  exists e w',
    V1.onMessage ctx next w = next w' /\
    taken_up message text user chatId w e w'.
Proof.
  destruct wf as (Wm & Wf & Wc & Wd).
  unfold V1.onMessage, V1.ingest. mstep. rewrite Wm. mstep. rewrite Wf. mstep.
  match goal with |- context [isUserOptedOut _ ?w0] =>
    destruct (lookup_open_false (u_id user) w w0 client initialised open)
      as [l1 E1]; [reflexivity..|rewrite E1] end.
  mstep. rewrite Wc. mstep.
  after_lookup A e l2 cs G Hins Hnone Fo Fg.
  - rewrite G. mstep. rewrite (dbRecord_built _ _ _ _ _ _ Wd). mstep.
    insert_now res w3 E3 C3. mstep.
    destruct res; mstep; exists e; eexists; (split; [reflexivity|]);
      is_taken_up C3 Hins.
  - destruct (Hnone eq_refl) as (-> & -> & ->).
    mstep. rewrite (dbRecord_built _ _ _ _ _ _ Wd). mstep.
    insert_now res w3 E3 C3. mstep.
    destruct res; mstep; exists None; eexists; (split; [reflexivity|]);
      is_taken_up C3 Hins.
Qed.

Lemma Webhook_takes_up (next : M unit) :
  exists e w',
    Webhook.onMessage ctx next w = next w' /\
    taken_up message text user chatId w e w'.
Proof.
  destruct wf as (Wm & Wf & Wc & Wd).
  unfold Webhook.onMessage, Webhook.ingest. mstep. rewrite Wm. mstep.
  rewrite Wf. mstep.
  match goal with |- context [isUserOptedOut _ ?w0] =>
    destruct (lookup_open_false (u_id user) w w0 client initialised open)
      as [l1 E1]; [reflexivity..|rewrite E1] end.
  mstep. rewrite Wc. mstep.
  after_lookup A e l2 cs G Hins Hnone Fo Fg.
  - rewrite G. mstep. rewrite (dbRecord_built _ _ _ _ _ _ Wd). mstep.
    insert_now res w3 E3 C3. mstep.
    destruct res; mstep; exists e; eexists; (split; [reflexivity|]);
      is_taken_up C3 Hins.
  - destruct (Hnone eq_refl) as (-> & -> & ->).
    mstep. rewrite (dbRecord_built _ _ _ _ _ _ Wd). mstep.
    insert_now res w3 E3 C3. mstep.
    destruct res; mstep; exists None; eexists; (split; [reflexivity|]);
      is_taken_up C3 Hins.
Qed.

End TakenUp.

Section StoredWithoutProvider.

Variables (ctx : Context) (message : TgMessage) (text : string) (user : TgUser)
  (chatId : Z) (w : World) (client : SupabaseClient).
Hypothesis wf : well_formed ctx message text user chatId.
Hypothesis initialised : supabaseClient w = Some client.
Hypothesis open : lookup_open (u_id user) (List.length (calls w)) w.
Hypothesis unavailable : embeddingsAvailable w = false.
Hypothesis served : db_fault (env w) (S (List.length (calls w))) = NoFault.
Hypothesis fresh : fresh_serial (db w).
Hypothesis new : has_message_id (m_message_id message) (conversations (db w)) = false.

Ltac store_now row w3 E3 C3 O3 M3 L3 :=
  match goal with |- context [insertMessage ?r ?w2] =>
    destruct (insertMessage_fresh r w2 client)
      as (row & w3 & E3 & C3 & O3 & M3 & _ & _ & _ & L3);
      [ exact initialised
      | cbn; autorewrite with frame; cbn;
        rewrite ?Nat.add_0_r, Nat.add_1_r; exact served
      | reflexivity
      | exact fresh
      | exact new
      | rewrite E3 ] end.

Ltac is_stored row C3 O3 M3 L3 :=
  exists row; cbn; rewrite ?C3, ?O3, ?L3; cbn; autorewrite with frame; cbn;
  autorewrite with frame; repeat split; auto; apply M3.

Lemma V0_stores :
  exists w', V0.onMessage ctx w = (Normal tt, w') /\
    stored_plain message text user chatId w w'.
Proof.
  destruct wf as (Wm & Wf & Wc & Wd).
  unfold V0.onMessage. mstep. rewrite Wm. mstep. rewrite Wf. mstep.
  destruct (lookup_open_false (u_id user) w w client initialised open)
    as [l1 E1]; try reflexivity.
  rewrite E1. mstep. rewrite Wc. mstep.
  change (embeddingsAvailable (after _ _ _)) with (embeddingsAvailable w).
  rewrite unavailable. mstep. rewrite (dbRecord_built _ _ _ _ _ _ Wd). mstep.
  store_now row w3 E3 C3 O3 M3 L3.
  eexists. split; [reflexivity|]. is_stored row C3 O3 M3 L3.
Qed.

Lemma V1_stores (next : M unit) :
  exists w', V1.onMessage ctx next w = next w' /\
             stored_plain message text user chatId w w'.
Proof.
  destruct wf as (Wm & Wf & Wc & Wd).
  unfold V1.onMessage, V1.ingest. mstep. rewrite Wm. mstep. rewrite Wf. mstep.
  match goal with |- context [isUserOptedOut _ ?w0] =>
    destruct (lookup_open_false (u_id user) w w0 client initialised open)
      as [l1 E1]; [reflexivity..|rewrite E1] end.
  mstep. rewrite Wc. mstep.
  change (embeddingsAvailable (after _ _ _)) with (embeddingsAvailable w).
  rewrite unavailable. mstep. rewrite (dbRecord_built _ _ _ _ _ _ Wd). mstep.
  store_now row w3 E3 C3 O3 M3 L3. mstep.
  eexists. split; [reflexivity|]. is_stored row C3 O3 M3 L3.
Qed.

Lemma Webhook_stores (next : M unit) :
  exists w', Webhook.onMessage ctx next w = next w' /\
             stored_plain message text user chatId w w'.
Proof.
  destruct wf as (Wm & Wf & Wc & Wd).
  unfold Webhook.onMessage, Webhook.ingest. mstep. rewrite Wm. mstep.
  rewrite Wf. mstep.
  match goal with |- context [isUserOptedOut _ ?w0] =>
    destruct (lookup_open_false (u_id user) w w0 client initialised open)
      as [l1 E1]; [reflexivity..|rewrite E1] end.
  mstep. rewrite Wc. mstep.
  change (embeddingsAvailable (after _ _ _)) with (embeddingsAvailable w).
  rewrite unavailable. mstep. rewrite (dbRecord_built _ _ _ _ _ _ Wd). mstep.
  store_now row w3 E3 C3 O3 M3 L3. mstep.
  eexists. split; [reflexivity|]. is_stored row C3 O3 M3 L3.
Qed.

End StoredWithoutProvider.

(* ================================================================== *)
(** ** What the handlers guarantee *)

(** X13. The privacy gate fails open in every version of the handler: when
    the opt-out lookup fails, a message the handler takes up is sent for
    insertion all the same, whether or not its sender is in the opt-out
    table.  Exactly one insert is sent, of the record built from the
    message. *)
Theorem ingest_fails_open :
  forall (ctx : Context) (message : TgMessage) (text : string) (user : TgUser)
         (chatId : Z) (w : World) (client : SupabaseClient) (next : M unit),
    well_formed ctx message text user chatId ->
    supabaseClient w = Some client ->
    db_fault (env w) (List.length (calls w)) <> NoFault ->
    (exists e w',
        V0.onMessage ctx w = (Normal tt, w') /\
        insert_calls (calls w')
        = (insert_calls (calls w) ++ [built message text user chatId e])%list) /\
    (exists e w',
        V1.onMessage ctx next w = next w' /\
        insert_calls (calls w')
        = (insert_calls (calls w) ++ [built message text user chatId e])%list) /\
    (exists e w',
        Webhook.onMessage ctx next w = next w' /\
        insert_calls (calls w')
        = (insert_calls (calls w) ++ [built message text user chatId e])%list).
Proof.
  intros ctx message text user chatId w client next Wf H F.
  assert (L : lookup_open (u_id user) (List.length (calls w)) w) by now left.
  split; [|split].
  - destruct (V0_takes_up ctx message text user chatId w client Wf H L)
      as (e & w' & E & T & _). eauto.
  - destruct (V1_takes_up ctx message text user chatId w client Wf H L next)
      as (e & w' & E & T & _). eauto.
  - destruct (Webhook_takes_up ctx message text user chatId w client Wf H L next)
      as (e & w' & E & T & _). eauto.
Qed.

(** X13, on sender 7, who has opted out, while the lookup is down. *)
Lemma ingest_fails_open_witness :
  has_opt_out 7 (opt_out_users (db Cases.lookup_down_7)) = true /\
  exists e w',
    V0.onMessage Scenario.hi_from_7 Cases.lookup_down_7 = (Normal tt, w') /\
    insert_calls (calls w')
    = (insert_calls (calls Cases.lookup_down_7)
       ++ [built Cases.message_9 "hi" (Cases.alice 7) 100 e])%list.
Proof.
  split; [reflexivity|].
  assert (W : well_formed Scenario.hi_from_7 Cases.message_9 "hi" (Cases.alice 7) 100)
    by (repeat split).
  refine (proj1 (ingest_fails_open _ _ _ _ _ Cases.lookup_down_7 _ (ret tt)
                   W eq_refl _)).
  vm_compute. discriminate.
Defined.

(** X14. A failing embedding request does not abort ingestion: when the
    selected back end rejects the request or answers without data, each
    version of the handler still sends the insert, of the record with a null
    vector. *)
Theorem embedding_failure_still_inserts :
  forall (ctx : Context) (message : TgMessage) (text : string) (user : TgUser)
         (chatId : Z) (w : World) (client : SupabaseClient) (next : M unit),
    well_formed ctx message text user chatId ->
    supabaseClient w = Some client ->
    lookup_open (u_id user) (List.length (calls w)) w ->
    (embeddingsProvider w = Some openai /\
     openai_failed
       (openai_embeddings_create (env w) (S (List.length (calls w))) (InputOne text))
     = true)
    \/ (embeddingsProvider w = Some gemini /\
        gemini_failed (gemini_embedContent (env w) (S (List.length (calls w))) text)
        = true) ->
    (exists w',
        V0.onMessage ctx w = (Normal tt, w') /\
        insert_calls (calls w')
        = (insert_calls (calls w) ++ [built message text user chatId None])%list) /\
    (exists w',
        V1.onMessage ctx next w = next w' /\
        insert_calls (calls w')
        = (insert_calls (calls w) ++ [built message text user chatId None])%list) /\
    (exists w',
        Webhook.onMessage ctx next w = next w' /\
        insert_calls (calls w')
        = (insert_calls (calls w) ++ [built message text user chatId None])%list).
Proof.
  intros ctx message text user chatId w client next Wf H L F.
  assert (N : forall e w', taken_up message text user chatId w e w' -> e = None).
  { intros e w' (_ & _ & Fo & Fg). destruct F as [[P R]|[P R]]; auto. }
  split; [|split].
  - destruct (V0_takes_up ctx message text user chatId w client Wf H L)
      as (e & w' & E & T).
    rewrite (N e w' T) in T. destruct T as (T & _). eauto.
  - destruct (V1_takes_up ctx message text user chatId w client Wf H L next)
      as (e & w' & E & T).
    rewrite (N e w' T) in T. destruct T as (T & _). eauto.
  - destruct (Webhook_takes_up ctx message text user chatId w client Wf H L next)
      as (e & w' & E & T).
    rewrite (N e w' T) in T. destruct T as (T & _). eauto.
Qed.

(** X14, on message 555 while OpenAI is selected and does not answer. *)
Lemma embedding_failure_still_inserts_witness :
  exists w',
    V0.onMessage Scenario.delivery_555 Cases.ready_openai_down = (Normal tt, w') /\
    insert_calls (calls w')
    = (insert_calls (calls Cases.ready_openai_down)
       ++ [built Cases.message_555 "hello" (Cases.alice 42) 100 None])%list.
Proof.
  assert (W : well_formed Scenario.delivery_555 Cases.message_555 "hello"
                (Cases.alice 42) 100) by (repeat split).
  refine (proj1 (embedding_failure_still_inserts _ _ _ _ _ Cases.ready_openai_down
                   _ (ret tt) W eq_refl _ _)).
  - right. reflexivity.
  - left. split; reflexivity.
Defined.

(** X15. Without an embedding provider a message is stored as it is: for a
    message the handler takes up, whose sender the lookup does not report as
    opted out, whose [message_id] is new and whose insert is served, each
    version of the handler adds exactly one row to [conversations], carrying
    the fields of the message and a null vector, and sends no request to any
    embedding back end. *)
Theorem ingest_without_provider_stores :
  forall (ctx : Context) (message : TgMessage) (text : string) (user : TgUser)
         (chatId : Z) (w : World) (client : SupabaseClient) (next : M unit),
    well_formed ctx message text user chatId ->
    supabaseClient w = Some client ->
    lookup_open (u_id user) (List.length (calls w)) w ->
    embeddingsAvailable w = false ->
    db_fault (env w) (S (List.length (calls w))) = NoFault ->
    fresh_serial (db w) ->
    has_message_id (m_message_id message) (conversations (db w)) = false ->
    (exists w', V0.onMessage ctx w = (Normal tt, w') /\
                stored_plain message text user chatId w w') /\
    (exists w', V1.onMessage ctx next w = next w' /\
                stored_plain message text user chatId w w') /\
    (exists w', Webhook.onMessage ctx next w = next w' /\
                stored_plain message text user chatId w w').
Proof.
  intros ctx message text user chatId w client next Wf H L A S F N.
  split; [|split].
  - now apply V0_stores with client.
  - now apply V1_stores with client.
  - now apply Webhook_stores with client.
Qed.

(** X15, on scenario 1 of the specification: sender 42 writes "hello" in
    conversation 100 and no provider is configured. *)
Lemma ingest_without_provider_stores_witness :
  (exists w',
      V0.onMessage Scenario.delivery_555 Scenario.ready = (Normal tt, w') /\
      stored_plain Cases.message_555 "hello" (Cases.alice 42) 100 Scenario.ready w') /\
  (exists w',
      V0.onMessage Scenario.hi_from_7 Cases.lookup_down_7 = (Normal tt, w') /\
      stored_plain Cases.message_9 "hi" (Cases.alice 7) 100 Cases.lookup_down_7 w').
Proof.
  assert (W : well_formed Scenario.delivery_555 Cases.message_555 "hello"
                (Cases.alice 42) 100) by (repeat split).
  assert (W7 : well_formed Scenario.hi_from_7 Cases.message_9 "hi"
                 (Cases.alice 7) 100) by (repeat split).
  split.
  - refine (proj1 (ingest_without_provider_stores _ _ _ _ _ Scenario.ready _ (ret tt)
                     W eq_refl _ eq_refl eq_refl eq_refl eq_refl)).
    right. reflexivity.
  - refine (proj1 (ingest_without_provider_stores _ _ _ _ _ Cases.lookup_down_7 _
                     (ret tt) W7 eq_refl _ eq_refl eq_refl eq_refl eq_refl)).
    left. vm_compute. discriminate.
Defined.

(** A [try] whose [catch] only logs ends normally. *)
Lemma try_catch_logs (body : M unit) (line : string) (w : World) :
  exists w', try_catch body (fun _ => Logger.error line) w = (Normal tt, w').
Proof.
  unfold try_catch. destruct (body w) as [[[]|ex] w1].
  - eauto.
  - unfold Logger.error. rewrite at_level_eq. eauto.
Qed.

(** X16. No version of the ingestion handler raises, in any world and for
    any update, also before [initSupabase] was called: the handler of the
    first [bot.ts] ends normally, and the later ones hand over to [next],
    called exactly once, after their own work, in a world that does not
    depend on [next]. *)
Theorem handlers_never_raise :
  forall (ctx : Context) (w : World),
    (exists w', V0.onMessage ctx w = (Normal tt, w')) /\
    (exists w', forall next : M unit, V1.onMessage ctx next w = next w') /\
    (exists w', forall next : M unit, Webhook.onMessage ctx next w = next w').
Proof.
  intros ctx w. split; [|split].
  - apply try_catch_logs.
  - destruct (try_catch_logs (V1.ingest ctx) "Error processing message:" w)
      as [w' E].
    exists w'. intros next. unfold V1.onMessage, bind. now rewrite E.
  - destruct (try_catch_logs (Webhook.ingest ctx) "Error processing message:" w)
      as [w' E].
    exists w'. intros next. unfold Webhook.onMessage, bind. now rewrite E.
Qed.

(** X17. An update without a text (none, or the empty string) or without a
    sender is dropped before anything leaves the process: no version of the
    handler makes any call, to the database or to a back end. *)
Theorem updates_without_text_or_sender_make_no_call :
  forall (ctx : Context) (w : World) (next : M unit),
    message_with_text ctx = None \/ ctx_from ctx = None ->
    (exists w', V0.onMessage ctx w = (Normal tt, w') /\
                calls w' = calls w /\ db w' = db w) /\
    (exists w', V1.onMessage ctx next w = next w' /\
                calls w' = calls w /\ db w' = db w) /\
    (exists w', Webhook.onMessage ctx next w = next w' /\
                calls w' = calls w /\ db w' = db w).
Proof.
  intros ctx w next D.
  assert (C : message_with_text ctx = None \/
              exists m t, message_with_text ctx = Some (m, t) /\ ctx_from ctx = None).
  { destruct (message_with_text ctx) as [[m t]|]; [|now left].
    destruct D as [D|D]; [discriminate|]. right. eauto. }
  split; [|split].
  - unfold V0.onMessage. mstep.
    destruct C as [->|(m & t & -> & ->)]; mstep; eexists; repeat split.
  - unfold V1.onMessage, V1.ingest. mstep.
    destruct C as [->|(m & t & -> & ->)]; mstep; eexists; repeat split.
  - unfold Webhook.onMessage, Webhook.ingest. mstep.
    destruct C as [->|(m & t & -> & ->)]; mstep; eexists; repeat split.
Qed.

(** X17, on a photo without caption (no text) and on an empty text. *)
Lemma updates_without_text_or_sender_make_no_call_witness :
  (exists w',
      V0.onMessage (mkContext (Some (mkTgMessage 1 None 1700000000))
                      (Some (Cases.alice 42)) (Some 100)) Scenario.ready
      = (Normal tt, w') /\
      calls w' = calls Scenario.ready /\ db w' = db Scenario.ready) /\
  (exists w',
      V0.onMessage (mkContext (Some (mkTgMessage 1 (Some EmptyString) 1700000000))
                      (Some (Cases.alice 42)) (Some 100)) Scenario.ready
      = (Normal tt, w') /\
      calls w' = calls Scenario.ready /\ db w' = db Scenario.ready).
Proof.
  split.
  - refine (proj1 (updates_without_text_or_sender_make_no_call _ Scenario.ready
                     (ret tt) _)). left. reflexivity.
  - refine (proj1 (updates_without_text_or_sender_make_no_call _ Scenario.ready
                     (ret tt) _)). left. reflexivity.
Defined.

(** The lookup in any world: it may throw (before [initSupabase]) or
    answer, and all it does besides is print lines and send its request. *)
Lemma isUserOptedOut_frame (userId : Z) (w : World) :
  exists r lines cs,
    isUserOptedOut userId w = (r, after lines cs w) /\ insert_calls cs = [].
Proof.
  unfold isUserOptedOut, getSupabaseClient, opt_out_users_select_id_single, send,
    after.
  mstep. destruct (supabaseClient w); mstep.
  2:{ eexists _, [], []. rewrite !app_nil_r. split; [|reflexivity].
      f_equal. destruct w; reflexivity. }
  destruct (db_fault (env w) (List.length (calls w))) as [|err|ex]; mstep.
  - unfold serve_select_opt_out_single. cbn.
    destruct (filter _ _) as [|r [|r' rest]]; mstep;
      eexists _, [], [_]; rewrite app_nil_r; split; reflexivity.
  - destruct (negb _); mstep.
    + eexists _, _, [_]. split; reflexivity.
    + eexists _, [], [_]. rewrite app_nil_r. split; reflexivity.
  - eexists _, _, [_]. split; reflexivity.
Qed.

(** X18. An update without a chat (or with chat id 0) is never inserted, in
    any world; the handlers check the chat only after the opt-out lookup, so
    the lookup may have been sent, but the database is unchanged and no
    insert is sent. *)
Theorem updates_without_chat_insert_nothing :
  forall (ctx : Context) (w : World) (next : M unit),
    truthy_chat_id ctx = None ->
    (exists w', V0.onMessage ctx w = (Normal tt, w') /\
                insert_calls (calls w') = insert_calls (calls w) /\ db w' = db w) /\
    (exists w', V1.onMessage ctx next w = next w' /\
                insert_calls (calls w') = insert_calls (calls w) /\ db w' = db w) /\
    (exists w', Webhook.onMessage ctx next w = next w' /\
                insert_calls (calls w') = insert_calls (calls w) /\ db w' = db w).
Proof.
  intros ctx w next C.
  split; [|split].
  - unfold V0.onMessage. mstep.
    destruct (message_with_text ctx) as [[m t]|]; mstep;
      [|eexists; repeat split].
    destruct (ctx_from ctx) as [user|]; mstep; [|eexists; repeat split].
    destruct (isUserOptedOut_frame (u_id user) w) as (r & lines & cs & E & I).
    rewrite E. destruct r as [[]|ex]; mstep; rewrite ?C; mstep;
      eexists; (split; [reflexivity|]); cbn; autorewrite with frame;
      rewrite I; autorewrite with frame; split; reflexivity.
  - unfold V1.onMessage, V1.ingest. mstep.
    destruct (message_with_text ctx) as [[m t]|]; mstep;
      [|eexists; repeat split].
    destruct (ctx_from ctx) as [user|]; mstep; [|eexists; repeat split].
    match goal with |- context [isUserOptedOut _ ?w0] =>
      destruct (isUserOptedOut_frame (u_id user) w0) as (r & lines & cs & E & I) end.
    rewrite E. destruct r as [[]|ex]; mstep; rewrite ?C; mstep;
      eexists; (split; [reflexivity|]); cbn; autorewrite with frame;
      rewrite I; autorewrite with frame; split; reflexivity.
  - unfold Webhook.onMessage, Webhook.ingest. mstep.
    destruct (message_with_text ctx) as [[m t]|]; mstep;
      [|eexists; repeat split].
    destruct (ctx_from ctx) as [user|]; mstep; [|eexists; repeat split].
    match goal with |- context [isUserOptedOut _ ?w0] =>
      destruct (isUserOptedOut_frame (u_id user) w0) as (r & lines & cs & E & I) end.
    rewrite E. destruct r as [[]|ex]; mstep; rewrite ?C; mstep;
      eexists; (split; [reflexivity|]); cbn; autorewrite with frame;
      rewrite I; autorewrite with frame; split; reflexivity.
Qed.

(** X18, on a text message without chat. *)
Lemma updates_without_chat_insert_nothing_witness :
  exists w',
    V0.onMessage (mkContext (Some Cases.message_555) (Some (Cases.alice 42)) None)
      Scenario.ready
    = (Normal tt, w') /\
    insert_calls (calls w') = insert_calls (calls Scenario.ready) /\
    db w' = db Scenario.ready.
Proof.
  exact (proj1 (updates_without_chat_insert_nothing
                  (mkContext (Some Cases.message_555) (Some (Cases.alice 42)) None)
                  Scenario.ready (ret tt) eq_refl)).
Defined.

(* ================================================================== *)
(** ** Configuration *)

Lemma or_default_empty (value : option string) :
  truthy_string (Config.or_default value EmptyString) = truthy_opt_string value.
Proof.
  destruct value as [s|]; cbn; [|reflexivity].
  destruct (truthy_string s) eqn:E; [exact E|reflexivity].
Qed.

Lemma or_default_set (value : option string) :
  truthy_opt_string value = true -> value = Some (Config.or_default value EmptyString).
Proof.
  destruct value as [s|]; cbn; [|discriminate]. now intros ->.
Qed.

(** What [validateConfig] does, by cases. *)
Lemma validateConfig_outcome (config : Config.BotConfig) (w : World) :
  exists r lines,
    Config.validateConfig config w = (r, set_console (console w ++ lines) w) /\
    (Config.acceptable config = true -> r = Normal tt) /\
    (Config.acceptable config = false -> exists e, r = Throw e).
Proof.
  unfold Config.validateConfig, Config.missing, Config.acceptable, Config.required.
  cbn.
  destruct (truthy_string (Config.telegramBotToken config));
    destruct (truthy_string (Config.supabaseUrl config));
    destruct (truthy_string (Config.supabaseKey config)); cbn;
    try (unfold throw; eexists _, []; rewrite app_nil_r, set_console_same;
         split; [reflexivity|]; split; [discriminate|eauto]).
  destruct (negb _ && negb _)%bool; mstep;
    destruct ((Config.mode config =? "webhook")%string);
    destruct (truthy_opt_string (Config.webhookUrl config)); mstep;
    rewrite <- ?app_assoc;
    first [ eexists _, _; split; [reflexivity|]
          | eexists _, []; rewrite app_nil_r, set_console_same;
            split; [reflexivity|] ];
    split; intros; try discriminate; eauto.
Qed.

(** X19. [validateConfig] accepts a configuration exactly when it has the
    three mandatory values and, in webhook mode, a webhook URL; otherwise it
    throws.  Missing embedding keys never make it throw.  Either way it only
    prints: the database, the calls and the module variables are untouched. *)
Theorem validateConfig_accepts_exactly :
  forall (config : Config.BotConfig) (w : World),
    exists r lines,
      Config.validateConfig config w = (r, set_console (console w ++ lines) w) /\
      (r = Normal tt <-> Config.acceptable config = true).
Proof.
  intros config w.
  destruct (validateConfig_outcome config w) as (r & lines & E & A & R).
  exists r, lines. split; [exact E|]. split.
  - intros ->. destruct (Config.acceptable config); [reflexivity|].
    destruct (R eq_refl) as [e X]. discriminate.
  - exact A.
Qed.

(** X20. [loadConfig] returns a configuration exactly when the environment
    has non-empty [TELEGRAM_BOT_TOKEN], [SUPABASE_URL] and [SUPABASE_KEY]
    and, if [BOT_MODE] is [webhook], a non-empty [WEBHOOK_URL]; otherwise it
    throws.  The configuration it returns carries the three mandatory
    values as they are in the environment, the optional keys and the
    webhook URL verbatim, and as mode the value of [BOT_MODE], whatever it
    is, or [polling] when that is unset or empty. *)
Theorem loadConfig_reads_environment :
  forall (parseInt10 : string -> option Z) (penv : Config.ProcessEnv) (w : World),
    (Config.sufficient penv = false ->
     exists e w', Config.loadConfig parseInt10 penv w = (Throw e, w')) /\
    (Config.sufficient penv = true ->
     exists config w',
       Config.loadConfig parseInt10 penv w = (Normal config, w') /\
       penv "TELEGRAM_BOT_TOKEN" = Some (Config.telegramBotToken config) /\
       penv "SUPABASE_URL" = Some (Config.supabaseUrl config) /\
       penv "SUPABASE_KEY" = Some (Config.supabaseKey config) /\
       Config.openaiApiKey config = penv "OPENAI_API_KEY" /\
       Config.geminiApiKey config = penv "GEMINI_API_KEY" /\
       Config.webhookUrl config = penv "WEBHOOK_URL" /\
       Config.mode config = Config.or_default (penv "BOT_MODE") "polling").
Proof.
  intros parseInt10 penv w.
  unfold Config.loadConfig.
  set (config := Config.mkBotConfig _ _ _ _ _ _ _ _).
  assert (A : Config.acceptable config = Config.sufficient penv).
  { unfold Config.acceptable, Config.sufficient, Config.set_in. subst config. cbn.
    now rewrite !or_default_empty. }
  destruct (validateConfig_outcome config w) as (r & lines & E & Ha & Hr).
  unfold bind. rewrite E. rewrite A in *. split.
  - intros S. destruct (Hr S) as [e ->]. eauto.
  - intros S. rewrite (Ha S). exists config. eexists. split; [reflexivity|].
    unfold Config.sufficient, Config.set_in in S.
    apply andb_prop in S. destruct S as [S _].
    apply andb_prop in S. destruct S as [S Sk].
    apply andb_prop in S. destruct S as [St Su].
    subst config. cbn.
    repeat split; now apply or_default_set.
Qed.

(** X20, on an environment for polling mode, and on one that asks for
    webhook mode without a webhook URL. *)
Lemma loadConfig_reads_environment_witness :
  (exists config w',
      Config.loadConfig Cases.parse_3000 Cases.polling_env Scenario.fresh
      = (Normal config, w') /\
      Config.mode config = "polling" /\ Config.port config = Some 3000) /\
  (exists e w',
      Config.loadConfig Cases.parse_3000 Cases.webhook_env_without_url Scenario.fresh
      = (Throw e, w')).
Proof.
  split.
  - destruct (proj2 (loadConfig_reads_environment Cases.parse_3000 Cases.polling_env
                       Scenario.fresh) eq_refl)
      as (config & w' & E & _ & _ & _ & _ & _ & _ & M).
    exists config, w'. split; [exact E|]. split; [exact M|].
    vm_compute in E. injection E as <- _. reflexivity.
  - exact (proj1 (loadConfig_reads_environment Cases.parse_3000
                    Cases.webhook_env_without_url Scenario.fresh) eq_refl).
Defined.

(** X19, on a configuration without embedding keys, and on one in webhook
    mode without a webhook URL. *)
Lemma validateConfig_accepts_exactly_witness :
  fst (Config.validateConfig
         (Config.mkBotConfig "123456:ABC-DEF" "https://byzved.supabase.co" "anon-key"
            None None None (Some 3000) "polling") Scenario.fresh)
  = Normal tt /\
  fst (Config.validateConfig
         (Config.mkBotConfig "123456:ABC-DEF" "https://byzved.supabase.co" "anon-key"
            None None None (Some 3000) "webhook") Scenario.fresh)
  <> Normal tt.
Proof.
  split.
  - destruct (validateConfig_accepts_exactly
                (Config.mkBotConfig "123456:ABC-DEF" "https://byzved.supabase.co"
                   "anon-key" None None None (Some 3000) "polling") Scenario.fresh)
      as (r & lines & E & I).
    rewrite E. apply I. reflexivity.
  - destruct (validateConfig_accepts_exactly
                (Config.mkBotConfig "123456:ABC-DEF" "https://byzved.supabase.co"
                   "anon-key" None None None (Some 3000) "webhook") Scenario.fresh)
      as (r & lines & E & I).
    rewrite E. intros N. apply I in N. discriminate.
Defined.

Lemma getMaskedConfig_same (a b : Config.BotConfig) :
  Config.mode a = Config.mode b ->
  Config.port a = Config.port b ->
  Config.supabaseUrl a = Config.supabaseUrl b ->
  Config.webhookUrl a = Config.webhookUrl b ->
  truthy_opt_string (Config.openaiApiKey a)
  = truthy_opt_string (Config.openaiApiKey b) ->
  truthy_opt_string (Config.geminiApiKey a)
  = truthy_opt_string (Config.geminiApiKey b) ->
  Config.getMaskedConfig a = Config.getMaskedConfig b.
Proof.
  intros M P U W O G. unfold Config.getMaskedConfig.
  now rewrite M, P, U, W, O, G.
Qed.

Lemma loadConfig_value (parseInt10 : string -> option Z) (penv : Config.ProcessEnv)
    (w w' : World) (config : Config.BotConfig) :
  Config.loadConfig parseInt10 penv w = (Normal config, w') ->
  config
  = Config.mkBotConfig
      (Config.or_default (penv "TELEGRAM_BOT_TOKEN") EmptyString)
      (Config.or_default (penv "SUPABASE_URL") EmptyString)
      (Config.or_default (penv "SUPABASE_KEY") EmptyString)
      (penv "OPENAI_API_KEY") (penv "GEMINI_API_KEY") (penv "WEBHOOK_URL")
      (parseInt10 (Config.or_default (penv "PORT") "3000"))
      (Config.or_default (penv "BOT_MODE") "polling").
Proof.
  unfold Config.loadConfig, bind, ret.
  destruct (Config.validateConfig _ w) as [[[]|e] w1]; [|discriminate].
  intros [= <- _]. reflexivity.
Qed.

(** X21. What is logged of a loaded configuration shows no secret: the
    masked object of a configuration that [loadConfig] returned depends only
    on [BOT_MODE], [PORT], [SUPABASE_URL], [WEBHOOK_URL] and on whether
    [OPENAI_API_KEY] and [GEMINI_API_KEY] are set.  Two environments that
    agree on these give the same masked object, whatever their bot token,
    Supabase key and embedding keys are. *)
Theorem masked_config_hides_secrets :
  forall (parseInt10 : string -> option Z) (p q : Config.ProcessEnv)
         (w1 w1' w2 w2' : World) (a b : Config.BotConfig),
    Config.loadConfig parseInt10 p w1 = (Normal a, w1') ->
    Config.loadConfig parseInt10 q w2 = (Normal b, w2') ->
    p "BOT_MODE" = q "BOT_MODE" ->
    p "PORT" = q "PORT" ->
    p "SUPABASE_URL" = q "SUPABASE_URL" ->
    p "WEBHOOK_URL" = q "WEBHOOK_URL" ->
    Config.set_in p "OPENAI_API_KEY" = Config.set_in q "OPENAI_API_KEY" ->
    Config.set_in p "GEMINI_API_KEY" = Config.set_in q "GEMINI_API_KEY" ->
    Config.getMaskedConfig a = Config.getMaskedConfig b.
Proof.
  intros parseInt10 p q w1 w1' w2 w2' a b La Lb M P U W O G.
  rewrite (loadConfig_value _ _ _ _ _ La), (loadConfig_value _ _ _ _ _ Lb).
  unfold Config.set_in in *. apply getMaskedConfig_same; cbn; congruence.
Qed.

(** X21, on two environments that differ in the bot token and in the
    Supabase key. *)
Lemma masked_config_hides_secrets_witness :
  Config.getMaskedConfig
    (Config.mkBotConfig "123456:ABC-DEF" "https://byzved.supabase.co" "anon-key"
       None None None (Some 3000) "polling")
  = Config.getMaskedConfig
      (Config.mkBotConfig "654321:XYZ" "https://byzved.supabase.co" "service-key"
         None None None (Some 3000) "polling").
Proof.
  eapply (masked_config_hides_secrets Cases.parse_3000 Cases.polling_env
            Cases.polling_env_other_secrets Scenario.fresh _ Scenario.fresh _);
    reflexivity.
Defined.

(* ================================================================== *)
(** ** The [catch] blocks of [api/webhook.ts] *)

Lemma lines_at_app (level : LogLevel) (a b : list LogEntry) :
  lines_at level (a ++ b) = (lines_at level a ++ lines_at level b)%list.
Proof. unfold lines_at. now rewrite filter_app, map_app. Qed.

Lemma no_warn_debug (current : LogLevel) (line : string) :
  lines_at WARN (printed current DEBUG line) = [].
Proof. unfold printed. now destruct (Logger._shouldLog _ _). Qed.

Lemma no_warn_info (current : LogLevel) (line : string) :
  lines_at WARN (printed current INFO line) = [].
Proof. unfold printed. now destruct (Logger._shouldLog _ _). Qed.

Lemma no_warn_error (current : LogLevel) (line : string) :
  lines_at WARN (printed current ERROR line) = [].
Proof. unfold printed. now destruct (Logger._shouldLog _ _). Qed.

Create Rewrite HintDb quiet.
#[local] Hint Rewrite calls_after console_after supabaseClient_after db_after
  env_after available_after provider_after logLevel_after
  lines_at_app no_warn_debug no_warn_info no_warn_error app_nil_r : quiet.

(** With an initialised client the lookup answers, and prints nothing at
    [WARN]. *)
Lemma isUserOptedOut_quiet (userId : Z) (w : World) (client : SupabaseClient) :
  supabaseClient w = Some client ->
  exists b lines,
    isUserOptedOut userId w
    = (Normal b, after lines [CallDb (SelectOptOutSingle userId)] w) /\
    lines_at WARN lines = [].
Proof.
  intros H.
  unfold isUserOptedOut, opt_out_users_select_id_single, send, after.
  unfold bind at 1. rewrite (getSupabaseClient_initialized _ _ H).
  mstep.
  destruct (db_fault (env w) (List.length (calls w))) as [|err|ex]; mstep.
  - unfold serve_select_opt_out_single. cbn.
    destruct (filter _ _) as [|r [|r' rest]]; mstep;
      eexists _, []; rewrite app_nil_r; split; reflexivity.
  - destruct (negb _); mstep.
    + eexists _, _. split; [reflexivity|]. apply no_warn_error.
    + eexists _, []. rewrite app_nil_r. split; reflexivity.
  - eexists _, _. split; [reflexivity|]. apply no_warn_error.
Qed.

(** [generateEmbedding] prints nothing at [WARN], in any world. *)
Lemma generateEmbedding_quiet (text : string) (w : World) :
  exists r lines cs,
    generateEmbedding text w = (Normal r, after lines cs w) /\
    lines_at WARN lines = [].
Proof.
  unfold generateEmbedding, generateOpenAIEmbedding, generateGeminiEmbedding,
    embeddings_create, embedContent, datum_embedding, result_values, after.
  mstep.
  destruct (embeddingsAvailable w); mstep.
  2:{ eexists _, [], []. rewrite !app_nil_r. split; [|reflexivity].
      f_equal. destruct w; reflexivity. }
  destruct (embeddingsProvider w) as [[]|]; mstep.
  - destruct (openaiClient w); mstep.
    + destruct (openai_embeddings_create _ _ _) as [r|ex]; mstep.
      * destruct (r_data r) as [data|]; mstep.
        -- eexists _, [], [_]. rewrite app_nil_r. split; reflexivity.
        -- eexists _, _, [_]. split; [reflexivity|]. apply no_warn_error.
      * eexists _, _, [_]. split; [reflexivity|]. apply no_warn_error.
    + eexists _, [], []. rewrite !app_nil_r. split; [|reflexivity].
      f_equal. destruct w; reflexivity.
  - destruct (geminiClient w); mstep.
    + destruct (gemini_embedContent _ _ _) as [r|ex]; mstep.
      * destruct (g_embedding r) as [values|]; mstep.
        -- eexists _, [], [_]. rewrite app_nil_r. split; reflexivity.
        -- eexists _, _, [_]. split; [reflexivity|]. apply no_warn_error.
      * eexists _, _, [_]. split; [reflexivity|]. apply no_warn_error.
    + eexists _, [], []. rewrite !app_nil_r. split; [|reflexivity].
      f_equal. destruct w; reflexivity.
  - eexists _, [], []. rewrite !app_nil_r. split; [|reflexivity].
    f_equal. destruct w; reflexivity.
Qed.

(** The Record Builder returns or throws, and leaves the world as it is. *)
Lemma dbRecord_cases (telegramMessage : TelegramMessage) (v : option Vector)
    (w : World) :
  exists r, dbRecord telegramMessage v w = (r, w).
Proof.
  unfold dbRecord, Supabase.toISOString.
  destruct (toISOString_opt _); mstep; eauto.
Qed.

#[local] Arguments lines_at : simpl never.

Ltac settle := repeat (progress (cbn; autorewrite with quiet)).

(** X22. With an initialised client, the handler of [api/webhook.ts] never
    prints a line at [WARN], for any update and whatever the services do:
    its three inner [catch] blocks (opt-out check failed, embedding
    generation failed, duplicate message detected) are never entered,
    because [isUserOptedOut], [generateEmbedding] and [insertMessage] do not
    throw. *)
Theorem webhook_never_warns :
  forall (ctx : Context) (w : World) (client : SupabaseClient) (next : M unit),
    supabaseClient w = Some client ->
    exists w',
      Webhook.onMessage ctx next w = next w' /\
      lines_at WARN (console w') = lines_at WARN (console w).
Proof.
  intros ctx w client next H.
  assert (Q : forall a b : list LogEntry,
             lines_at WARN b = [] -> lines_at WARN (a ++ b) = lines_at WARN a).
  { intros a b E. now rewrite lines_at_app, E, app_nil_r. }
  unfold Webhook.onMessage, Webhook.ingest. mstep.
  destruct (message_with_text ctx) as [[message text]|]; mstep.
  2:{ eexists. split; [reflexivity|]. settle. reflexivity. }
  destruct (ctx_from ctx) as [user|]; mstep.
  2:{ eexists. split; [reflexivity|]. settle. reflexivity. }
  match goal with |- context [isUserOptedOut _ ?w0] =>
    destruct (isUserOptedOut_quiet (u_id user) w0 client H)
      as (b & l1 & E1 & Q1); rewrite E1 end.
  mstep. destruct b; mstep.
  { eexists. split; [reflexivity|]. settle. rewrite Q1; now rewrite ?app_nil_r. }
  destruct (truthy_chat_id ctx) as [chatId|]; mstep.
  2:{ eexists. split; [reflexivity|]. settle. rewrite Q1; now rewrite ?app_nil_r. }
  change (embeddingsAvailable (after _ _ _)) with (embeddingsAvailable w).
  destruct (embeddingsAvailable w); mstep.
  - match goal with |- context [generateEmbedding _ ?w1] =>
      destruct (generateEmbedding_quiet text w1) as (r & l2 & cs & E2 & Q2);
        rewrite E2 end.
    mstep.
    match goal with |- context [dbRecord ?t ?v ?w2] =>
      destruct (dbRecord_cases t v w2) as (d & E3); rewrite E3 end.
    destruct d as [record|ex]; mstep.
    + match goal with |- context [insertMessage ?r ?w2] =>
        destruct (insertMessage_sends r w2 client H)
          as (res & w3 & E4 & _ & _ & l4 & C4 & Q4); rewrite E4 end.
      mstep.
      destruct res; mstep; eexists; (split; [reflexivity|]); cbn;
        rewrite C4; settle; rewrite Q1, Q2, Q4; now rewrite ?app_nil_r.
    + eexists. split; [reflexivity|]. settle.
      rewrite Q1, Q2; now rewrite ?app_nil_r.
  - match goal with |- context [dbRecord ?t ?v ?w2] =>
      destruct (dbRecord_cases t v w2) as (d & E3); rewrite E3 end.
    destruct d as [record|ex]; mstep.
    + match goal with |- context [insertMessage ?r ?w2] =>
        destruct (insertMessage_sends r w2 client H)
          as (res & w3 & E4 & _ & _ & l4 & C4 & Q4); rewrite E4 end.
      mstep.
      destruct res; mstep; eexists; (split; [reflexivity|]); cbn;
        rewrite C4; settle; rewrite Q1, Q4; now rewrite ?app_nil_r.
    + eexists. split; [reflexivity|]. settle.
      rewrite Q1; now rewrite ?app_nil_r.
Qed.

(** X22, on the second delivery of message 555, which the store refuses as a
    duplicate. *)
Lemma webhook_never_warns_witness :
  exists w',
    Webhook.onMessage Scenario.delivery_555 (ret tt) Scenario.delivered_once
    = (Normal tt, w') /\
    lines_at WARN (console w') = lines_at WARN (console Scenario.delivered_once).
Proof.
  exact (webhook_never_warns Scenario.delivery_555 Scenario.delivered_once _
           (ret tt) eq_refl).
Defined.
